(** * Booking, availability, quota, session and tagging core of the
      fieldsports platform (db_helpers.py over the tables of database.py)

    The helpers of db_helpers.py are embedded as functions over an explicit
    state [DB].  Every helper opens its own SQLAlchemy session, reads and
    writes rows and commits, so a helper is a function from the state
    before the call to a result and the state after it.

    Conventions of the embedding
    - Python integers are [Z]; strings are [string]; nullable columns and
      optional dictionary keys are [option];
    - the clock ([datetime.utcnow()], [datetime.now()]) and the random
      source ([uuid.uuid4()]) are inputs of the helper that consults them;
    - the storage layer is the PostgreSQL server that database.py connects
      to, and it is assumed to answer (no connection failure).  Its
      integrity rules are part of the model: the foreign keys declared in
      database.py between users, fields, bookings, hunt_sessions,
      hunt_reports and animal_tags, the unique index on
      [animal_tags.tag_number], and the 32-bit range of [Integer] columns.
      A statement that breaks one of them raises; the helper's [except]
      branch then returns its failure value and the transaction is rolled
      back.  A value drawn from a serial sequence by a refused INSERT is
      not given back;
    - a table is the list of its rows in the order in which a query
      without [order_by] returns them, and [Query.first()] is the first
      matching row of that list.  The model takes this to be the order of
      insertion and keeps an updated row at its place; a server is free to
      return an updated row later.  The statements below that concern a
      query with several candidate rows are therefore stated for any of
      them, or under the invariant that leaves one candidate;
    - the image files that tag issuance writes are recorded by their paths;
      the directories qr_codes and animal_photos are taken to exist. *)

From Stdlib Require Import ZArith List String Bool Lia DecimalString.
Import ListNotations.
Open Scope string_scope.
Open Scope list_scope.
Open Scope Z_scope.

(** ** Rows (database.py) *)

Inductive booking_status := pending | confirmed | cancelled | rejected.
Inductive session_status := not_started | active | completed.
Inductive field_kind := diy_leased | subsidised | international.

(** One element of the JSON column [fields.quarry_species]: a dictionary
    read with [quarry.get('species')], [quarry.get('remaining', 0)],
    [q.get('total', 0)]. *)
Record QuarryEntry := mkQuarry {
  q_species : option string;
  q_total : option Z;
  q_remaining : option Z
}.

Record User := mkUser {
  u_id : Z;
  u_name : string
}.

Record Field := mkField {
  f_id : Z;
  f_name : string;
  f_capacity : Z;
  f_blocked_dates : option (list string);
  f_field_type : field_kind;
  f_quarry_total : option Z;
  f_quarry_remaining : option Z;
  f_quarry_species : option (list QuarryEntry);
  f_auto_approve_bookings : bool;
  f_last_visit_date : option string;
  f_last_visit_had_harvest : option bool
}.

Record Booking := mkBooking {
  b_id : Z;
  b_field_id : Z;
  b_hunter_id : Z;
  b_date : string;
  b_num_hunters : Z;
  b_total_price : Z;
  b_status : booking_status;
  b_payment_method : string;
  b_payment_id : string
}.

Record HuntSession := mkSession {
  s_id : Z;
  s_booking_id : Z;
  s_hunter_id : Z;
  s_field_id : Z;
  s_start_time : option Z;
  s_end_time : option Z;
  s_status : session_status
}.

(** One element of [report_data['species_harvested']].  The helper reads
    the species under the key ['species'] and, failing that, under the key
    [' species'] (with a leading blank). *)
Record HarvestEntry := mkHarvest {
  h_species : option string;
  h_species_blank : option string;
  h_quantity : option Z
}.

(** The dictionary [report_data]; every key is optional. *)
Record ReportData := mkReportData {
  rd_animals_harvested : option Z;
  rd_species_harvested : option (list HarvestEntry);
  rd_ground_remarks : option string;
  rd_review_rating : option Z;
  rd_review_text : option string;
  rd_success : option bool
}.

Record HuntReport := mkReport {
  r_id : Z;
  r_session_id : Z;
  r_field_id : Z;
  r_hunter_id : Z;
  r_animals_harvested : Z;
  r_species_harvested : list HarvestEntry;
  r_ground_remarks : string;
  r_review_rating : option Z;
  r_review_text : string;
  r_success : bool
}.

Record AnimalTag := mkTag {
  t_id : Z;
  t_tag_number : string;
  t_hunt_report_id : Z;
  t_hunter_id : Z;
  t_field_id : Z;
  t_species : string;
  t_condition : string;
  t_photo_path : option string;
  t_qr_code_path : string;
  t_animal_tag : option string;
  t_disease_type : option string;
  t_notes : option string
}.

(** The state the helpers act on: the tables, the next value of each
    serial sequence, and the paths of the image files written so far. *)
Record DB := mkDB {
  users : list User;
  fields : list Field;
  bookings : list Booking;
  sessions : list HuntSession;
  reports : list HuntReport;
  tags : list AnimalTag;
  next_booking_id : Z;
  next_session_id : Z;
  next_report_id : Z;
  next_tag_id : Z;
  files : list string
}.

Definition empty_db : DB := mkDB [] [] [] [] [] [] 1 1 1 1 [].

(** ** Integrity rules of the storage layer *)

(** The classes of error the server raises for a refused statement. *)
Inductive db_error :=
| numeric_value_out_of_range
| foreign_key_violation
| unique_violation.

(** [str(e)] for such an error, reduced to the server's primary message
    (the real text goes on with the names of the constraint and of the
    statement). *)
Definition exception_text (e : db_error) : string :=
  match e with
  | numeric_value_out_of_range => "integer out of range"
  | foreign_key_violation => "violates foreign key constraint"
  | unique_violation => "duplicate key value violates unique constraint"
  end.

(** An [Integer] column holds a 32-bit signed value. *)
Definition int4 (n : Z) : bool := (-2147483648 <=? n) && (n <=? 2147483647).

(** An UPDATE carries the columns whose value changed: a new value of an
    [Integer] column has to fit unless it is the stored one. *)
Definition integer_update_fits (stored new : option Z) : bool :=
  match new with
  | Some n => match stored with Some o => n =? o | None => false end || int4 n
  | None => true
  end.

(** Whether a table has a row with the given primary key. *)
Definition has_row {A : Type} (key : A -> Z) (rows : list A) (k : Z) : bool :=
  existsb (fun x => key x =? k) rows.

(** The state after a refused statement: the transaction is rolled back.
    An out-of-range value is refused before the row is formed; a
    constraint is tested on the formed row, whose serial id is then lost,
    so that [skipped] is the state with the sequence advanced. *)
Definition rolled_back (e : db_error) (db skipped : DB) : DB :=
  match e with
  | numeric_value_out_of_range => db
  | foreign_key_violation | unique_violation => skipped
  end.

(** ** Queries *)

(** [Booking.status.in_(['confirmed', 'pending'])] *)
Definition is_active (s : booking_status) : bool :=
  match s with
  | pending | confirmed => true
  | cancelled | rejected => false
  end.

(** [db.query(Field).filter(Field.id == field_id).first()] *)
Definition get_field (db : DB) (field_id : Z) : option Field :=
  find (fun f => f_id f =? field_id) (fields db).

(** [db.query(User).filter(User.id == user_id).first()] *)
Definition get_user (db : DB) (user_id : Z) : option User :=
  find (fun u => u_id u =? user_id) (users db).

(** [db.query(HuntSession).filter(HuntSession.id == session_id).first()] *)
Definition get_session (db : DB) (session_id : Z) : option HuntSession :=
  find (fun s => s_id s =? session_id) (sessions db).

Definition hunter_day_filter (hunter_id : Z) (date : string) (b : Booking) : bool :=
  (b_hunter_id b =? hunter_id) && (b_date b =? date)%string && is_active (b_status b).

Definition field_day_filter (field_id : Z) (date : string) (b : Booking) : bool :=
  (b_field_id b =? field_id) && (b_date b =? date)%string && is_active (b_status b).

Definition sum_Z (l : list Z) : Z := fold_right Z.add 0 l.

(** [sum(b.num_hunters for b in bookings_on_date)] of check_availability. *)
Definition hunters_booked (db : DB) (field_id : Z) (date : string) : Z :=
  sum_Z (map b_num_hunters (filter (field_day_filter field_id date) (bookings db))).

(** Python's [str(n)] for an integer. *)
Definition str_of_Z (n : Z) : string := NilZero.string_of_int (Z.to_int n).

(** [x in l] for a list of strings. *)
Definition mem_string (x : string) (l : list string) : bool :=
  existsb (String.eqb x) l.

(** ** check_hunter_has_booking_on_date, create_booking, check_availability *)

Definition check_hunter_has_booking_on_date (hunter_id : Z) (date : string) (db : DB)
  : bool * option Booking :=
  let existing_booking := find (hunter_day_filter hunter_id date) (bookings db) in
  (match existing_booking with Some _ => true | None => false end, existing_booking).

Definition double_booking_message (date field_name : string) : string :=
  ("Double booking prevented: You already have a booking on " ++ date ++ " at " ++ field_name)%string.

(** The label the refusal message gives to the conflicting booking: the
    name of its field, or ["Unknown"] when that field row is missing. *)
Definition conflict_field_name (db : DB) (existing_booking : Booking) : string :=
  match get_field db (b_field_id existing_booking) with
  | Some existing_field => f_name existing_field
  | None => "Unknown"
  end.

Definition database_error (e : db_error) : string :=
  ("Database error: " ++ exception_text e)%string.

Definition add_booking (b : Booking) (db : DB) : DB :=
  mkDB (users db) (fields db) (bookings db ++ [b]) (sessions db) (reports db) (tags db)
       (next_booking_id db + 1) (next_session_id db) (next_report_id db) (next_tag_id db)
       (files db).

(** The state after an INSERT into bookings that a constraint refused. *)
Definition skip_booking_id (db : DB) : DB :=
  mkDB (users db) (fields db) (bookings db) (sessions db) (reports db) (tags db)
       (next_booking_id db + 1) (next_session_id db) (next_report_id db) (next_tag_id db)
       (files db).

(** What the server answers to the INSERT of a booking row: [field_id],
    [hunter_id] and [num_hunters] are [Integer] columns, [field_id]
    references fields.id and [hunter_id] references users.id. *)
Definition booking_insert_error (db : DB) (field_id hunter_id num_hunters : Z)
  : option db_error :=
  if negb (int4 field_id && int4 hunter_id && int4 num_hunters)
  then Some numeric_value_out_of_range
  else if negb (has_row f_id (fields db) field_id && has_row u_id (users db) hunter_id)
  then Some foreign_key_violation
  else None.

Definition create_booking (field_id hunter_id : Z) (date : string) (num_hunters : Z)
    (total_price : Z) (payment_id : string) (admin_override : bool) (db : DB)
  : (option Booking * string) * DB :=
  let conflict :=
    if admin_override then None
    else
      let '(has_booking, existing_booking) := check_hunter_has_booking_on_date hunter_id date db in
      if has_booking then
        Some (match existing_booking with
              | Some eb => conflict_field_name db eb
              | None => "Unknown"
              end)
      else None in
  match conflict with
  | Some field_name => ((None, double_booking_message date field_name), db)
  | None =>
      let field := get_field db field_id in
      let initial_status :=
        match field with
        | Some f => if f_auto_approve_bookings f then confirmed else pending
        | None => pending
        end in
      let booking :=
        mkBooking (next_booking_id db) field_id hunter_id date num_hunters total_price
                  initial_status "card" payment_id in
      let override_msg := if admin_override then " (Admin Override)" else "" in
      match booking_insert_error db field_id hunter_id num_hunters with
      | Some e => ((None, database_error e), rolled_back e db (skip_booking_id db))
      | None =>
          ((Some booking, ("Booking created successfully" ++ override_msg)%string),
           add_booking booking db)
      end
  end.

Definition check_availability (field_id : Z) (date : string) (num_hunters : Z) (db : DB)
  : (bool * string) * DB :=
  match get_field db field_id with
  | None => ((false, "Field not found"), db)
  | Some field =>
      if mem_string date (match f_blocked_dates field with Some l => l | None => [] end)
      then ((false, "Date is blocked by outfitter"), db)
      else
        let total_hunters_booked := hunters_booked db field_id date in
        if f_capacity field <? total_hunters_booked + num_hunters
        then ((false, ("Insufficient capacity. Only "
                        ++ str_of_Z (f_capacity field - total_hunters_booked)
                        ++ " spots available")%string), db)
        else ((true, "Available"), db)
  end.

(** ** Hunt sessions: create_hunt_session, start_hunt_session, end_hunt_session *)

(** Writing back the attributes of the row that [first()] returned: the
    first row satisfying [p] is replaced by its image under [g]. *)
Fixpoint update_first {A : Type} (p : A -> bool) (g : A -> A) (l : list A) : list A :=
  match l with
  | [] => []
  | x :: rest => if p x then g x :: rest else x :: update_first p g rest
  end.

Definition set_sessions (l : list HuntSession) (db : DB) : DB :=
  mkDB (users db) (fields db) (bookings db) l (reports db) (tags db)
       (next_booking_id db) (next_session_id db) (next_report_id db) (next_tag_id db)
       (files db).

Definition add_session (s : HuntSession) (db : DB) : DB :=
  mkDB (users db) (fields db) (bookings db) (sessions db ++ [s]) (reports db) (tags db)
       (next_booking_id db) (next_session_id db + 1) (next_report_id db) (next_tag_id db)
       (files db).

Definition skip_session_id (db : DB) : DB :=
  mkDB (users db) (fields db) (bookings db) (sessions db) (reports db) (tags db)
       (next_booking_id db) (next_session_id db + 1) (next_report_id db) (next_tag_id db)
       (files db).

(** What the server answers to the INSERT of a hunt session row:
    [booking_id] references bookings.id, [hunter_id] users.id and
    [field_id] fields.id. *)
Definition session_insert_error (db : DB) (booking_id hunter_id field_id : Z)
  : option db_error :=
  if negb (int4 booking_id && int4 hunter_id && int4 field_id)
  then Some numeric_value_out_of_range
  else if negb (has_row b_id (bookings db) booking_id && has_row u_id (users db) hunter_id
                && has_row f_id (fields db) field_id)
  then Some foreign_key_violation
  else None.

Definition create_hunt_session (booking_id hunter_id field_id : Z) (db : DB)
  : option HuntSession * DB :=
  let session :=
    mkSession (next_session_id db) booking_id hunter_id field_id None None not_started in
  match session_insert_error db booking_id hunter_id field_id with
  | Some e => (None, rolled_back e db (skip_session_id db))
  | None => (Some session, add_session session db)
  end.

Definition started (now : Z) (s : HuntSession) : HuntSession :=
  mkSession (s_id s) (s_booking_id s) (s_hunter_id s) (s_field_id s)
            (Some now) (s_end_time s) active.

Definition ended (now : Z) (s : HuntSession) : HuntSession :=
  mkSession (s_id s) (s_booking_id s) (s_hunter_id s) (s_field_id s)
            (s_start_time s) (Some now) completed.

Definition start_hunt_session (session_id : Z) (now : Z) (db : DB)
  : option HuntSession * DB :=
  match get_session db session_id with
  | Some session =>
      (Some (started now session),
       set_sessions (update_first (fun s => s_id s =? session_id) (started now) (sessions db)) db)
  | None => (None, db)
  end.

Definition end_hunt_session (session_id : Z) (now : Z) (db : DB)
  : option HuntSession * DB :=
  match get_session db session_id with
  | Some session =>
      (Some (ended now session),
       set_sessions (update_first (fun s => s_id s =? session_id) (ended now) (sessions db)) db)
  | None => (None, db)
  end.

(** ** Hunt reports and the quota ledger: create_hunt_report *)

(** [harvested.get('species', harvested.get(' species', ''))] *)
Definition harvest_species_name (h : HarvestEntry) : string :=
  match h_species h with
  | Some s => s
  | None => match h_species_blank h with Some s => s | None => "" end
  end.

(** [harvested.get('quantity', 0)] *)
Definition harvest_quantity (h : HarvestEntry) : Z :=
  match h_quantity h with Some q => q | None => 0 end.

(** [quarry.get('remaining', 0)] and [q.get('total', 0)] *)
Definition quarry_remaining (q : QuarryEntry) : Z :=
  match q_remaining q with Some r => r | None => 0 end.

Definition quarry_total (q : QuarryEntry) : Z :=
  match q_total q with Some t => t | None => 0 end.

(** [quarry.get('species') == species_name]: a missing key reads [None],
    which equals no string. *)
Definition quarry_matches (species_name : string) (q : QuarryEntry) : bool :=
  match q_species q with
  | Some s => String.eqb s species_name
  | None => false
  end.

(** [quarry['remaining'] = max(0, quarry.get('remaining', 0) - quantity)] *)
Definition deplete_entry (quantity : Z) (q : QuarryEntry) : QuarryEntry :=
  mkQuarry (q_species q) (q_total q) (Some (Z.max 0 (quarry_remaining q - quantity))).

(** The inner loop [for quarry in field.quarry_species: ... break]. *)
Definition deplete_species (species_name : string) (quantity : Z)
    (qs : list QuarryEntry) : list QuarryEntry :=
  update_first (quarry_matches species_name) (deplete_entry quantity) qs.

(** The outer loop [for harvested in species_harvested]. *)
Definition deplete_all (species_harvested : list HarvestEntry)
    (qs : list QuarryEntry) : list QuarryEntry :=
  fold_left (fun acc h => deplete_species (harvest_species_name h) (harvest_quantity h) acc)
            species_harvested qs.

Definition report_animals (rd : ReportData) : Z :=
  match rd_animals_harvested rd with Some n => n | None => 0 end.

Definition report_species (rd : ReportData) : list HarvestEntry :=
  match rd_species_harvested rd with Some l => l | None => [] end.

Definition set_quota (remaining : option Z) (species : option (list QuarryEntry))
    (last_date : option string) (had_harvest : option bool) (f : Field) : Field :=
  mkField (f_id f) (f_name f) (f_capacity f) (f_blocked_dates f) (f_field_type f)
          (f_quarry_total f) remaining species (f_auto_approve_bookings f)
          last_date had_harvest.

(** The body of [if field:] in create_hunt_report, as the new value of the
    field row. *)
Definition report_on_field (today : string) (animals_harvested : Z)
    (species_harvested : list HarvestEntry) (field : Field) : Field :=
  let last_date := Some today in
  let had_harvest := Some (0 <? animals_harvested) in
  match f_field_type field with
  | diy_leased =>
      match f_quarry_species field with
      | Some (q :: qs) =>
          set_quota (f_quarry_remaining field)
                    (Some (deplete_all species_harvested (q :: qs)))
                    last_date had_harvest field
      | _ =>
          match f_quarry_remaining field with
          | Some r =>
              set_quota (Some (Z.max 0 (r - animals_harvested)))
                        (f_quarry_species field) last_date had_harvest field
          | None =>
              set_quota (f_quarry_remaining field) (f_quarry_species field)
                        last_date had_harvest field
          end
      end
  | _ =>
      set_quota (f_quarry_remaining field) (f_quarry_species field)
                last_date had_harvest field
  end.

Definition skip_report_id (db : DB) : DB :=
  mkDB (users db) (fields db) (bookings db) (sessions db) (reports db) (tags db)
       (next_booking_id db) (next_session_id db) (next_report_id db + 1) (next_tag_id db)
       (files db).

(** [quarry_remaining] is an [Integer] column. *)
Definition scalar_update_fits (field field' : Field) : bool :=
  integer_update_fits (f_quarry_remaining field) (f_quarry_remaining field').

(** What the server answers to the statements of create_hunt_report, which
    are committed together: the UPDATE of the field row, when the field
    exists, and the INSERT of the report row, whose [session_id]
    references hunt_sessions.id, [field_id] fields.id and [hunter_id]
    users.id, and whose [animals_harvested] and [review_rating] are
    [Integer] columns. *)
Definition report_insert_error (db : DB) (session_id field_id hunter_id : Z)
    (report_data : ReportData) (today : string) : option db_error :=
  let field_fits :=
    match get_field db field_id with
    | Some field =>
        scalar_update_fits field
          (report_on_field today (report_animals report_data) (report_species report_data)
                           field)
    | None => true
    end in
  let rating_fits :=
    match rd_review_rating report_data with Some x => int4 x | None => true end in
  if negb (field_fits && int4 session_id && int4 field_id && int4 hunter_id
           && int4 (report_animals report_data) && rating_fits)
  then Some numeric_value_out_of_range
  else if negb (has_row s_id (sessions db) session_id && has_row f_id (fields db) field_id
                && has_row u_id (users db) hunter_id)
  then Some foreign_key_violation
  else None.

Definition create_hunt_report (session_id field_id hunter_id : Z) (report_data : ReportData)
    (today : string) (db : DB) : option HuntReport * DB :=
  let report :=
    mkReport (next_report_id db) session_id field_id hunter_id
             (report_animals report_data) (report_species report_data)
             (match rd_ground_remarks report_data with Some s => s | None => "" end)
             (rd_review_rating report_data)
             (match rd_review_text report_data with Some s => s | None => "" end)
             (match rd_success report_data with Some b => b | None => false end) in
  let fields' :=
    update_first (fun f => f_id f =? field_id)
                 (report_on_field today (report_animals report_data)
                                  (report_species report_data))
                 (fields db) in
  match report_insert_error db session_id field_id hunter_id report_data today with
  | Some e => (None, rolled_back e db (skip_report_id db))
  | None =>
      (Some report,
       mkDB (users db) fields' (bookings db) (sessions db) (reports db ++ [report]) (tags db)
            (next_booking_id db) (next_session_id db) (next_report_id db + 1)
            (next_tag_id db) (files db))
  end.

(** [get_hunt_report_by_session] *)
Definition get_hunt_report_by_session (session_id : Z) (db : DB) : option HuntReport :=
  find (fun r => r_session_id r =? session_id) (reports db).

(** The submit branch of show_hunt_report_form (app.py): the report is
    filed and the session is ended, in this order. *)
Definition submit_hunt_report (session_id field_id hunter_id : Z) (report_data : ReportData)
    (today : string) (now : Z) (db : DB) : DB :=
  let db1 := snd (create_hunt_report session_id field_id hunter_id report_data today db) in
  snd (end_hunt_session session_id now db1).

(** ** Animal tags: create_animal_tag, get_animal_tag_by_tag_number *)

(** [generate_qr_code] and [save_animal_photo] return the path of the file
    they write; the write itself is recorded by [write_file] where
    create_animal_tag calls them. *)
Definition generate_qr_code (tag_number : string) : string :=
  ("qr_codes/" ++ tag_number ++ ".png")%string.

Definition save_animal_photo (tag_number : string) : string :=
  ("animal_photos/" ++ tag_number ++ ".jpg")%string.

(** [img.save(path)]: the file exists afterwards; an existing file of that
    path is overwritten. *)
Definition write_file (path : string) (db : DB) : DB :=
  mkDB (users db) (fields db) (bookings db) (sessions db) (reports db) (tags db)
       (next_booking_id db) (next_session_id db) (next_report_id db) (next_tag_id db)
       (if mem_string path (files db) then files db else files db ++ [path]).

Definition add_tag (t : AnimalTag) (db : DB) : DB :=
  mkDB (users db) (fields db) (bookings db) (sessions db) (reports db) (tags db ++ [t])
       (next_booking_id db) (next_session_id db) (next_report_id db) (next_tag_id db + 1)
       (files db).

Definition skip_tag_id (db : DB) : DB :=
  mkDB (users db) (fields db) (bookings db) (sessions db) (reports db) (tags db)
       (next_booking_id db) (next_session_id db) (next_report_id db) (next_tag_id db + 1)
       (files db).

Definition tag_number_is (tag_number : string) (t : AnimalTag) : bool :=
  String.eqb (t_tag_number t) tag_number.

Definition get_animal_tag_by_tag_number (tag_number : string) (db : DB) : option AnimalTag :=
  find (tag_number_is tag_number) (tags db).

(** What the server answers to the INSERT of an animal tag row:
    [tag_number] is declared [unique=True], [hunt_report_id] references
    hunt_reports.id, [hunter_id] users.id and [field_id] fields.id. *)
Definition tag_insert_error (db : DB) (tag_number : string)
    (hunt_report_id hunter_id field_id : Z) : option db_error :=
  if negb (int4 hunt_report_id && int4 hunter_id && int4 field_id)
  then Some numeric_value_out_of_range
  else if existsb (tag_number_is tag_number) (tags db)
  then Some unique_violation
  else if negb (has_row r_id (reports db) hunt_report_id && has_row u_id (users db) hunter_id
                && has_row f_id (fields db) field_id)
  then Some foreign_key_violation
  else None.

Section Tagging.

(** Whether Pillow opens the uploaded bytes and writes them as a JPEG
    file; when it does not, save_animal_photo raises, no photo file is
    left, and create_animal_tag returns [None]. *)
Variable image_decodes : list Byte.byte -> bool.

(** [uuid] is the value of [str(uuid.uuid4())] drawn by
    generate_unique_tag_number for this call.  The QR image is written
    first, then the photo when [photo_bytes] is not empty, then the row is
    inserted; a refused INSERT leaves the files that were written. *)
Definition create_animal_tag (hunt_report_id hunter_id field_id : Z)
    (species condition : string) (photo_bytes : option (list Byte.byte))
    (animal_tag disease_type notes : option string) (uuid : string) (db : DB)
  : option AnimalTag * DB :=
  let tag_number := uuid in
  let qr_code_path := generate_qr_code tag_number in
  let photo :=
    match photo_bytes with
    | Some (c :: cs) =>
        if image_decodes (c :: cs) then Some (Some (save_animal_photo tag_number)) else None
    | _ => Some None
    end in
  let db_qr := write_file qr_code_path db in
  match photo with
  | None => (None, db_qr)
  | Some photo_path =>
      let db_files :=
        match photo_path with
        | Some path => write_file path db_qr
        | None => db_qr
        end in
      let new_tag :=
        mkTag (next_tag_id db) tag_number hunt_report_id hunter_id field_id species condition
              photo_path qr_code_path animal_tag disease_type notes in
      match tag_insert_error db tag_number hunt_report_id hunter_id field_id with
      | Some e => (None, rolled_back e db_files (skip_tag_id db_files))
      | None => (Some new_tag, add_tag new_tag db_files)
      end
  end.

(** The arguments of one create_animal_tag call, with its uuid draw. *)
Record TagCall := mkTagCall {
  tc_hunt_report_id : Z;
  tc_hunter_id : Z;
  tc_field_id : Z;
  tc_species : string;
  tc_condition : string;
  tc_photo_bytes : option (list Byte.byte);
  tc_animal_tag : option string;
  tc_disease_type : option string;
  tc_notes : option string;
  tc_uuid : string
}.

Definition call_create_animal_tag (c : TagCall) (db : DB) : option AnimalTag * DB :=
  create_animal_tag (tc_hunt_report_id c) (tc_hunter_id c) (tc_field_id c) (tc_species c)
                    (tc_condition c) (tc_photo_bytes c) (tc_animal_tag c)
                    (tc_disease_type c) (tc_notes c) (tc_uuid c) db.

Definition issue_tags (calls : list TagCall) (db : DB) : DB :=
  fold_left (fun acc c => snd (call_create_animal_tag c acc)) calls db.

End Tagging.

(** ** Call sequences and the properties they are checked against *)

(** The arguments of one create_booking call. *)
Record BookingCall := mkBookingCall {
  bc_field_id : Z;
  bc_hunter_id : Z;
  bc_date : string;
  bc_num_hunters : Z;
  bc_total_price : Z;
  bc_payment_id : string
}.

Definition call_create_booking (admin_override : bool) (c : BookingCall) (db : DB)
  : (option Booking * string) * DB :=
  create_booking (bc_field_id c) (bc_hunter_id c) (bc_date c) (bc_num_hunters c)
                 (bc_total_price c) (bc_payment_id c) admin_override db.

(** A sequence of create_booking calls, none with admin override. *)
Definition run_bookings (calls : list BookingCall) (db : DB) : DB :=
  fold_left (fun acc c => snd (call_create_booking false c acc)) calls db.

(** show_booking_modal (app.py): check_availability is evaluated first and
    create_booking is only reachable when it answered [True]. *)
Definition book_if_available (c : BookingCall) (db : DB) : DB :=
  let '((available, _), db1) :=
    check_availability (bc_field_id c) (bc_date c) (bc_num_hunters c) db in
  if available then snd (call_create_booking false c db1) else db1.

Definition run_checked_bookings (calls : list BookingCall) (db : DB) : DB :=
  fold_left (fun acc c => book_if_available c acc) calls db.

(** At most one pending or confirmed booking per hunter and date. *)
Definition one_active_per_day (db : DB) : Prop :=
  forall hunter_id date,
    (List.length (filter (hunter_day_filter hunter_id date) (bookings db)) <= 1)%nat.

(** The hunters booked on a field and date fit the field's capacity. *)
Definition capacity_respected (db : DB) : Prop :=
  forall field_id date field,
    get_field db field_id = Some field ->
    hunters_booked db field_id date <= f_capacity field.

(** The foreign keys of database.py between the modelled tables: every
    row refers to rows that exist. *)
Definition booking_refs_ok (db : DB) (b : Booking) : Prop :=
  has_row f_id (fields db) (b_field_id b) = true /\
  has_row u_id (users db) (b_hunter_id b) = true.

Definition session_refs_ok (db : DB) (s : HuntSession) : Prop :=
  has_row b_id (bookings db) (s_booking_id s) = true /\
  has_row u_id (users db) (s_hunter_id s) = true /\
  has_row f_id (fields db) (s_field_id s) = true.

Definition report_refs_ok (db : DB) (r : HuntReport) : Prop :=
  has_row s_id (sessions db) (r_session_id r) = true /\
  has_row f_id (fields db) (r_field_id r) = true /\
  has_row u_id (users db) (r_hunter_id r) = true.

Definition tag_refs_ok (db : DB) (t : AnimalTag) : Prop :=
  has_row r_id (reports db) (t_hunt_report_id t) = true /\
  has_row u_id (users db) (t_hunter_id t) = true /\
  has_row f_id (fields db) (t_field_id t) = true.

Definition references_ok (db : DB) : Prop :=
  Forall (booking_refs_ok db) (bookings db) /\
  Forall (session_refs_ok db) (sessions db) /\
  Forall (report_refs_ok db) (reports db) /\
  Forall (tag_refs_ok db) (tags db).

(** Calls on one hunt session. *)
Inductive session_call :=
| call_start (now : Z)
| call_end (now : Z).

Definition apply_session_call (session_id : Z) (c : session_call) (db : DB) : DB :=
  match c with
  | call_start now => snd (start_hunt_session session_id now db)
  | call_end now => snd (end_hunt_session session_id now db)
  end.

Definition status_of (db : DB) (session_id : Z) : option session_status :=
  option_map s_status (get_session db session_id).

(** The statuses a session goes through: before the first call and after
    each call. *)
Fixpoint status_trace (session_id : Z) (calls : list session_call) (db : DB)
  : list (option session_status) :=
  status_of db session_id ::
  match calls with
  | [] => []
  | c :: rest => status_trace session_id rest (apply_session_call session_id c db)
  end.

(** The guards the pages of app.py put in front of the two helpers: "Start
    Day" is offered while the status is not_started, the report form while
    it is active. *)
Definition call_allowed (session_id : Z) (c : session_call) (db : DB) : bool :=
  match c, status_of db session_id with
  | call_start _, Some not_started => true
  | call_end _, Some active => true
  | _, _ => false
  end.

Fixpoint guarded (session_id : Z) (calls : list session_call) (db : DB) : bool :=
  match calls with
  | [] => true
  | c :: rest =>
      call_allowed session_id c db
      && guarded session_id rest (apply_session_call session_id c db)
  end.

Definition lifecycle : list (option session_status) :=
  [Some not_started; Some active; Some completed].

Definition is_prefix {A : Type} (l1 l2 : list A) : Prop :=
  exists l3, l2 = l1 ++ l3.

(** [0 <= remaining <= total] for one entry of a species quota list, read
    with the defaults of [dict.get]. *)
Definition quarry_entry_ok (q : QuarryEntry) : Prop :=
  0 <= quarry_remaining q <= quarry_total q.

(** The same bound for the scalar pair (quarry_total, quarry_remaining). *)
Definition scalar_quota_ok (f : Field) : Prop :=
  forall r, f_quarry_remaining f = Some r ->
    0 <= r /\ (forall t, f_quarry_total f = Some t -> r <= t).

Definition species_quota (f : Field) : list QuarryEntry :=
  match f_quarry_species f with Some l => l | None => [] end.

Definition field_quota_ok (f : Field) : Prop :=
  Forall quarry_entry_ok (species_quota f) /\ scalar_quota_ok f.

Definition quotas_ok (db : DB) : Prop := Forall field_quota_ok (fields db).

(** The quantities a report carries are counts. *)
Definition report_nonnegative (rd : ReportData) : Prop :=
  0 <= report_animals rd /\ Forall (fun h => 0 <= harvest_quantity h) (report_species rd).

(** The quantities of the harvested entries that name a given species, in
    the order of the report. *)
Definition quantities_of (species_name : string) (hs : list HarvestEntry) : list Z :=
  map harvest_quantity
      (filter (fun h => String.eqb (harvest_species_name h) species_name) hs).

Definition clamp_sub (remaining quantity : Z) : Z := Z.max 0 (remaining - quantity).

(** Entry [i] is the first entry of the list that carries its species. *)
Definition first_of_species (qs : list QuarryEntry) (i : nat) (species_name : string) : Prop :=
  (exists q, nth_error qs i = Some q /\ q_species q = Some species_name) /\
  (forall j q, (j < i)%nat -> nth_error qs j = Some q -> q_species q <> Some species_name).

(** ** Further helpers of db_helpers.py and the pages that call them *)

Definition set_bookings (l : list Booking) (db : DB) : DB :=
  mkDB (users db) (fields db) l (sessions db) (reports db) (tags db)
       (next_booking_id db) (next_session_id db) (next_report_id db) (next_tag_id db)
       (files db).

Definition set_fields (l : list Field) (db : DB) : DB :=
  mkDB (users db) l (bookings db) (sessions db) (reports db) (tags db)
       (next_booking_id db) (next_session_id db) (next_report_id db) (next_tag_id db)
       (files db).

Definition set_reports (l : list HuntReport) (db : DB) : DB :=
  mkDB (users db) (fields db) (bookings db) (sessions db) l (tags db)
       (next_booking_id db) (next_session_id db) (next_report_id db) (next_tag_id db)
       (files db).

(** [get_booking_by_id], [get_bookings_by_hunter], [get_bookings_by_field] *)
Definition get_booking_by_id (booking_id : Z) (db : DB) : option Booking :=
  find (fun b => b_id b =? booking_id) (bookings db).

Definition get_bookings_by_hunter (hunter_id : Z) (db : DB) : list Booking :=
  filter (fun b => b_hunter_id b =? hunter_id) (bookings db).

Definition get_bookings_by_field (field_id : Z) (db : DB) : list Booking :=
  filter (fun b => b_field_id b =? field_id) (bookings db).

Definition is_confirmed (s : booking_status) : bool :=
  match s with confirmed => true | _ => false end.

(** [get_todays_bookings_for_hunter]; [today] is
    [datetime.now().strftime('%Y-%m-%d')]. *)
Definition get_todays_bookings_for_hunter (hunter_id : Z) (today : string) (db : DB)
  : list Booking :=
  filter (fun b => (b_hunter_id b =? hunter_id) && (b_date b =? today)%string
                   && is_confirmed (b_status b))
         (bookings db).

Definition with_status (status : booking_status) (b : Booking) : Booking :=
  mkBooking (b_id b) (b_field_id b) (b_hunter_id b) (b_date b) (b_num_hunters b)
            (b_total_price b) status (b_payment_method b) (b_payment_id b).

(** [update_booking_status]; its callers pass one of the four statuses. *)
Definition update_booking_status (booking_id : Z) (status : booking_status) (db : DB) : DB :=
  match get_booking_by_id booking_id db with
  | Some _ =>
      set_bookings (update_first (fun b => b_id b =? booking_id) (with_status status)
                                 (bookings db)) db
  | None => db
  end.

Definition with_blocked_dates (blocked_dates : list string) (f : Field) : Field :=
  mkField (f_id f) (f_name f) (f_capacity f) (Some blocked_dates) (f_field_type f)
          (f_quarry_total f) (f_quarry_remaining f) (f_quarry_species f)
          (f_auto_approve_bookings f) (f_last_visit_date f) (f_last_visit_had_harvest f).

(** [update_field_blocked_dates] *)
Definition update_field_blocked_dates (field_id : Z) (blocked_dates : list string) (db : DB)
  : DB :=
  match get_field db field_id with
  | Some _ =>
      set_fields (update_first (fun f => f_id f =? field_id) (with_blocked_dates blocked_dates)
                               (fields db)) db
  | None => db
  end.

(** One turn of the loop of delete_field: the reports of the session, then
    the session, are deleted by id. *)
Definition delete_session_rows (acc : list HuntReport * list HuntSession) (session : HuntSession)
  : list HuntReport * list HuntSession :=
  (filter (fun r => negb (r_session_id r =? s_id session)) (fst acc),
   filter (fun s => negb (s_id s =? s_id session)) (snd acc)).

(** The DELETE of the session's reports is refused while an animal tag
    refers to one of them (animal_tags.hunt_report_id). *)
Definition session_reports_tagged (tags : list AnimalTag)
    (acc : list HuntReport * list HuntSession) (session : HuntSession) : bool :=
  existsb (fun t =>
             has_row r_id (filter (fun r => r_session_id r =? s_id session) (fst acc))
                     (t_hunt_report_id t))
          tags.

(** The loop of delete_field with its failure: [None] once a DELETE was
    refused.  The DELETE of the session itself finds no report referring
    to it, these having just been deleted. *)
Definition delete_session_step (tags : list AnimalTag)
    (acc : option (list HuntReport * list HuntSession)) (session : HuntSession)
  : option (list HuntReport * list HuntSession) :=
  match acc with
  | Some rows =>
      if session_reports_tagged tags rows session then None
      else Some (delete_session_rows rows session)
  | None => None
  end.

(** [delete_field]: bookings of the field, then its sessions with their
    reports, then the field row, in one transaction.  Animal tags are not
    visited.  Each DELETE is refused while a row of another table refers
    to a row it removes: hunt_sessions.booking_id for the bookings,
    animal_tags.hunt_report_id for the reports, and for the field row
    hunt_reports.field_id and animal_tags.field_id (the bookings and the
    sessions of the field are gone by then).  A refusal raises, nothing is
    committed and the helper returns [False]. *)
Definition delete_field (field_id : Z) (db : DB) : bool * DB :=
  match get_field db field_id with
  | Some field =>
      let field_bookings := filter (fun b => b_field_id b =? field_id) (bookings db) in
      if existsb (fun s => has_row b_id field_bookings (s_booking_id s)) (sessions db)
      then (false, db)
      else
        let bookings' := filter (fun b => negb (b_field_id b =? field_id)) (bookings db) in
        let field_sessions := filter (fun s => s_field_id s =? field_id) (sessions db) in
        match fold_left (delete_session_step (tags db)) field_sessions
                        (Some (reports db, sessions db)) with
        | None => (false, db)
        | Some rows =>
            if existsb (fun r => r_field_id r =? f_id field) (fst rows)
               || existsb (fun t => t_field_id t =? f_id field) (tags db)
            then (false, db)
            else
              let fields' := filter (fun f => negb (f_id f =? f_id field)) (fields db) in
              (true,
               mkDB (users db) fields' bookings' (snd rows) (fst rows) (tags db)
                    (next_booking_id db) (next_session_id db) (next_report_id db)
                    (next_tag_id db) (files db))
        end
  | None => (false, db)
  end.

(** [get_hunt_session_by_booking] *)
Definition get_hunt_session_by_booking (booking_id : Z) (db : DB) : option HuntSession :=
  find (fun s => s_booking_id s =? booking_id) (sessions db).

(** The hunts page (hunter_dashboard, app.py): for a booking of today the
    field and the session are looked up, and the session is created when
    there is none.  [None] stands for the attribute error raised by
    [field.id] when the field row is missing. *)
Definition open_hunt_session (booking : Booking) (user_id : Z) (db : DB)
  : option HuntSession * DB :=
  let field := get_field db (b_field_id booking) in
  match get_hunt_session_by_booking (b_id booking) db with
  | Some hunt_session => (Some hunt_session, db)
  | None =>
      match field with
      | Some f => create_hunt_session (b_id booking) user_id (f_id f) db
      | None => (None, db)
      end
  end.

Definition reviewed (review_rating : option Z) (review_text : option string) (r : HuntReport)
  : HuntReport :=
  mkReport (r_id r) (r_session_id r) (r_field_id r) (r_hunter_id r) (r_animals_harvested r)
           (r_species_harvested r) (r_ground_remarks r)
           (match review_rating with Some x => Some x | None => r_review_rating r end)
           (match review_text with Some t => t | None => r_review_text r end)
           (r_success r).

(** [update_hunt_report]; [review_rating] is an [Integer] column, and a
    rating that does not fit makes the UPDATE raise. *)
Definition update_hunt_report (report_id : Z) (review_rating : option Z)
    (review_text : option string) (db : DB) : option HuntReport * DB :=
  match find (fun r => r_id r =? report_id) (reports db) with
  | Some report =>
      if integer_update_fits (r_review_rating report) review_rating
      then
        (Some (reviewed review_rating review_text report),
         set_reports (update_first (fun r => r_id r =? report_id)
                                   (reviewed review_rating review_text) (reports db)) db)
      else (None, db)
  | None => (None, db)
  end.

(** [get_total_quota_remaining], [get_total_quota], [is_quota_exhausted] *)
Definition get_total_quota_remaining (field : Field) : option Z :=
  match f_field_type field with
  | diy_leased =>
      match f_quarry_species field with
      | Some (q :: qs) => Some (sum_Z (map quarry_remaining (q :: qs)))
      | _ => f_quarry_remaining field
      end
  | _ => None
  end.

Definition get_total_quota (field : Field) : option Z :=
  match f_field_type field with
  | diy_leased =>
      match f_quarry_species field with
      | Some (q :: qs) => Some (sum_Z (map quarry_total (q :: qs)))
      | _ => f_quarry_total field
      end
  | _ => None
  end.

Definition is_quota_exhausted (field : Field) : bool :=
  match f_field_type field with
  | diy_leased =>
      match f_quarry_species field with
      | Some (q :: qs) => forallb (fun e => quarry_remaining e <=? 0) (q :: qs)
      | _ => match f_quarry_remaining field with
             | Some r => r <=? 0
             | None => false
             end
      end
  | _ => false
  end.

(** [get_animal_tags_by_hunt_report] *)
Definition get_animal_tags_by_hunt_report (hunt_report_id : Z) (db : DB) : list AnimalTag :=
  filter (fun t => t_hunt_report_id t =? hunt_report_id) (tags db).

(** The outcome of the "Confirm Booking" step of a field page. *)
Inductive page_outcome :=
| date_not_available
| hunter_already_booked
| quota_exhausted
| booking_attempted (result : option Booking * string).

(** The dates the field pages list as taken: [b.date] for the pending or
    confirmed bookings returned by get_bookings_by_field. *)
Definition booked_dates (field_id : Z) (db : DB) : list string :=
  map b_date (filter (fun b => is_active (b_status b)) (get_bookings_by_field field_id db)).

(** show_diy_field_details (app.py), booking tab: [field] is the row the
    page was given; the booking is free and for one hunter. *)
Definition confirm_diy_booking (field : Field) (user_id : Z) (selected_date : string)
    (payment_id : string) (db : DB) : page_outcome * DB :=
  let blocked_dates := match f_blocked_dates field with Some l => l | None => [] end in
  let date_available :=
    negb (mem_string selected_date blocked_dates)
    && negb (mem_string selected_date (booked_dates (f_id field) db)) in
  let hunter_has_booking := fst (check_hunter_has_booking_on_date user_id selected_date db) in
  let quota_ok := negb (is_quota_exhausted field) in
  if negb date_available then (date_not_available, db)
  else if hunter_has_booking then (hunter_already_booked, db)
  else if negb quota_ok then (quota_exhausted, db)
  else
    let '(result, db') :=
      create_booking (f_id field) user_id selected_date 1 0 payment_id false db in
    (booking_attempted result, db').

(** show_subsidised_field_details (app.py), booking tab: as above without
    the quota test, at the price the page computed. *)
Definition confirm_subsidised_booking (field : Field) (user_id : Z) (selected_date : string)
    (booking_price : Z) (payment_id : string) (db : DB) : page_outcome * DB :=
  let blocked_dates := match f_blocked_dates field with Some l => l | None => [] end in
  let date_available :=
    negb (mem_string selected_date blocked_dates)
    && negb (mem_string selected_date (booked_dates (f_id field) db)) in
  let hunter_has_booking := fst (check_hunter_has_booking_on_date user_id selected_date db) in
  if negb date_available then (date_not_available, db)
  else if hunter_has_booking then (hunter_already_booked, db)
  else
    let '(result, db') :=
      create_booking (f_id field) user_id selected_date 1 booking_price payment_id false db in
    (booking_attempted result, db').

(** At most one pending or confirmed booking per field and date. *)
Definition one_booking_per_field_day (db : DB) : Prop :=
  forall field_id date,
    (List.length (filter (field_day_filter field_id date) (bookings db)) <= 1)%nat.

(** Booking ids are distinct and below the next serial value. *)
Definition booking_ids_ok (db : DB) : Prop :=
  NoDup (map b_id (bookings db)) /\
  Forall (fun b => b_id b < next_booking_id db) (bookings db).

(** Stored tags point at the artefacts derived from their tag number. *)
Definition tag_paths_ok (t : AnimalTag) : Prop :=
  t_qr_code_path t = generate_qr_code (t_tag_number t) /\
  (t_photo_path t = None \/ t_photo_path t = Some (save_animal_photo (t_tag_number t))).

(** At most one hunt session per booking. *)
Definition one_session_per_booking (db : DB) : Prop :=
  NoDup (map s_booking_id (sessions db)).

(** The status buttons of the pages (app.py): the hunter's "Cancel" is
    offered on a confirmed booking, the outfitter's "Approve" and "Reject"
    on a pending one; [booking] is the row the page lists. *)
Inductive booking_action := hunter_cancels | outfitter_approves | outfitter_rejects.

Definition page_booking_action (a : booking_action) (booking : Booking) (db : DB) : DB :=
  match a, b_status booking with
  | hunter_cancels, confirmed => update_booking_status (b_id booking) cancelled db
  | outfitter_approves, pending => update_booking_status (b_id booking) confirmed db
  | outfitter_rejects, pending => update_booking_status (b_id booking) rejected db
  | _, _ => db
  end.

(** show_hunt_report_form (app.py): [species_count[species] =
    species_count.get(species, 0) + 1] on a dictionary, which keeps its
    keys in the order of first insertion. *)
Fixpoint count_one (species : string) (counts : list (string * Z)) : list (string * Z) :=
  match counts with
  | [] => [(species, 1)]
  | (s, c) :: rest =>
      if String.eqb s species then (s, c + 1) :: rest else (s, c) :: count_one species rest
  end.

(** [animals] are the species of the entries of [animals_detail], in the
    order of the form. *)
Definition species_count (animals : list string) : list (string * Z) :=
  fold_left (fun counts species => count_one species counts) animals [].

Definition form_species_harvested (animals : list string) : list HarvestEntry :=
  map (fun sc => mkHarvest (Some (fst sc)) None (Some (snd sc))) (species_count animals).

(** The [report_data] the form submits: [total_animals] counts the
    entries of [animals_detail]; the review is present when the hunter
    chose to leave one. *)
Definition form_report_data (animals : list string) (ground_remarks : string)
    (review : option (Z * string)) (animals_shot : bool) : ReportData :=
  mkReportData (Some (Z.of_nat (List.length animals)))
               (Some (form_species_harvested animals))
               (Some ground_remarks)
               (option_map fst review)
               (Some (match review with Some (_, text) => text | None => "" end))
               (Some animals_shot).

(** How many of the animals are of a species. *)
Definition animals_of (species : string) (animals : list string) : Z :=
  Z.of_nat (count_occ string_dec animals species).

(** The value of [species_count.get(species, 0)]. *)
Definition count_of (species : string) (counts : list (string * Z)) : Z :=
  match find (fun sc => String.eqb (fst sc) species) counts with
  | Some sc => snd sc
  | None => 0
  end.

(** ** Sample rows used in the worked examples *)

Definition field_moor : Field :=
  mkField 1 "North Moor" 2 (Some ["2025-12-25"]) subsidised None None None false None None.

Definition field_glen : Field :=
  mkField 2 "Glen Lease" 4 None diy_leased None None
          (Some [mkQuarry (Some "Red Deer") (Some 10) (Some 10);
                 mkQuarry (Some "Roe Deer") (Some 6) (Some 6)])
          true None None.

Definition field_old_lease (remaining : Z) : Field :=
  mkField 3 "Old Lease" 1 None diy_leased (Some 10) (Some remaining) None false None None.

(** Two hunters. *)
Definition sample_users : list User := [mkUser 5 "Ann Archer"; mkUser 6 "Bob Brook"].

Definition db_moor : DB := mkDB sample_users [field_moor] [] [] [] [] 1 1 1 1 [].

Definition db_glen : DB := mkDB sample_users [field_glen] [] [] [] [] 1 1 1 1 [].

Definition db_two_fields : DB :=
  mkDB sample_users [field_moor; field_glen] [] [] [] [] 1 1 1 1 [].

Definition booking_call (field_id hunter_id : Z) (date : string) (num_hunters : Z)
  : BookingCall :=
  mkBookingCall field_id hunter_id date num_hunters 0 "pm_test".

(** North Moor with a booking of hunter 5 and the hunt session of that
    booking, freshly created (not_started) and without a report. *)
Definition db_session : DB :=
  snd (create_hunt_session 1 5 1
         (snd (create_booking 1 5 "2025-10-20" 1 0 "pm_test" false db_moor))).

Definition empty_report : ReportData :=
  mkReportData (Some 0) (Some []) None None None (Some false).

Definition harvest (species : string) (quantity : Z) : HarvestEntry :=
  mkHarvest (Some species) None (Some quantity).

Definition report_of (animals_harvested : Z) (species_harvested : list HarvestEntry)
  : ReportData :=
  mkReportData (Some animals_harvested) (Some species_harvested) None None None (Some true).

(** The old lease with a confirmed booking of hunter 5 and its session. *)
Definition db_old_lease (remaining : Z) : DB :=
  mkDB sample_users [field_old_lease remaining]
       [mkBooking 1 3 5 "2025-10-20" 1 0 confirmed "card" "pm_test"]
       [mkSession 1 1 5 3 None None not_started] [] [] 2 2 1 1 [].

(** Glen Lease with the confirmed bookings of hunters 5 and 6 and their
    hunt sessions. *)
Definition db_glen_hunt : DB :=
  mkDB sample_users [field_glen]
       [mkBooking 1 2 5 "2025-10-20" 1 0 confirmed "card" "pm_test";
        mkBooking 2 2 6 "2025-10-21" 1 0 confirmed "card" "pm_test"]
       [mkSession 1 1 5 2 None None not_started; mkSession 2 2 6 2 None None not_started]
       [] [] 3 3 1 1 [].

(** Glen Lease after the two hunts were reported: reports 1 and 2. *)
Definition db_glen_reported : DB :=
  snd (create_hunt_report 2 2 6 (report_of 1 [harvest "Roe Deer" 1]) "2025-10-21"
         (snd (create_hunt_report 1 2 5 (report_of 3 [harvest "Red Deer" 3]) "2025-10-20"
                 db_glen_hunt))).

(** The first bytes of a JPEG file, standing for an uploaded photo. *)
Definition sample_photo : list Byte.byte := [Byte.xff; Byte.xd8; Byte.xff; Byte.xe0].

(** A tagging call of hunter 5 on Glen Lease as the tagging form makes it,
    with a photo. *)
Definition tag_call (hunt_report_id : Z) (species uuid : string) : TagCall :=
  mkTagCall hunt_report_id 5 2 species "Good" (Some sample_photo) None None None uuid.

Definition any_image (_ : list Byte.byte) : bool := true.

(** * Proofs *)

(** ** Lists and lookups *)

Lemma find_none_filter_nil {A : Type} (p : A -> bool) (l : list A) :
  find p l = None -> filter p l = [].
Proof.
  induction l as [|x l IH]; simpl; [reflexivity|].
  destruct (p x); [discriminate | exact IH].
Qed.

Lemma filter_all_false {A : Type} (p : A -> bool) (l : list A) :
  (forall x, In x l -> p x = false) -> filter p l = [].
Proof.
  induction l as [|a l IH]; simpl; intros H; [reflexivity|].
  rewrite (H a (or_introl eq_refl)). apply IH. intros x Hx. apply H. right. exact Hx.
Qed.

Lemma find_some_first {A : Type} (p : A -> bool) (l : list A) (x : A) :
  In x l -> p x = true -> exists y, find p l = Some y /\ In y l /\ p y = true.
Proof.
  induction l as [|a l IH]; simpl; [tauto|].
  intros [-> | Hin] Hp.
  - rewrite Hp. eauto.
  - destruct (p a) eqn:Ea; [eauto|].
    destruct (IH Hin Hp) as (y & Hf & Hy & Hpy). eauto.
Qed.

Lemma sum_Z_app (l1 l2 : list Z) : sum_Z (l1 ++ l2) = sum_Z l1 + sum_Z l2.
Proof.
  unfold sum_Z. induction l1 as [|x l1 IH]; simpl; [reflexivity | rewrite IH; lia].
Qed.

Lemma mem_string_In (x : string) (l : list string) :
  mem_string x l = true <-> In x l.
Proof.
  unfold mem_string. rewrite existsb_exists. split.
  - intros (y & Hy & He). apply String.eqb_eq in He. subst. exact Hy.
  - intros Hin. exists x. split; [exact Hin | apply String.eqb_refl].
Qed.

Lemma hunter_day_filter_true (h : Z) (d : string) (b : Booking) :
  hunter_day_filter h d b = true <->
  b_hunter_id b = h /\ b_date b = d /\ is_active (b_status b) = true.
Proof.
  unfold hunter_day_filter.
  rewrite !andb_true_iff, Z.eqb_eq, String.eqb_eq. tauto.
Qed.

Lemma field_day_filter_true (fid : Z) (d : string) (b : Booking) :
  field_day_filter fid d b = true <->
  b_field_id b = fid /\ b_date b = d /\ is_active (b_status b) = true.
Proof.
  unfold field_day_filter.
  rewrite !andb_true_iff, Z.eqb_eq, String.eqb_eq. tauto.
Qed.

(** ** Bookings *)

Lemma get_field_add_booking (b : Booking) (db : DB) (fid : Z) :
  get_field (add_booking b db) fid = get_field db fid.
Proof. reflexivity. Qed.

Lemma hunters_booked_add_booking (b : Booking) (db : DB) (fid : Z) (d : string) :
  hunters_booked (add_booking b db) fid d =
  hunters_booked db fid d + (if field_day_filter fid d b then b_num_hunters b else 0).
Proof.
  unfold hunters_booked, add_booking; simpl.
  rewrite filter_app, map_app, sum_Z_app. simpl.
  destruct (field_day_filter fid d b); simpl; lia.
Qed.

Lemma has_row_find {A : Type} (key : A -> Z) (rows : list A) (k : Z) :
  has_row key rows k = true <-> exists x, find (fun x => key x =? k) rows = Some x.
Proof.
  unfold has_row. induction rows as [|a rows IH]; simpl.
  - split; [discriminate | intros (x & H); discriminate H].
  - destruct (key a =? k); simpl; [split; eauto | exact IH].
Qed.

Lemma has_row_app {A : Type} (key : A -> Z) (rows more : list A) (k : Z) :
  has_row key rows k = true -> has_row key (rows ++ more) k = true.
Proof.
  unfold has_row. rewrite existsb_app. intros ->. reflexivity.
Qed.

Lemma has_row_last {A : Type} (key : A -> Z) (rows : list A) (x : A) :
  has_row key (rows ++ [x]) (key x) = true.
Proof.
  unfold has_row. rewrite existsb_app. simpl. rewrite Z.eqb_refl.
  rewrite orb_true_r. reflexivity.
Qed.

(** The three ways a create_booking call ends: refused (by the
    double-booking test, or by the server for a value out of range), with
    the state as it was; refused by a constraint, with one serial id
    consumed; or with the row appended, which happens only once the
    double-booking test is passed or skipped and the server accepts the
    row. *)
Lemma create_booking_cases (fid h : Z) (d : string) (n p : Z) (pid : string)
    (ov : bool) (db : DB) :
  (fst (fst (create_booking fid h d n p pid ov db)) = None /\
   snd (create_booking fid h d n p pid ov db) = db) \/
  (fst (fst (create_booking fid h d n p pid ov db)) = None /\
   snd (create_booking fid h d n p pid ov db) = skip_booking_id db) \/
  exists st,
    create_booking fid h d n p pid ov db
    = ((Some (mkBooking (next_booking_id db) fid h d n p st "card" pid),
        ("Booking created successfully"
         ++ (if ov then " (Admin Override)" else ""))%string),
       add_booking (mkBooking (next_booking_id db) fid h d n p st "card" pid) db)
    /\ (ov = false -> find (hunter_day_filter h d) (bookings db) = None)
    /\ booking_insert_error db fid h n = None.
Proof.
  unfold create_booking, check_hunter_has_booking_on_date.
  destruct ov; simpl.
  - destruct (booking_insert_error db fid h n) as [[| |]|]; simpl; auto.
    right. right. eexists. split; [reflexivity|]. split; [discriminate | reflexivity].
  - destruct (find (hunter_day_filter h d) (bookings db)) eqn:Ef; simpl; [auto|].
    destruct (booking_insert_error db fid h n) as [[| |]|]; simpl; auto.
    right. right. eexists. split; [reflexivity|]. split; reflexivity.
Qed.

Lemma create_booking_state (fid h : Z) (d : string) (n p : Z) (pid : string)
    (ov : bool) (db : DB) :
  snd (create_booking fid h d n p pid ov db) = db \/
  snd (create_booking fid h d n p pid ov db) = skip_booking_id db \/
  exists st, snd (create_booking fid h d n p pid ov db)
             = add_booking (mkBooking (next_booking_id db) fid h d n p st "card" pid) db
             /\ (ov = false -> find (hunter_day_filter h d) (bookings db) = None).
Proof.
  destruct (create_booking_cases fid h d n p pid ov db)
    as [(_ & H) | [(_ & H) | (st & H & Hnone & _)]]; [auto | auto |].
  right. right. exists st. rewrite H. split; [reflexivity | exact Hnone].
Qed.

Lemma create_booking_keeps_one_active (c : BookingCall) (db : DB) :
  one_active_per_day db -> one_active_per_day (snd (call_create_booking false c db)).
Proof.
  intros Hinv. unfold call_create_booking.
  destruct (create_booking_state (bc_field_id c) (bc_hunter_id c) (bc_date c)
              (bc_num_hunters c) (bc_total_price c) (bc_payment_id c) false db)
    as [-> | [-> | (st & -> & Hnone)]]; [exact Hinv | exact Hinv |].
  specialize (Hnone eq_refl).
  intros h' d'. unfold add_booking; simpl.
  rewrite filter_app, length_app. simpl.
  destruct (hunter_day_filter h' d' _) eqn:Ehd; simpl.
  - apply hunter_day_filter_true in Ehd. simpl in Ehd. destruct Ehd as (<- & <- & _).
    rewrite (find_none_filter_nil _ _ Hnone). simpl. lia.
  - specialize (Hinv h' d'). lia.
Qed.

Lemma booking_insert_error_none (db : DB) (fid h n : Z) :
  booking_insert_error db fid h n = None <->
  (int4 fid = true /\ int4 h = true /\ int4 n = true) /\
  has_row f_id (fields db) fid = true /\ has_row u_id (users db) h = true.
Proof.
  unfold booking_insert_error.
  destruct (int4 fid), (int4 h), (int4 n); simpl;
    try (split; [discriminate | intros ((? & ? & ?) & _); discriminate]).
  destruct (has_row f_id (fields db) fid), (has_row u_id (users db) h); simpl;
    split; try discriminate; try tauto; intros (_ & ? & ?); discriminate.
Qed.

Lemma references_ok_add_booking (b : Booking) (db : DB) :
  booking_refs_ok db b -> references_ok db -> references_ok (add_booking b db).
Proof.
  intros Hb (Hbs & Hss & Hrs & Hts). unfold references_ok, add_booking. simpl.
  split; [|split; [|split]].
  - apply Forall_app. split; [exact Hbs | constructor; [exact Hb | constructor]].
  - eapply Forall_impl; [|exact Hss].
    intros s (H1 & H2 & H3). repeat split; auto. apply has_row_app. exact H1.
  - exact Hrs.
  - exact Hts.
Qed.

Lemma create_booking_keeps_references (c : BookingCall) (db : DB) :
  references_ok db -> references_ok (snd (call_create_booking false c db)).
Proof.
  intros Hrefs. unfold call_create_booking.
  destruct (create_booking_cases (bc_field_id c) (bc_hunter_id c) (bc_date c)
              (bc_num_hunters c) (bc_total_price c) (bc_payment_id c) false db)
    as [(_ & ->) | [(_ & ->) | (st & -> & _ & Hacc)]]; [exact Hrefs | exact Hrefs |].
  apply booking_insert_error_none in Hacc. destruct Hacc as (_ & Hf & Hu).
  apply references_ok_add_booking; [split; assumption | exact Hrefs].
Qed.

Lemma run_bookings_keeps_one_active (calls : list BookingCall) (db : DB) :
  one_active_per_day db -> one_active_per_day (run_bookings calls db).
Proof.
  unfold run_bookings. revert db.
  induction calls as [|c calls IH]; simpl; intros db Hinv; [exact Hinv|].
  apply IH. apply create_booking_keeps_one_active. exact Hinv.
Qed.

Lemma checked_create_keeps_capacity (fid h : Z) (d : string) (n p : Z) (pid : string)
    (ov : bool) (db : DB) :
  capacity_respected db ->
  fst (fst (check_availability fid d n db)) = true ->
  capacity_respected (snd (create_booking fid h d n p pid ov db)).
Proof.
  intros Hinv Hok.
  destruct (create_booking_state fid h d n p pid ov db) as [-> | [-> | (st & -> & _)]];
    [exact Hinv | exact Hinv |].
  intros fid' d' f' Hget. rewrite get_field_add_booking in Hget.
  rewrite hunters_booked_add_booking.
  destruct (field_day_filter fid' d' _) eqn:Efd; simpl.
  - apply field_day_filter_true in Efd. simpl in Efd. destruct Efd as (<- & <- & _).
    unfold check_availability in Hok. rewrite Hget in Hok.
    destruct (mem_string _ _); simpl in Hok; [discriminate|].
    destruct (f_capacity f' <? _) eqn:Ecap; simpl in Hok; [discriminate|].
    apply Z.ltb_ge in Ecap. exact Ecap.
  - specialize (Hinv fid' d' f' Hget). lia.
Qed.

Lemma check_availability_reads_only (fid : Z) (d : string) (n : Z) (db : DB) :
  snd (check_availability fid d n db) = db.
Proof.
  unfold check_availability.
  destruct (get_field db fid); [|reflexivity].
  destruct (mem_string _ _); [reflexivity|].
  destruct (_ <? _); reflexivity.
Qed.

Lemma book_if_available_keeps_capacity (c : BookingCall) (db : DB) :
  capacity_respected db -> capacity_respected (book_if_available c db).
Proof.
  intros Hinv. unfold book_if_available.
  pose proof (check_availability_reads_only (bc_field_id c) (bc_date c) (bc_num_hunters c) db)
    as Hro.
  destruct (check_availability _ _ _ db) as [[available msg] db1] eqn:Eca.
  simpl in Hro. subst db1.
  destruct available; [|exact Hinv].
  apply checked_create_keeps_capacity; [exact Hinv | rewrite Eca; reflexivity].
Qed.

Lemma run_checked_bookings_keep_capacity (calls : list BookingCall) (db : DB) :
  capacity_respected db -> capacity_respected (run_checked_bookings calls db).
Proof.
  unfold run_checked_bookings. revert db.
  induction calls as [|c calls IH]; simpl; intros db Hinv; [exact Hinv|].
  apply IH. apply book_if_available_keeps_capacity. exact Hinv.
Qed.

Lemma run_checked_bookings_keep_references (calls : list BookingCall) (db : DB) :
  references_ok db -> references_ok (run_checked_bookings calls db).
Proof.
  unfold run_checked_bookings. revert db.
  induction calls as [|c calls IH]; simpl; intros db Hrefs; [exact Hrefs|].
  apply IH. unfold book_if_available.
  pose proof (check_availability_reads_only (bc_field_id c) (bc_date c) (bc_num_hunters c) db)
    as Hro.
  destruct (check_availability _ _ _ db) as [[available msg] db1].
  simpl in Hro. subst db1.
  destruct available; [|exact Hrefs].
  apply create_booking_keeps_references. exact Hrefs.
Qed.

(** C5. check_availability applies its rules in order, the first failure
    winning: an unknown field gives (False, "Field not found"); otherwise a
    date in the field's blocked dates gives (False, "Date is blocked by
    outfitter"); otherwise, when the hunters already booked on that field
    and date (pending or confirmed bookings) plus the requested number
    exceed the capacity, it gives False with a reason that reports
    capacity minus already-booked; otherwise it gives (True, "Available").
    The database after the call is the database before it. *)
Theorem check_availability_rules (field_id : Z) (date : string) (num_hunters : Z) (db : DB) :
  snd (check_availability field_id date num_hunters db) = db /\
  (get_field db field_id = None ->
   fst (check_availability field_id date num_hunters db) = (false, "Field not found")) /\
  (forall field,
     get_field db field_id = Some field ->
     let blocked := match f_blocked_dates field with Some l => l | None => [] end in
     let booked :=
       sum_Z (map b_num_hunters
                  (filter (fun b => (b_field_id b =? field_id)
                                    && (b_date b =? date)%string
                                    && is_active (b_status b))
                          (bookings db))) in
     (In date blocked ->
      fst (check_availability field_id date num_hunters db)
      = (false, "Date is blocked by outfitter")) /\
     (~ In date blocked -> booked + num_hunters > f_capacity field ->
      fst (check_availability field_id date num_hunters db)
      = (false, ("Insufficient capacity. Only " ++ str_of_Z (f_capacity field - booked)
                 ++ " spots available")%string)) /\
     (~ In date blocked -> booked + num_hunters <= f_capacity field ->
      fst (check_availability field_id date num_hunters db) = (true, "Available"))).
Proof.
  split; [apply check_availability_reads_only|].
  unfold check_availability. split.
  - intros ->. reflexivity.
  - intros field ->. cbv zeta.
    change (sum_Z _) with (hunters_booked db field_id date).
    destruct (mem_string date _) eqn:Emem.
    + apply mem_string_In in Emem. repeat split; intros; try reflexivity; tauto.
    + assert (Hnot : ~ In date match f_blocked_dates field with Some l => l | None => [] end).
      { intros Hin. apply mem_string_In in Hin. congruence. }
      repeat split; intros; try tauto.
      * assert (E : (f_capacity field <? hunters_booked db field_id date + num_hunters) = true)
          by (apply Z.ltb_lt; lia).
        rewrite E. reflexivity.
      * assert (E : (f_capacity field <? hunters_booked db field_id date + num_hunters) = false)
          by (apply Z.ltb_ge; lia).
        rewrite E. reflexivity.
Qed.

(** Scenario A of the specification, through the theorem: capacity 2 with
    two hunters already booked refuses one more and reports 0 spots. *)
Lemma check_availability_rules_witness :
  fst (check_availability 1 "2025-10-20" 1
         (run_bookings [booking_call 1 5 "2025-10-20" 2] db_moor))
  = (false, "Insufficient capacity. Only 0 spots available").
Proof.
  pose proof (check_availability_rules 1 "2025-10-20" 1
                (run_bookings [booking_call 1 5 "2025-10-20" 2] db_moor)) as H.
  destruct H as (_ & _ & H).
  specialize (H field_moor eq_refl). cbv zeta in H.
  destruct H as (_ & H & _).
  apply H.
  - simpl. intros [E | []]. discriminate E.
  - vm_compute. reflexivity.
Defined.

(** C1.  In a database whose rows satisfy the foreign keys: when the
    hunter already has a pending or confirmed booking on the date (on any
    field), create_booking without admin override returns no booking and
    the double-booking message that names the field of a conflicting
    booking, and the database, the set of bookings included, is unchanged.
    Consequently every create_booking call without admin override, and
    every sequence of them, preserves "at most one pending or confirmed
    booking per hunter and date"; such sequences also keep the foreign
    keys satisfied. *)
Theorem create_booking_refuses_double_booking :
  (forall db field_id hunter_id date num_hunters total_price payment_id b,
     references_ok db ->
     In b (bookings db) -> b_hunter_id b = hunter_id -> b_date b = date ->
     is_active (b_status b) = true ->
     exists eb f,
       In eb (bookings db) /\ b_hunter_id eb = hunter_id /\ b_date eb = date /\
       is_active (b_status eb) = true /\
       get_field db (b_field_id eb) = Some f /\
       create_booking field_id hunter_id date num_hunters total_price payment_id false db
       = ((None, double_booking_message date (f_name f)), db)) /\
  (forall db c,
     one_active_per_day db -> one_active_per_day (snd (call_create_booking false c db))) /\
  (forall calls db, one_active_per_day db -> one_active_per_day (run_bookings calls db)) /\
  (forall calls db, references_ok db -> references_ok (run_bookings calls db)).
Proof.
  split; [|split; [|split]].
  - intros db fid h d n p pid b Hrefs Hin Hh Hd Hact.
    assert (Hp : hunter_day_filter h d b = true) by (apply hunter_day_filter_true; auto).
    destruct (find_some_first _ _ _ Hin Hp) as (eb & Hfind & Hineb & Hpeb).
    apply hunter_day_filter_true in Hpeb. destruct Hpeb as (Hh' & Hd' & Hact').
    destruct Hrefs as (Hb & _).
    rewrite Forall_forall in Hb. destruct (Hb eb Hineb) as (Hfield & _).
    apply has_row_find in Hfield. destruct Hfield as (f & Hf).
    exists eb, f. repeat split; auto.
    unfold create_booking, check_hunter_has_booking_on_date, conflict_field_name.
    rewrite Hfind. unfold get_field. rewrite Hf. reflexivity.
  - intros db c. apply create_booking_keeps_one_active.
  - intros calls db. apply run_bookings_keeps_one_active.
  - intros calls. unfold run_bookings.
    induction calls as [|c calls IH]; simpl; intros db Hrefs; [exact Hrefs|].
    apply IH. apply create_booking_keeps_references. exact Hrefs.
Qed.

Lemma references_ok_db_moor : references_ok db_moor.
Proof. repeat split; constructor. Qed.

(** Scenario B of the specification, through the theorem: a hunter with a
    pending booking on North Moor is refused a second booking that day
    with a message that names North Moor, and two such requests leave one
    active booking. *)
Lemma create_booking_refuses_double_booking_witness :
  create_booking 1 5 "2025-10-20" 1 0 "pm_2" false
    (run_bookings [booking_call 1 5 "2025-10-20" 1] db_moor)
  = ((None, "Double booking prevented: You already have a booking on 2025-10-20 at North Moor"),
     run_bookings [booking_call 1 5 "2025-10-20" 1] db_moor) /\
  one_active_per_day
    (run_bookings [booking_call 1 5 "2025-10-20" 1; booking_call 1 5 "2025-10-20" 1] db_moor).
Proof.
  destruct create_booking_refuses_double_booking as (Hrefuse & _ & Hrun & Hrefs).
  split.
  - destruct (Hrefuse (run_bookings [booking_call 1 5 "2025-10-20" 1] db_moor)
                      1 5 "2025-10-20" 1 0 "pm_2"
                      (mkBooking 1 1 5 "2025-10-20" 1 0 pending "card" "pm_test"))
      as (eb & f & Hin & _ & _ & _ & Hf & Hres).
    + apply Hrefs. exact references_ok_db_moor.
    + simpl. left. reflexivity.
    + reflexivity.
    + reflexivity.
    + reflexivity.
    + simpl in Hin. destruct Hin as [<- | []].
      injection Hf as <-. exact Hres.
  - apply Hrun. intros h d. simpl. lia.
Defined.

(** C2, as amended.  create_booking itself makes no capacity test.  When
    check_availability answers True for a field, date and number of
    hunters, a create_booking call with those arguments on the same
    database keeps, for every field and date, the hunters booked (pending
    or confirmed) within the field's capacity; so does every sequence of
    bookings made the way the booking page makes them, create_booking being
    reached only after a successful check_availability. *)
Theorem checked_booking_respects_capacity :
  (forall db field_id hunter_id date num_hunters total_price payment_id admin_override,
     capacity_respected db ->
     fst (fst (check_availability field_id date num_hunters db)) = true ->
     capacity_respected
       (snd (create_booking field_id hunter_id date num_hunters total_price payment_id
                            admin_override db))) /\
  (forall calls db, capacity_respected db -> capacity_respected (run_checked_bookings calls db)).
Proof.
  split.
  - intros. apply checked_create_keeps_capacity; assumption.
  - intros calls db. apply run_checked_bookings_keep_capacity.
Qed.

Lemma capacity_respected_db_moor : capacity_respected db_moor.
Proof.
  intros fid d f Hget. unfold get_field in Hget.
  change (fields db_moor) with [field_moor] in Hget. unfold find in Hget.
  change (f_id field_moor) with 1 in Hget.
  destruct (1 =? fid); [|discriminate].
  injection Hget as <-. unfold hunters_booked. simpl. lia.
Qed.

(** Scenario A of the specification, through the theorem: on a field of
    capacity 2, a checked request for two hunters followed by a checked
    request for one keeps the capacity bound. *)
Lemma checked_booking_respects_capacity_witness :
  capacity_respected
    (snd (create_booking 1 5 "2025-10-20" 2 0 "pm_1" false db_moor)) /\
  capacity_respected
    (run_checked_bookings [booking_call 1 5 "2025-10-20" 2; booking_call 1 6 "2025-10-20" 1]
                          db_moor).
Proof.
  destruct checked_booking_respects_capacity as (Hone & Hrun).
  split.
  - apply Hone; [exact capacity_respected_db_moor | reflexivity].
  - apply Hrun. exact capacity_respected_db_moor.
Defined.

(** C2 as stated fails: two create_booking calls without admin override,
    by different hunters, put four hunters on a field of capacity 2. *)
Lemma create_booking_exceeds_capacity :
  ~ (forall calls db, capacity_respected db -> capacity_respected (run_bookings calls db)) /\
  hunters_booked
    (run_bookings [booking_call 1 5 "2025-10-20" 2; booking_call 1 6 "2025-10-20" 2] db_moor)
    1 "2025-10-20" = 4 /\
  f_capacity field_moor = 2.
Proof.
  split; [|split; reflexivity].
  intros H.
  specialize (H [booking_call 1 5 "2025-10-20" 2; booking_call 1 6 "2025-10-20" 2] db_moor
                capacity_respected_db_moor 1 "2025-10-20" field_moor eq_refl).
  vm_compute in H. apply H. reflexivity.
Qed.

(** C9, as amended.  create_booking has no not-found test of its own: a
    missing field row only turns auto-approval off.  When no field has the
    given id and the hunter has no pending or confirmed booking on the
    date, the booking row is handed to the database, which refuses it (the
    field id is out of range or breaks the foreign key
    bookings.field_id -> fields.id); the call then returns no booking and
    a message that begins "Database error: ", and no table has changed. *)
Theorem create_booking_unknown_field (db : DB) (field_id hunter_id : Z) (date : string)
    (num_hunters total_price : Z) (payment_id : string) :
  get_field db field_id = None ->
  fst (check_hunter_has_booking_on_date hunter_id date db) = false ->
  let result :=
    create_booking field_id hunter_id date num_hunters total_price payment_id false db in
  (exists e,
     (e = numeric_value_out_of_range \/ e = foreign_key_violation) /\
     fst result = (None, ("Database error: " ++ exception_text e)%string)) /\
  bookings (snd result) = bookings db /\
  fields (snd result) = fields db /\
  users (snd result) = users db /\
  sessions (snd result) = sessions db /\
  reports (snd result) = reports db /\
  tags (snd result) = tags db.
Proof.
  intros Hnone Hfree result. subst result.
  unfold create_booking.
  unfold check_hunter_has_booking_on_date in *.
  destruct (find (hunter_day_filter hunter_id date) (bookings db)); simpl in Hfree;
    [discriminate|].
  simpl.
  assert (Hrow : has_row f_id (fields db) field_id = false).
  { destruct (has_row f_id (fields db) field_id) eqn:E; [|reflexivity].
    apply has_row_find in E. destruct E as (f & Hf).
    unfold get_field in Hnone. congruence. }
  unfold booking_insert_error. rewrite Hrow.
  destruct (negb (int4 field_id && int4 hunter_id && int4 num_hunters)); simpl.
  - split; [exists numeric_value_out_of_range; auto | repeat split].
  - split; [exists foreign_key_violation; auto | repeat split].
Qed.

Lemma create_booking_unknown_field_witness :
  fst (fst (create_booking 7 5 "2025-10-20" 1 0 "pm_1" false db_moor)) = None /\
  bookings (snd (create_booking 7 5 "2025-10-20" 1 0 "pm_1" false db_moor)) = [].
Proof.
  destruct (create_booking_unknown_field db_moor 7 5 "2025-10-20" 1 0 "pm_1"
              eq_refl eq_refl) as ((e & _ & Hres) & Hbookings & _).
  split; [rewrite Hres; reflexivity | exact Hbookings].
Defined.

(** C9 as stated fails: no field 7 exists on North Moor's database and
    hunter 5 has no booking, yet create_booking returns no booking and
    stores none. *)
Lemma create_booking_unknown_field_not_stored :
  ~ (forall db field_id hunter_id date num_hunters total_price payment_id,
       get_field db field_id = None ->
       fst (check_hunter_has_booking_on_date hunter_id date db) = false ->
       exists booking,
         fst (create_booking field_id hunter_id date num_hunters total_price payment_id
                             false db)
         = (Some booking, "Booking created successfully") /\
         b_field_id booking = field_id /\ b_status booking = pending) /\
  get_field db_moor 7 = None /\
  fst (check_hunter_has_booking_on_date 5 "2025-10-20" db_moor) = false /\
  fst (fst (create_booking 7 5 "2025-10-20" 1 0 "pm_1" false db_moor)) = None /\
  bookings (snd (create_booking 7 5 "2025-10-20" 1 0 "pm_1" false db_moor)) = [].
Proof.
  split; [|repeat split; reflexivity].
  intros H.
  destruct (H db_moor 7 5 "2025-10-20" 1 0 "pm_1" eq_refl eq_refl) as (b & Hb & _).
  discriminate Hb.
Qed.

(** ** Hunt sessions *)

Lemma find_update_first_hit {A : Type} (p : A -> bool) (g : A -> A) (l : list A) :
  (forall x, p x = true -> p (g x) = true) ->
  find p (update_first p g l) = option_map g (find p l).
Proof.
  intros Hg. induction l as [|x l IH]; simpl; [reflexivity|].
  destruct (p x) eqn:Ex; simpl.
  - rewrite (Hg x Ex). reflexivity.
  - rewrite Ex. exact IH.
Qed.

Lemma find_update_first_miss {A : Type} (p q : A -> bool) (g : A -> A) (l : list A) :
  (forall x, p x = true -> q x = false /\ q (g x) = false) ->
  find q (update_first p g l) = find q l.
Proof.
  intros Hg. induction l as [|x l IH]; simpl; [reflexivity|].
  destruct (p x) eqn:Ex; simpl.
  - destruct (Hg x Ex) as (-> & ->). reflexivity.
  - destruct (q x); [reflexivity | exact IH].
Qed.

Lemma find_app_last_hit {A : Type} (p : A -> bool) (l : list A) (x : A) :
  p x = true -> find p (l ++ [x]) <> None.
Proof.
  intros Hx. induction l as [|a l IH]; simpl.
  - rewrite Hx. discriminate.
  - destruct (p a); [discriminate | exact IH].
Qed.

Lemma start_hunt_session_found (sid now : Z) (db : DB) (s : HuntSession) :
  get_session db sid = Some s ->
  fst (start_hunt_session sid now db) = Some (started now s) /\
  get_session (snd (start_hunt_session sid now db)) sid = Some (started now s).
Proof.
  intros Hs. unfold start_hunt_session. rewrite Hs. simpl. split; [reflexivity|].
  unfold get_session in *. simpl.
  rewrite find_update_first_hit by (intros x Hx; exact Hx).
  rewrite Hs. reflexivity.
Qed.

Lemma end_hunt_session_found (sid now : Z) (db : DB) (s : HuntSession) :
  get_session db sid = Some s ->
  fst (end_hunt_session sid now db) = Some (ended now s) /\
  get_session (snd (end_hunt_session sid now db)) sid = Some (ended now s).
Proof.
  intros Hs. unfold end_hunt_session. rewrite Hs. simpl. split; [reflexivity|].
  unfold get_session in *. simpl.
  rewrite find_update_first_hit by (intros x Hx; exact Hx).
  rewrite Hs. reflexivity.
Qed.

Lemma status_after_start (sid now : Z) (db : DB) (st : session_status) :
  status_of db sid = Some st ->
  status_of (snd (start_hunt_session sid now db)) sid = Some active.
Proof.
  unfold status_of. destruct (get_session db sid) as [s|] eqn:Hs; [|discriminate].
  intros _. destruct (start_hunt_session_found sid now db s Hs) as (_ & ->). reflexivity.
Qed.

Lemma status_after_end (sid now : Z) (db : DB) (st : session_status) :
  status_of db sid = Some st ->
  status_of (snd (end_hunt_session sid now db)) sid = Some completed.
Proof.
  unfold status_of. destruct (get_session db sid) as [s|] eqn:Hs; [|discriminate].
  intros _. destruct (end_hunt_session_found sid now db s Hs) as (_ & ->). reflexivity.
Qed.

Lemma guarded_from_completed (sid : Z) (calls : list session_call) (db : DB) :
  status_of db sid = Some completed -> guarded sid calls db = true -> calls = [].
Proof.
  intros Hst. destruct calls as [|c rest]; [reflexivity|]. simpl.
  unfold call_allowed. rewrite Hst. destruct c; discriminate.
Qed.

Lemma guarded_from_active (sid : Z) (calls : list session_call) (db : DB) :
  status_of db sid = Some active -> guarded sid calls db = true ->
  calls = [] \/ exists now, calls = [call_end now].
Proof.
  intros Hst. destruct calls as [|c rest]; [left; reflexivity|]. simpl.
  unfold call_allowed. rewrite Hst. destruct c as [now|now]; [discriminate|]. simpl.
  intros Hg. right. exists now. f_equal.
  eapply guarded_from_completed; [|exact Hg].
  eapply status_after_end. exact Hst.
Qed.

(** The three ways a create_hunt_report call ends: refused for a value out
    of range, with the state as it was; refused by a foreign key, with one
    serial id consumed; or accepted, with the report appended and the
    field row updated. *)
Lemma create_hunt_report_cases (sid fid hid : Z) (rd : ReportData) (today : string)
    (db : DB) :
  (fst (create_hunt_report sid fid hid rd today db) = None /\
   snd (create_hunt_report sid fid hid rd today db) = db) \/
  (fst (create_hunt_report sid fid hid rd today db) = None /\
   snd (create_hunt_report sid fid hid rd today db) = skip_report_id db) \/
  (report_insert_error db sid fid hid rd today = None /\
   create_hunt_report sid fid hid rd today db
   = (Some (mkReport (next_report_id db) sid fid hid (report_animals rd) (report_species rd)
                     (match rd_ground_remarks rd with Some s => s | None => "" end)
                     (rd_review_rating rd)
                     (match rd_review_text rd with Some s => s | None => "" end)
                     (match rd_success rd with Some b => b | None => false end)),
      mkDB (users db)
           (update_first (fun f => f_id f =? fid)
                         (report_on_field today (report_animals rd) (report_species rd))
                         (fields db))
           (bookings db) (sessions db)
           (reports db
            ++ [mkReport (next_report_id db) sid fid hid (report_animals rd)
                         (report_species rd)
                         (match rd_ground_remarks rd with Some s => s | None => "" end)
                         (rd_review_rating rd)
                         (match rd_review_text rd with Some s => s | None => "" end)
                         (match rd_success rd with Some b => b | None => false end)])
           (tags db) (next_booking_id db) (next_session_id db) (next_report_id db + 1)
           (next_tag_id db) (files db))).
Proof.
  unfold create_hunt_report.
  destruct (report_insert_error db sid fid hid rd today) as [[| |]|]; simpl; auto.
Qed.

(** A create_hunt_report call leaves the sessions, the bookings, the users
    and the tags as they were. *)
Lemma create_hunt_report_other_tables (sid fid hid : Z) (rd : ReportData) (today : string)
    (db : DB) :
  sessions (snd (create_hunt_report sid fid hid rd today db)) = sessions db /\
  bookings (snd (create_hunt_report sid fid hid rd today db)) = bookings db /\
  users (snd (create_hunt_report sid fid hid rd today db)) = users db /\
  tags (snd (create_hunt_report sid fid hid rd today db)) = tags db.
Proof.
  destruct (create_hunt_report_cases sid fid hid rd today db)
    as [(_ & ->) | [(_ & ->) | (_ & ->)]]; repeat split.
Qed.

(** C4, as amended.  On an existing session start_hunt_session always
    succeeds and sets the status to active (and start_time to now), and
    end_hunt_session always succeeds and sets it to completed (and end_time
    to now), whatever the status was; neither helper tests the current
    status.  For call sequences that respect the guards of the calling
    pages (start only from not_started, end only from active) the statuses
    of a session that begins not_started form a prefix of
    [not_started, active, completed]. *)
Theorem session_status_sequence :
  (forall db session_id now s,
     get_session db session_id = Some s ->
     fst (start_hunt_session session_id now db) = Some (started now s) /\
     get_session (snd (start_hunt_session session_id now db)) session_id
     = Some (started now s) /\
     s_status (started now s) = active /\ s_start_time (started now s) = Some now) /\
  (forall db session_id now s,
     get_session db session_id = Some s ->
     fst (end_hunt_session session_id now db) = Some (ended now s) /\
     get_session (snd (end_hunt_session session_id now db)) session_id
     = Some (ended now s) /\
     s_status (ended now s) = completed /\ s_end_time (ended now s) = Some now) /\
  (forall session_id calls db,
     status_of db session_id = Some not_started ->
     guarded session_id calls db = true ->
     is_prefix (status_trace session_id calls db) lifecycle).
Proof.
  split; [|split].
  - intros db sid now s Hs.
    destruct (start_hunt_session_found sid now db s Hs) as (H1 & H2). auto.
  - intros db sid now s Hs.
    destruct (end_hunt_session_found sid now db s Hs) as (H1 & H2). auto.
  - intros sid calls db Hst Hg. unfold is_prefix, lifecycle.
    destruct calls as [|c rest].
    + simpl. rewrite Hst. exists [Some active; Some completed]. reflexivity.
    + simpl in Hg. apply andb_true_iff in Hg. destruct Hg as (Hc & Hg).
      unfold call_allowed in Hc. rewrite Hst in Hc.
      destruct c as [now|now]; [|discriminate].
      pose proof (status_after_start sid now db _ Hst) as Hact.
      simpl in Hg.
      destruct (guarded_from_active sid rest _ Hact Hg) as [-> | (now' & ->)].
      * simpl. rewrite Hst. simpl in Hact. rewrite Hact.
        exists [Some completed]. reflexivity.
      * pose proof (status_after_end sid now' _ _ Hact) as Hcomp.
        simpl. rewrite Hst. simpl in Hact, Hcomp. rewrite Hact, Hcomp.
        exists []. reflexivity.
Qed.

(** Scenario D of the specification along the guarded path: start, then
    end, from a fresh session. *)
Lemma session_status_sequence_witness :
  s_status (started 100 (mkSession 1 1 5 1 None None not_started)) = active /\
  is_prefix (status_trace 1 [call_start 100; call_end 200] db_session) lifecycle.
Proof.
  destruct session_status_sequence as (Hstart & _ & Htrace).
  split.
  - destruct (Hstart db_session 1 100 (mkSession 1 1 5 1 None None not_started) eq_refl)
      as (_ & _ & H & _).
    exact H.
  - apply Htrace; reflexivity.
Defined.

(** C4 as stated fails: start_hunt_session does not leave the status of a
    session that is not not_started alone (a completed session goes back
    to active, and the call returns the session instead of failing), and
    end_hunt_session does not leave the status of a session that is not
    active alone (a not_started session goes straight to completed). *)
Lemma session_status_skips_and_reverses :
  ~ (forall db session_id now s,
       get_session db session_id = Some s -> s_status s <> not_started ->
       status_of (snd (start_hunt_session session_id now db)) session_id
       = Some (s_status s)) /\
  ~ (forall db session_id now s,
       get_session db session_id = Some s -> s_status s <> active ->
       status_of (snd (end_hunt_session session_id now db)) session_id
       = Some (s_status s)) /\
  status_trace 1 [call_end 100] db_session = [Some not_started; Some completed] /\
  status_trace 1 [call_start 100; call_end 200; call_start 300] db_session
  = [Some not_started; Some active; Some completed; Some active] /\
  fst (start_hunt_session 1 300
         (apply_session_call 1 (call_end 200)
            (apply_session_call 1 (call_start 100) db_session)))
  = Some (mkSession 1 1 5 1 (Some 300) (Some 200) active).
Proof.
  split; [|split; [|repeat split; reflexivity]].
  - intros H.
    specialize (H (apply_session_call 1 (call_end 200)
                     (apply_session_call 1 (call_start 100) db_session))
                  1 300 (mkSession 1 1 5 1 (Some 100) (Some 200) completed) eq_refl).
    simpl in H. discriminate H. discriminate.
  - intros H.
    specialize (H db_session 1 100 (mkSession 1 1 5 1 None None not_started) eq_refl).
    simpl in H. discriminate H. discriminate.
Qed.

(** C6, as amended.  end_hunt_session raises no sequencing error: on an
    existing session it sets end_time to the current time and the status to
    completed and returns the session, whatever the previous status and
    whether or not a hunt report exists for the session; for an unknown
    session id it returns None and changes nothing.  The order "report
    first, then end" is that of the one caller, the report form, after
    which the session is completed and, when the database accepted the
    report, a report for the session exists. *)
Theorem end_hunt_session_unconditional :
  (forall db session_id now s,
     get_session db session_id = Some s ->
     fst (end_hunt_session session_id now db) = Some (ended now s) /\
     get_session (snd (end_hunt_session session_id now db)) session_id
     = Some (ended now s) /\
     s_end_time (ended now s) = Some now /\ s_status (ended now s) = completed /\
     s_start_time (ended now s) = s_start_time s) /\
  (forall db session_id now,
     get_session db session_id = None ->
     end_hunt_session session_id now db = (None, db)) /\
  (forall db session_id field_id hunter_id report_data today now s,
     get_session db session_id = Some s ->
     let db' := submit_hunt_report session_id field_id hunter_id report_data today now db in
     (report_insert_error db session_id field_id hunter_id report_data today = None ->
      get_hunt_report_by_session session_id db' <> None) /\
     get_session db' session_id = Some (ended now s)).
Proof.
  split; [|split].
  - intros db sid now s Hs.
    destruct (end_hunt_session_found sid now db s Hs) as (H1 & H2). auto.
  - intros db sid now Hs. unfold end_hunt_session. rewrite Hs. reflexivity.
  - intros db sid fid h rd today now s Hs db'. subst db'. unfold submit_hunt_report.
    set (db1 := snd (create_hunt_report sid fid h rd today db)).
    assert (Hs1 : get_session db1 sid = Some s).
    { unfold get_session, db1.
      destruct (create_hunt_report_other_tables sid fid h rd today db) as (-> & _).
      exact Hs. }
    destruct (end_hunt_session_found sid now db1 s Hs1) as (_ & H2).
    split; [|exact H2].
    intros Hacc. unfold end_hunt_session. rewrite Hs1.
    unfold get_hunt_report_by_session, db1, create_hunt_report. rewrite Hacc. simpl.
    apply find_app_last_hit. simpl. apply Z.eqb_refl.
Qed.

Lemma end_hunt_session_unconditional_witness :
  fst (end_hunt_session 1 200 (snd (start_hunt_session 1 100 db_session)))
  = Some (mkSession 1 1 5 1 (Some 100) (Some 200) completed) /\
  end_hunt_session 2 200 db_session = (None, db_session) /\
  get_session (submit_hunt_report 1 1 5 empty_report "2025-10-20" 200
                 (snd (start_hunt_session 1 100 db_session))) 1
  = Some (mkSession 1 1 5 1 (Some 100) (Some 200) completed) /\
  get_hunt_report_by_session 1
    (submit_hunt_report 1 1 5 empty_report "2025-10-20" 200
       (snd (start_hunt_session 1 100 db_session))) <> None.
Proof.
  destruct end_hunt_session_unconditional as (Hend & Hnone & Hsubmit).
  split; [|split; [|split]].
  - destruct (Hend (snd (start_hunt_session 1 100 db_session)) 1 200
                (mkSession 1 1 5 1 (Some 100) None active) eq_refl) as (H & _).
    exact H.
  - apply Hnone. reflexivity.
  - destruct (Hsubmit (snd (start_hunt_session 1 100 db_session)) 1 1 5 empty_report
                "2025-10-20" 200 (mkSession 1 1 5 1 (Some 100) None active) eq_refl)
      as (_ & H).
    exact H.
  - destruct (Hsubmit (snd (start_hunt_session 1 100 db_session)) 1 1 5 empty_report
                "2025-10-20" 200 (mkSession 1 1 5 1 (Some 100) None active) eq_refl)
      as (H & _).
    apply H. reflexivity.
Defined.

(** C6 as stated fails: on a session that is still not_started and has no
    hunt report, end_hunt_session returns the session, now completed, and
    stores it. *)
Lemma end_hunt_session_without_report :
  ~ (forall db session_id now s,
       get_session db session_id = Some s ->
       s_status s <> active \/ get_hunt_report_by_session session_id db = None ->
       fst (end_hunt_session session_id now db) = None /\
       snd (end_hunt_session session_id now db) = db) /\
  get_hunt_report_by_session 1 db_session = None /\
  status_of db_session 1 = Some not_started /\
  fst (end_hunt_session 1 200 db_session)
  = Some (mkSession 1 1 5 1 None (Some 200) completed) /\
  status_of (snd (end_hunt_session 1 200 db_session)) 1 = Some completed.
Proof.
  split; [|repeat split; reflexivity].
  intros H.
  destruct (H db_session 1 200 (mkSession 1 1 5 1 None None not_started) eq_refl) as (Hf & _).
  - right. reflexivity.
  - discriminate Hf.
Qed.

(** ** The quota ledger *)

Lemma update_first_length {A : Type} (p : A -> bool) (g : A -> A) (l : list A) :
  List.length (update_first p g l) = List.length l.
Proof.
  induction l as [|x l IH]; simpl; [reflexivity|].
  destruct (p x); simpl; [reflexivity | rewrite IH; reflexivity].
Qed.

Lemma update_first_map {A B : Type} (f : A -> B) (p : A -> bool) (g : A -> A) (l : list A) :
  (forall x, f (g x) = f x) -> map f (update_first p g l) = map f l.
Proof.
  intros Hf. induction l as [|x l IH]; simpl; [reflexivity|].
  destruct (p x); simpl; [rewrite Hf | rewrite IH]; reflexivity.
Qed.

Lemma update_first_no_match {A : Type} (p : A -> bool) (g : A -> A) (l : list A) :
  (forall x, In x l -> p x = false) -> update_first p g l = l.
Proof.
  induction l as [|x l IH]; simpl; intros Hp; [reflexivity|].
  rewrite (Hp x (or_introl eq_refl)). f_equal. apply IH. intros y Hy. apply Hp. right. exact Hy.
Qed.

Lemma update_first_nth_miss {A : Type} (p : A -> bool) (g : A -> A) (l : list A)
    (i : nat) (x : A) :
  nth_error l i = Some x -> p x = false -> nth_error (update_first p g l) i = Some x.
Proof.
  revert i. induction l as [|a l IH]; intros [|i]; simpl; try discriminate.
  - intros [= ->] Hp. rewrite Hp. reflexivity.
  - intros Hn Hp. destruct (p a); simpl; [exact Hn | apply IH; assumption].
Qed.

Lemma update_first_nth_hit {A : Type} (p : A -> bool) (g : A -> A) (l : list A)
    (i : nat) (x : A) :
  nth_error l i = Some x -> p x = true ->
  (forall j y, (j < i)%nat -> nth_error l j = Some y -> p y = false) ->
  nth_error (update_first p g l) i = Some (g x).
Proof.
  revert i. induction l as [|a l IH]; intros [|i]; simpl; try discriminate.
  - intros [= ->] Hp _. rewrite Hp. reflexivity.
  - intros Hn Hp Hbefore.
    rewrite (Hbefore 0%nat a) by (simpl; auto; lia). simpl.
    apply IH; [exact Hn | exact Hp |].
    intros j y Hj Hy. apply (Hbefore (S j) y); [lia | exact Hy].
Qed.

Lemma update_first_forall {A : Type} (P : A -> Prop) (p : A -> bool) (g : A -> A)
    (l : list A) :
  (forall x, P x -> P (g x)) -> Forall P l -> Forall P (update_first p g l).
Proof.
  intros Hg. induction 1 as [|x l Hx Hl IH]; simpl; [constructor|].
  destruct (p x); constructor; auto.
Qed.

Lemma quarry_matches_true (name : string) (q : QuarryEntry) :
  quarry_matches name q = true <-> q_species q = Some name.
Proof.
  unfold quarry_matches. destruct (q_species q) as [s|].
  - rewrite String.eqb_eq. split; [intros ->; reflexivity | intros [= ->]; reflexivity].
  - split; discriminate.
Qed.

Lemma quarry_matches_false (name : string) (q : QuarryEntry) :
  quarry_matches name q = false <-> q_species q <> Some name.
Proof.
  rewrite <- quarry_matches_true. destruct (quarry_matches name q); split; congruence.
Qed.

Lemma deplete_species_species (name : string) (k : Z) (qs : list QuarryEntry) :
  map q_species (deplete_species name k qs) = map q_species qs.
Proof. apply update_first_map. reflexivity. Qed.

Lemma deplete_all_species (hs : list HarvestEntry) (qs : list QuarryEntry) :
  map q_species (deplete_all hs qs) = map q_species qs.
Proof.
  unfold deplete_all. revert qs.
  induction hs as [|h hs IH]; simpl; intros qs; [reflexivity|].
  rewrite IH. apply deplete_species_species.
Qed.

Lemma deplete_all_length (hs : list HarvestEntry) (qs : list QuarryEntry) :
  List.length (deplete_all hs qs) = List.length qs.
Proof.
  rewrite <- (length_map q_species), deplete_all_species. apply length_map.
Qed.

Lemma species_at (qs : list QuarryEntry) (i : nat) :
  nth_error (map q_species qs) i = option_map q_species (nth_error qs i).
Proof. apply nth_error_map. Qed.

Lemma first_of_species_transfer (qs qs' : list QuarryEntry) (i : nat) (s : string) :
  map q_species qs' = map q_species qs ->
  first_of_species qs i s -> first_of_species qs' i s.
Proof.
  intros Hmap ((q & Hq & Hs) & Hbefore). split.
  - pose proof (species_at qs' i) as H'. rewrite Hmap, species_at, Hq in H'. simpl in H'.
    destruct (nth_error qs' i) as [q'|]; [|discriminate].
    exists q'. split; [reflexivity|]. simpl in H'. congruence.
  - intros j q' Hj Hq'.
    pose proof (species_at qs' j) as H'. rewrite Hmap, species_at, Hq' in H'. simpl in H'.
    destruct (nth_error qs j) as [q0|] eqn:Hq0; [|discriminate].
    simpl in H'. injection H' as H'. rewrite <- H'. apply (Hbefore j q0 Hj Hq0).
Qed.

Lemma no_species_transfer (qs qs' : list QuarryEntry) (name : string) :
  map q_species qs' = map q_species qs ->
  (forall e, In e qs -> q_species e <> Some name) ->
  forall e, In e qs' -> q_species e <> Some name.
Proof.
  intros Hmap Hno e He Hs.
  assert (Hin : In (Some name) (map q_species qs)).
  { rewrite <- Hmap, <- Hs. apply in_map. exact He. }
  apply in_map_iff in Hin. destruct Hin as (e0 & Hs0 & He0).
  exact (Hno e0 He0 Hs0).
Qed.

Lemma deplete_species_unmatched (name : string) (k : Z) (qs : list QuarryEntry) :
  (forall e, In e qs -> q_species e <> Some name) -> deplete_species name k qs = qs.
Proof.
  intros Hno. apply update_first_no_match.
  intros e He. apply quarry_matches_false. apply Hno. exact He.
Qed.

Lemma deplete_all_app (hs1 hs2 : list HarvestEntry) (qs : list QuarryEntry) :
  deplete_all (hs1 ++ hs2) qs = deplete_all hs2 (deplete_all hs1 qs).
Proof. unfold deplete_all. apply fold_left_app. Qed.

Lemma deplete_all_untouched (hs : list HarvestEntry) (qs : list QuarryEntry)
    (i : nat) (e : QuarryEntry) :
  nth_error qs i = Some e ->
  (forall h, In h hs -> q_species e <> Some (harvest_species_name h)) ->
  nth_error (deplete_all hs qs) i = Some e.
Proof.
  unfold deplete_all. revert qs.
  induction hs as [|h hs IH]; simpl; intros qs Hn Hno; [exact Hn|].
  apply IH; [|intros h' Hh'; apply Hno; right; exact Hh'].
  apply update_first_nth_miss; [exact Hn|].
  apply quarry_matches_false. apply Hno. left. reflexivity.
Qed.

Lemma deplete_all_skip_unmatched (hs1 hs2 : list HarvestEntry) (h : HarvestEntry)
    (qs : list QuarryEntry) :
  (forall e, In e qs -> q_species e <> Some (harvest_species_name h)) ->
  deplete_all (hs1 ++ h :: hs2) qs = deplete_all (hs1 ++ hs2) qs.
Proof.
  intros Hno. rewrite !deplete_all_app.
  change (deplete_all (h :: hs2) (deplete_all hs1 qs))
    with (deplete_all hs2 (deplete_species (harvest_species_name h) (harvest_quantity h)
                                           (deplete_all hs1 qs))).
  rewrite deplete_species_unmatched; [reflexivity|].
  apply (no_species_transfer qs); [apply deplete_all_species | exact Hno].
Qed.

Lemma fold_clamp_nonneg (l : list Z) (r : Z) :
  l <> [] -> 0 <= fold_left clamp_sub l r.
Proof.
  revert r. induction l as [|k l IH]; intros r Hne; [congruence|]. simpl.
  destruct l as [|k' l'].
  - simpl. unfold clamp_sub. lia.
  - apply IH. discriminate.
Qed.

(** The remaining value of the first entry of a species after the whole
    report: the clamped subtraction applied once per harvested entry that
    names the species, in report order. *)
Lemma deplete_all_first (hs : list HarvestEntry) (qs : list QuarryEntry) (i : nat)
    (s : string) :
  first_of_species qs i s ->
  exists e e',
    nth_error qs i = Some e /\ nth_error (deplete_all hs qs) i = Some e' /\
    q_species e' = Some s /\ q_total e' = q_total e /\
    quarry_remaining e' = fold_left clamp_sub (quantities_of s hs) (quarry_remaining e).
Proof.
  revert qs. induction hs as [|h hs IH]; intros qs Hfirst.
  - destruct Hfirst as ((e & He & Hs) & _). exists e, e. simpl. auto.
  - set (qs1 := deplete_species (harvest_species_name h) (harvest_quantity h) qs).
    assert (Hfirst1 : first_of_species qs1 i s).
    { apply (first_of_species_transfer qs); [apply deplete_species_species | exact Hfirst]. }
    destruct (IH qs1 Hfirst1) as (e1 & e' & He1 & He' & Hs' & Ht' & Hr').
    destruct Hfirst as ((e & He & Hs) & Hbefore).
    exists e, e'. split; [exact He|]. split; [exact He'|]. split; [exact Hs'|].
    unfold quantities_of. simpl.
    destruct (String.eqb (harvest_species_name h) s) eqn:Ename.
    + apply String.eqb_eq in Ename.
      assert (E1 : nth_error qs1 i = Some (deplete_entry (harvest_quantity h) e)).
      { apply update_first_nth_hit; [exact He | |].
        - apply quarry_matches_true. rewrite Ename. exact Hs.
        - intros j y Hj Hy. apply quarry_matches_false. rewrite Ename.
          apply (Hbefore j y Hj Hy). }
      rewrite E1 in He1. injection He1 as <-.
      split; [exact Ht'|]. simpl. exact Hr'.
    + apply String.eqb_neq in Ename.
      assert (E1 : nth_error qs1 i = Some e).
      { apply update_first_nth_miss; [exact He|].
        apply quarry_matches_false. rewrite Hs. congruence. }
      rewrite E1 in He1. injection He1 as <-.
      split; [exact Ht' | exact Hr'].
Qed.

Lemma deplete_all_keeps_bounds (hs : list HarvestEntry) (qs : list QuarryEntry) :
  Forall (fun h => 0 <= harvest_quantity h) hs ->
  Forall quarry_entry_ok qs -> Forall quarry_entry_ok (deplete_all hs qs).
Proof.
  unfold deplete_all. intros Hhs. revert qs.
  induction Hhs as [|h hs Hh Hhs IH]; simpl; intros qs Hqs; [exact Hqs|].
  apply IH. apply update_first_forall; [|exact Hqs].
  intros q Hq. unfold quarry_entry_ok, deplete_entry, quarry_remaining, quarry_total in *.
  simpl. lia.
Qed.

Lemma report_on_field_id (today : string) (n : Z) (hs : list HarvestEntry) (f : Field) :
  f_id (report_on_field today n hs f) = f_id f.
Proof.
  unfold report_on_field.
  destruct (f_field_type f); try reflexivity.
  destruct (f_quarry_species f) as [[|q qs]|]; try reflexivity;
    destruct (f_quarry_remaining f); reflexivity.
Qed.

Lemma report_on_field_total (today : string) (n : Z) (hs : list HarvestEntry) (f : Field) :
  f_quarry_total (report_on_field today n hs f) = f_quarry_total f.
Proof.
  unfold report_on_field.
  destruct (f_field_type f); try reflexivity.
  destruct (f_quarry_species f) as [[|q qs]|]; try reflexivity;
    destruct (f_quarry_remaining f); reflexivity.
Qed.

(** The fields after a create_hunt_report call: as they were when the
    report was refused, with the reported field updated when it was
    accepted. *)
Lemma fields_after_report (sid fid hid : Z) (rd : ReportData) (today : string) (db : DB) :
  (fst (create_hunt_report sid fid hid rd today db) = None /\
   fields (snd (create_hunt_report sid fid hid rd today db)) = fields db) \/
  (report_insert_error db sid fid hid rd today = None /\
   fields (snd (create_hunt_report sid fid hid rd today db))
   = update_first (fun f => f_id f =? fid)
                  (report_on_field today (report_animals rd) (report_species rd))
                  (fields db)).
Proof.
  destruct (create_hunt_report_cases sid fid hid rd today db)
    as [(H & ->) | [(H & ->) | (H & ->)]]; auto.
Qed.

Lemma get_field_after_report (sid fid hid : Z) (rd : ReportData) (today : string) (db : DB) :
  report_insert_error db sid fid hid rd today = None ->
  get_field (snd (create_hunt_report sid fid hid rd today db)) fid
  = option_map (report_on_field today (report_animals rd) (report_species rd))
               (get_field db fid).
Proof.
  intros Hacc. unfold get_field, create_hunt_report. rewrite Hacc. simpl.
  apply find_update_first_hit.
  intros f Hf. rewrite report_on_field_id. exact Hf.
Qed.

Lemma get_field_after_refused_report (sid fid hid : Z) (rd : ReportData) (today : string)
    (db : DB) (fid' : Z) :
  report_insert_error db sid fid hid rd today <> None ->
  get_field (snd (create_hunt_report sid fid hid rd today db)) fid' = get_field db fid'.
Proof.
  intros Hrej. unfold get_field.
  destruct (fields_after_report sid fid hid rd today db) as [(_ & ->) | (Hacc & _)];
    [reflexivity | contradiction].
Qed.

Lemma get_field_after_report_other (sid fid hid : Z) (rd : ReportData) (today : string)
    (db : DB) (fid' : Z) :
  fid' <> fid ->
  get_field (snd (create_hunt_report sid fid hid rd today db)) fid' = get_field db fid'.
Proof.
  intros Hne. unfold get_field.
  destruct (fields_after_report sid fid hid rd today db) as [(_ & ->) | (_ & ->)];
    [reflexivity|].
  apply find_update_first_miss.
  intros f Hf. rewrite report_on_field_id.
  apply Z.eqb_eq in Hf. rewrite Hf.
  assert (E : (fid =? fid') = false) by (apply Z.eqb_neq; congruence).
  rewrite E. split; reflexivity.
Qed.

Lemma report_on_field_quota_ok (today : string) (rd : ReportData) (f : Field) :
  report_nonnegative rd -> field_quota_ok f ->
  field_quota_ok (report_on_field today (report_animals rd) (report_species rd) f).
Proof.
  intros (Hn & Hhs) (Hsp & Hsc).
  destruct f as [id name cap blocked kind total remaining species auto lastd lasth].
  unfold field_quota_ok, species_quota, scalar_quota_ok, report_on_field in *.
  cbn [f_field_type f_quarry_species f_quarry_remaining f_quarry_total] in *.
  destruct kind; try (split; [exact Hsp | exact Hsc]).
  destruct species as [[|q qs]|]; [| |].
  - destruct remaining as [r|]; cbn; (split; [constructor|]).
    + intros r' [= <-]. destruct (Hsc r eq_refl) as (H0 & Ht). split; [lia|].
      intros t Et. specialize (Ht t Et). lia.
    + discriminate.
  - cbn. split; [|exact Hsc]. apply deplete_all_keeps_bounds; assumption.
  - destruct remaining as [r|]; cbn; (split; [constructor|]).
    + intros r' [= <-]. destruct (Hsc r eq_refl) as (H0 & Ht). split; [lia|].
      intros t Et. specialize (Ht t Et). lia.
    + discriminate.
Qed.

(** C3.  For a create_hunt_report call on a diy-leased field that the
    database accepts (the session, field and hunter rows exist and the
    integers fit their columns): with a (non-empty) per-species quota
    list, the first entry of each species ends with the remaining value
    obtained by applying max(0, remaining - quantity) once per harvested
    entry naming that species, so max(0, old - quantity) when one entry
    names it, and never a negative value once an entry named it; without
    such a list and with quarry_remaining set, quarry_remaining becomes
    max(0, old - animals_harvested); and a report with
    animals_harvested = 0 and no harvested entries leaves the species
    list, quarry_total and, the stored value being non-negative as the
    data model requires, quarry_remaining unchanged. *)
Theorem create_hunt_report_depletes_quota (db : DB) (session_id field_id hunter_id : Z)
    (report_data : ReportData) (today : string) (field : Field) :
  get_field db field_id = Some field ->
  f_field_type field = diy_leased ->
  report_insert_error db session_id field_id hunter_id report_data today = None ->
  exists report field',
    fst (create_hunt_report session_id field_id hunter_id report_data today db) = Some report /\
    get_field (snd (create_hunt_report session_id field_id hunter_id report_data today db))
              field_id = Some field' /\
    (forall q qs,
       f_quarry_species field = Some (q :: qs) ->
       exists qs',
         f_quarry_species field' = Some qs' /\
         forall i species,
           first_of_species (q :: qs) i species ->
           exists e e',
             nth_error (q :: qs) i = Some e /\ nth_error qs' i = Some e' /\
             q_species e' = Some species /\ q_total e' = q_total e /\
             quarry_remaining e'
             = fold_left (fun remaining quantity => Z.max 0 (remaining - quantity))
                         (quantities_of species (report_species report_data))
                         (quarry_remaining e) /\
             (forall quantity,
                quantities_of species (report_species report_data) = [quantity] ->
                quarry_remaining e' = Z.max 0 (quarry_remaining e - quantity)) /\
             (quantities_of species (report_species report_data) <> [] ->
              0 <= quarry_remaining e')) /\
    (forall r,
       f_quarry_species field = None \/ f_quarry_species field = Some [] ->
       f_quarry_remaining field = Some r ->
       f_quarry_remaining field' = Some (Z.max 0 (r - report_animals report_data))) /\
    (report_animals report_data = 0 -> report_species report_data = [] ->
     (forall r, f_quarry_remaining field = Some r -> 0 <= r) ->
     f_quarry_species field' = f_quarry_species field /\
     f_quarry_total field' = f_quarry_total field /\
     f_quarry_remaining field' = f_quarry_remaining field).
Proof.
  intros Hget Hdiy Hacc.
  eexists.
  exists (report_on_field today (report_animals report_data) (report_species report_data) field).
  split; [unfold create_hunt_report; rewrite Hacc; reflexivity|].
  split; [rewrite get_field_after_report by exact Hacc; rewrite Hget; reflexivity|].
  destruct field as [id name cap blocked kind total remaining species auto lastd lasth].
  cbn [f_field_type f_quarry_species f_quarry_remaining f_quarry_total] in *. subst kind.
  unfold report_on_field.
  cbn [f_field_type f_quarry_species f_quarry_remaining f_quarry_total].
  split; [|split].
  - intros q qs ->. cbn. eexists. split; [reflexivity|].
    intros i s Hfirst.
    destruct (deplete_all_first (report_species report_data) (q :: qs) i s Hfirst)
      as (e & e' & He & He' & Hs & Ht & Hr).
    exists e, e'. repeat split; try assumption.
    + intros k Hk. change (fold_left clamp_sub (quantities_of s (report_species report_data))
                                     (quarry_remaining e)) with
        (fold_left (fun r0 k0 => Z.max 0 (r0 - k0))
                   (quantities_of s (report_species report_data)) (quarry_remaining e)) in Hr.
      rewrite Hk in Hr. exact Hr.
    + intros Hne. rewrite Hr. apply fold_clamp_nonneg. exact Hne.
  - intros r [-> | ->] ->; reflexivity.
  - intros Hzero Hnil Hr. rewrite Hzero, Hnil.
    destruct species as [[|q qs]|]; cbn.
    + destruct remaining as [r|]; cbn; repeat split.
      specialize (Hr r eq_refl). f_equal. lia.
    + repeat split.
    + destruct remaining as [r|]; cbn; repeat split.
      specialize (Hr r eq_refl). f_equal. lia.
Qed.

(** Scenario C of the specification, through the theorem: from Red Deer
    10 of 10, a report of 3 leaves 7 and a following report of 8 leaves 0;
    on the old lease, with the scalar quota at 4 of 10, a report of 6
    animals leaves 0 and an empty report leaves 4. *)
Lemma create_hunt_report_depletes_quota_witness :
  (exists e7,
     option_map species_quota
       (get_field (snd (create_hunt_report 1 2 5 (report_of 3 [harvest "Red Deer" 3])
                          "2025-10-20" db_glen_hunt)) 2)
     = Some [e7; mkQuarry (Some "Roe Deer") (Some 6) (Some 6)] /\
     quarry_remaining e7 = 7) /\
  (exists e0,
     option_map species_quota
       (get_field (snd (create_hunt_report 2 2 6 (report_of 8 [harvest "Red Deer" 8])
                          "2025-10-21"
                          (snd (create_hunt_report 1 2 5 (report_of 3 [harvest "Red Deer" 3])
                                  "2025-10-20" db_glen_hunt)))) 2)
     = Some [e0; mkQuarry (Some "Roe Deer") (Some 6) (Some 6)] /\
     quarry_remaining e0 = 0) /\
  option_map f_quarry_remaining
    (get_field (snd (create_hunt_report 1 3 5 (report_of 6 []) "2025-10-20" (db_old_lease 4))) 3)
  = Some (Some 0) /\
  option_map f_quarry_remaining
    (get_field (snd (create_hunt_report 1 3 5 empty_report "2025-10-20" (db_old_lease 4))) 3)
  = Some (Some 4).
Proof.
  assert (Hfirst : forall r,
            first_of_species [mkQuarry (Some "Red Deer") (Some 10) (Some r);
                              mkQuarry (Some "Roe Deer") (Some 6) (Some 6)] 0 "Red Deer").
  { intros r. split; [eexists; split; reflexivity|]. intros j q Hj. lia. }
  split; [|split; [|split]].
  - destruct (create_hunt_report_depletes_quota db_glen_hunt 1 2 5
                (report_of 3 [harvest "Red Deer" 3]) "2025-10-20" field_glen
                eq_refl eq_refl eq_refl) as (rep & f' & _ & Hf' & Hlist & _).
    destruct (Hlist _ _ eq_refl) as (qs' & Hqs' & Hentries).
    destruct (Hentries 0%nat "Red Deer" (Hfirst 10)) as (e & e' & He & He' & _ & _ & _ & H1 & _).
    injection He as <-.
    specialize (H1 3 eq_refl). simpl in H1.
    exists e'. split; [|exact H1].
    rewrite Hf'. simpl. unfold species_quota. rewrite Hqs'.
    rewrite get_field_after_report in Hf' by reflexivity. simpl in Hf'. injection Hf' as <-.
    simpl in Hqs'. injection Hqs' as <-. simpl in He'. injection He' as <-. reflexivity.
  - set (db1 := snd (create_hunt_report 1 2 5 (report_of 3 [harvest "Red Deer" 3])
                       "2025-10-20" db_glen_hunt)).
    destruct (create_hunt_report_depletes_quota db1 2 2 6
                (report_of 8 [harvest "Red Deer" 8]) "2025-10-21"
                (report_on_field "2025-10-20" 3 [harvest "Red Deer" 3] field_glen)
                eq_refl eq_refl eq_refl) as (rep & f' & _ & Hf' & Hlist & _).
    destruct (Hlist _ _ eq_refl) as (qs' & Hqs' & Hentries).
    destruct (Hentries 0%nat "Red Deer" (Hfirst 7)) as (e & e' & He & He' & _ & _ & _ & H1 & _).
    injection He as <-.
    specialize (H1 8 eq_refl). simpl in H1.
    exists e'. split; [|exact H1].
    rewrite Hf'. simpl. unfold species_quota. rewrite Hqs'.
    rewrite get_field_after_report in Hf' by reflexivity. simpl in Hf'. injection Hf' as <-.
    simpl in Hqs'. injection Hqs' as <-. simpl in He'. injection He' as <-. reflexivity.
  - destruct (create_hunt_report_depletes_quota (db_old_lease 4) 1 3 5 (report_of 6 [])
                "2025-10-20" (field_old_lease 4) eq_refl eq_refl eq_refl)
      as (rep & f' & _ & Hf' & _ & Hscalar & _).
    rewrite Hf'. simpl. rewrite (Hscalar 4 (or_introl eq_refl) eq_refl). reflexivity.
  - destruct (create_hunt_report_depletes_quota (db_old_lease 4) 1 3 5 empty_report
                "2025-10-20" (field_old_lease 4) eq_refl eq_refl eq_refl)
      as (rep & f' & _ & Hf' & _ & _ & Hempty).
    rewrite Hf'. simpl.
    destruct (Hempty eq_refl eq_refl) as (_ & _ & ->); [|reflexivity].
    intros r [= <-]. lia.
Defined.

Lemma report_keeps_quotas (db : DB) (sid fid hid : Z) (rd : ReportData) (today : string) :
  report_nonnegative rd -> quotas_ok db ->
  quotas_ok (snd (create_hunt_report sid fid hid rd today db)).
Proof.
  intros Hrd Hdb. unfold quotas_ok.
  destruct (fields_after_report sid fid hid rd today db) as [(_ & ->) | (_ & ->)];
    [exact Hdb|].
  apply update_first_forall; [|exact Hdb].
  intros f Hf. apply report_on_field_quota_ok; assumption.
Qed.

(** C7.  For reports whose animals_harvested and harvested quantities are
    counts (non-negative, as the data model has them), create_hunt_report
    preserves [0 <= remaining <= total] for every quota entry of every
    field, in the per-species list and in the scalar pair alike, whether
    the database accepts the report or refuses it. *)
Theorem create_hunt_report_keeps_quota_bounds (db : DB) (session_id field_id hunter_id : Z)
    (report_data : ReportData) (today : string) :
  report_nonnegative report_data ->
  quotas_ok db ->
  quotas_ok (snd (create_hunt_report session_id field_id hunter_id report_data today db)).
Proof. apply report_keeps_quotas. Qed.

Lemma quotas_ok_db_glen : quotas_ok db_glen.
Proof.
  unfold quotas_ok. simpl. constructor; [|constructor]. split.
  - unfold species_quota. simpl.
    repeat constructor; unfold quarry_remaining, quarry_total; simpl; lia.
  - intros r Hr. discriminate Hr.
Qed.

Lemma quotas_ok_db_glen_hunt : quotas_ok db_glen_hunt.
Proof. exact quotas_ok_db_glen. Qed.

(** Scenario C of the specification, through the theorem: after the
    accepted report of 3 Red Deer (7 of 10 remain) the bounds hold. *)
Lemma create_hunt_report_keeps_quota_bounds_witness :
  quotas_ok (snd (create_hunt_report 1 2 5 (report_of 3 [harvest "Red Deer" 3])
                    "2025-10-20" db_glen_hunt)) /\
  option_map species_quota
    (get_field (snd (create_hunt_report 1 2 5 (report_of 3 [harvest "Red Deer" 3])
                       "2025-10-20" db_glen_hunt)) 2)
  = Some [mkQuarry (Some "Red Deer") (Some 10) (Some 7);
          mkQuarry (Some "Roe Deer") (Some 6) (Some 6)].
Proof.
  split; [|reflexivity].
  apply create_hunt_report_keeps_quota_bounds.
  - unfold report_nonnegative, report_animals, report_species. simpl.
    split; [lia|]. repeat constructor. unfold harvest_quantity. simpl. lia.
  - exact quotas_ok_db_glen_hunt.
Defined.

(** C10. For a create_hunt_report call on a diy-leased field with a
    (non-empty) per-species quota list: the list keeps its length, every
    entry whose species is named by no harvested entry is unchanged, a
    harvested entry naming a species that no quota entry carries has no
    effect (the result of a call that the database accepts is that of the
    report without it), and quarry_total and the scalar quarry_remaining
    are untouched.  For a field that is not diy-leased, quarry_species,
    quarry_remaining and quarry_total are unchanged by any report.  Fields
    other than the reported one are unchanged. *)
Theorem create_hunt_report_frame (db : DB) (session_id field_id hunter_id : Z)
    (report_data : ReportData) (today : string) (field : Field) :
  get_field db field_id = Some field ->
  exists field',
    get_field (snd (create_hunt_report session_id field_id hunter_id report_data today db))
              field_id = Some field' /\
    f_quarry_total field' = f_quarry_total field /\
    (f_field_type field = diy_leased ->
     forall q qs,
       f_quarry_species field = Some (q :: qs) ->
       exists qs',
         f_quarry_species field' = Some qs' /\
         List.length qs' = List.length (q :: qs) /\
         f_quarry_remaining field' = f_quarry_remaining field /\
         (forall i e,
            nth_error (q :: qs) i = Some e ->
            (forall h, In h (report_species report_data) ->
                       q_species e <> Some (harvest_species_name h)) ->
            nth_error qs' i = Some e) /\
         (forall hs1 h hs2,
            report_insert_error db session_id field_id hunter_id report_data today = None ->
            report_species report_data = hs1 ++ h :: hs2 ->
            (forall e, In e (q :: qs) -> q_species e <> Some (harvest_species_name h)) ->
            qs' = deplete_all (hs1 ++ hs2) (q :: qs)) /\
         ((forall h e, In h (report_species report_data) -> In e (q :: qs) ->
                       q_species e <> Some (harvest_species_name h)) ->
          qs' = q :: qs)) /\
    (f_field_type field <> diy_leased ->
     f_quarry_species field' = f_quarry_species field /\
     f_quarry_remaining field' = f_quarry_remaining field) /\
    (forall other_id,
       other_id <> field_id ->
       get_field (snd (create_hunt_report session_id field_id hunter_id report_data today db))
                 other_id = get_field db other_id).
Proof.
  intros Hget.
  destruct (report_insert_error db session_id field_id hunter_id report_data today)
    as [err|] eqn:Hacc.
  - exists field.
    split; [rewrite get_field_after_refused_report by congruence; exact Hget|].
    split; [reflexivity|].
    split; [|split].
    + intros Hdiy q qs Hsp. exists (q :: qs).
      split; [exact Hsp|]. split; [reflexivity|]. split; [reflexivity|].
      split; [|split].
      * intros i e He _. exact He.
      * intros hs1 h hs2 Hnone. discriminate Hnone.
      * intros _. reflexivity.
    + intros _. split; reflexivity.
    + intros other Hne. apply get_field_after_report_other. exact Hne.
  - exists (report_on_field today (report_animals report_data) (report_species report_data)
                            field).
    split; [rewrite get_field_after_report by exact Hacc; rewrite Hget; reflexivity|].
    split; [apply report_on_field_total|].
    split; [|split].
    + intros Hdiy q qs Hsp. unfold report_on_field. rewrite Hdiy, Hsp.
      eexists. split; [reflexivity|]. split; [apply deplete_all_length|].
      split; [reflexivity|]. split; [|split].
      * intros i e He Hno. apply deplete_all_untouched; assumption.
      * intros hs1 h hs2 _ -> Hno. apply deplete_all_skip_unmatched. exact Hno.
      * intros Hno. apply nth_error_ext. intros i.
        destruct (nth_error (q :: qs) i) as [e|] eqn:He.
        -- apply deplete_all_untouched; [exact He|].
           intros h Hh. apply Hno; [exact Hh | eapply nth_error_In; exact He].
        -- apply nth_error_None. rewrite deplete_all_length. apply nth_error_None. exact He.
    + intros Hother. unfold report_on_field.
      destruct (f_field_type field); [congruence | split; reflexivity | split; reflexivity].
    + intros other Hne. apply get_field_after_report_other. exact Hne.
Qed.

Lemma create_hunt_report_frame_witness :
  exists qs',
    option_map f_quarry_species
      (get_field (snd (create_hunt_report 1 2 5
                         (report_of 5 [harvest "Red Deer" 3; harvest "Fox" 2])
                         "2025-10-20" db_glen_hunt)) 2)
    = Some (Some qs') /\
    nth_error qs' 1 = Some (mkQuarry (Some "Roe Deer") (Some 6) (Some 6)) /\
    qs' = deplete_all [harvest "Red Deer" 3] (species_quota field_glen).
Proof.
  destruct (create_hunt_report_frame db_glen_hunt 1 2 5
              (report_of 5 [harvest "Red Deer" 3; harvest "Fox" 2]) "2025-10-20"
              field_glen eq_refl) as (f' & Hf' & _ & Hdiy & _).
  destruct (Hdiy eq_refl _ _ eq_refl) as (qs' & Hqs' & _ & _ & Hkeep & Hskip & _).
  exists qs'. split; [rewrite Hf'; simpl; rewrite Hqs'; reflexivity|]. split.
  - apply Hkeep; [reflexivity|].
    simpl. intros h [<- | [<- | []]]; discriminate.
  - apply (Hskip [harvest "Red Deer" 3] (harvest "Fox" 2) []); [reflexivity | reflexivity|].
    simpl. intros e [<- | [<- | []]]; discriminate.
Defined.

(** ** Animal tags *)

Lemma tag_lookup_issued (l : list AnimalTag) (t : AnimalTag) :
  NoDup (map t_tag_number l) -> In t l ->
  find (tag_number_is (t_tag_number t)) l = Some t.
Proof.
  induction l as [|a l IH]; simpl; [tauto|].
  intros Hnd Hin. inversion Hnd as [|x xs Hnotin Hnd']; subst.
  unfold tag_number_is at 1.
  destruct Hin as [-> | Hin].
  - rewrite String.eqb_refl. reflexivity.
  - destruct (String.eqb_spec (t_tag_number a) (t_tag_number t)) as [E | _].
    + exfalso. apply Hnotin. rewrite E. apply in_map. exact Hin.
    + apply IH; assumption.
Qed.

Lemma tag_lookup_unissued (l : list AnimalTag) (s : string) :
  ~ In s (map t_tag_number l) -> find (tag_number_is s) l = None.
Proof.
  induction l as [|a l IH]; simpl; [reflexivity|].
  intros Hnot. unfold tag_number_is at 1.
  destruct (String.eqb_spec (t_tag_number a) s) as [E | _]; [tauto|].
  apply IH. tauto.
Qed.

Lemma tag_number_fresh (l : list AnimalTag) (s : string) :
  existsb (tag_number_is s) l = false -> ~ In s (map t_tag_number l).
Proof.
  intros Hex Hin. apply in_map_iff in Hin. destruct Hin as (t & Ht & Hin).
  assert (E : existsb (tag_number_is s) l = true).
  { apply existsb_exists. exists t. split; [exact Hin|].
    unfold tag_number_is. rewrite Ht. apply String.eqb_refl. }
  congruence.
Qed.

Section TaggingProofs.

Variable image_decodes : list Byte.byte -> bool.

(** A create_animal_tag call either returns no tag and leaves the tag
    table as it was, or returns a tag that carries the uuid of the call,
    which no stored tag carried, and appends it. *)
Lemma create_animal_tag_cases (c : TagCall) (db : DB) :
  (fst (call_create_animal_tag image_decodes c db) = None /\
   tags (snd (call_create_animal_tag image_decodes c db)) = tags db) \/
  exists t,
    fst (call_create_animal_tag image_decodes c db) = Some t /\
    t_tag_number t = tc_uuid c /\
    ~ In (tc_uuid c) (map t_tag_number (tags db)) /\
    tags (snd (call_create_animal_tag image_decodes c db)) = tags db ++ [t].
Proof.
  unfold call_create_animal_tag, create_animal_tag.
  destruct (match tc_photo_bytes c with
            | Some (b :: bs) =>
                if image_decodes (b :: bs)
                then Some (Some (save_animal_photo (tc_uuid c))) else None
            | _ => Some None
            end) as [photo_path|]; [|left; split; reflexivity].
  unfold tag_insert_error.
  destruct (negb (int4 (tc_hunt_report_id c) && int4 (tc_hunter_id c) && int4 (tc_field_id c)));
    [left; split; [reflexivity | destruct photo_path; reflexivity]|].
  destruct (existsb (tag_number_is (tc_uuid c)) (tags db)) eqn:Eex;
    [left; split; [reflexivity | destruct photo_path; reflexivity]|].
  destruct (negb (has_row r_id (reports db) (tc_hunt_report_id c)
                  && has_row u_id (users db) (tc_hunter_id c)
                  && has_row f_id (fields db) (tc_field_id c)));
    [left; split; [reflexivity | destruct photo_path; reflexivity]|].
  right. eexists. simpl. split; [reflexivity|]. split; [reflexivity|].
  split; [apply tag_number_fresh; exact Eex | destruct photo_path; reflexivity].
Qed.

Lemma create_animal_tag_keeps_unique (c : TagCall) (db : DB) :
  NoDup (map t_tag_number (tags db)) ->
  NoDup (map t_tag_number (tags (snd (call_create_animal_tag image_decodes c db)))) /\
  (forall t, In t (tags db) -> In t (tags (snd (call_create_animal_tag image_decodes c db)))).
Proof.
  intros Hnd.
  destruct (create_animal_tag_cases c db) as [(_ & ->) | (t & _ & Hnum & Hfresh & ->)].
  - split; [exact Hnd | auto].
  - split.
    + rewrite map_app. simpl. apply NoDup_app; [exact Hnd | repeat constructor; auto |].
      intros s Hs [<- | []]. rewrite Hnum in Hs. exact (Hfresh Hs).
    + intros t' Ht'. apply in_or_app. left. exact Ht'.
Qed.

Lemma issue_tags_keeps_unique (calls : list TagCall) (db : DB) :
  NoDup (map t_tag_number (tags db)) ->
  NoDup (map t_tag_number (tags (issue_tags image_decodes calls db))) /\
  (forall t, In t (tags db) -> In t (tags (issue_tags image_decodes calls db))).
Proof.
  unfold issue_tags. revert db.
  induction calls as [|c calls IH]; simpl; intros db Hnd; [auto|].
  destruct (create_animal_tag_keeps_unique c db Hnd) as (Hnd1 & Hkeep1).
  destruct (IH _ Hnd1) as (Hnd2 & Hkeep2).
  split; [exact Hnd2 | auto].
Qed.

End TaggingProofs.

(** C8. Tags issued by create_animal_tag carry pairwise distinct tag
    numbers: a call that returns a tag gives it the uuid drawn for the
    call, which no stored tag carries; a call returns a tag whenever its
    uuid is carried by no stored tag, the report, the hunter and the field
    it names exist (ids in the range of their columns) and Pillow can
    store the photo it passes, and the tag then refers to that photo; and
    two calls that both return a tag return different tag numbers.  After
    any sequence of create_animal_tag calls, get_animal_tag_by_tag_number
    applied to the tag number of a stored tag returns exactly that tag's
    record, and applied to a string that is the tag number of no stored
    tag returns None; stored tags stay stored. *)
Theorem animal_tags_unique_and_verifiable (image_decodes : list Byte.byte -> bool) :
  (forall db c t,
     fst (call_create_animal_tag image_decodes c db) = Some t ->
     t_tag_number t = tc_uuid c /\
     ~ In (t_tag_number t) (map t_tag_number (tags db)) /\
     In t (tags (snd (call_create_animal_tag image_decodes c db)))) /\
  (forall db c,
     ~ In (tc_uuid c) (map t_tag_number (tags db)) ->
     has_row r_id (reports db) (tc_hunt_report_id c) = true ->
     has_row u_id (users db) (tc_hunter_id c) = true ->
     has_row f_id (fields db) (tc_field_id c) = true ->
     int4 (tc_hunt_report_id c) = true -> int4 (tc_hunter_id c) = true ->
     int4 (tc_field_id c) = true ->
     (forall b bs, tc_photo_bytes c = Some (b :: bs) -> image_decodes (b :: bs) = true) ->
     exists t,
       fst (call_create_animal_tag image_decodes c db) = Some t /\
       t_photo_path t = match tc_photo_bytes c with
                        | Some (_ :: _) => Some (save_animal_photo (tc_uuid c))
                        | _ => None
                        end) /\
  (forall db c1 c2 t1 t2,
     fst (call_create_animal_tag image_decodes c1 db) = Some t1 ->
     fst (call_create_animal_tag image_decodes c2
            (snd (call_create_animal_tag image_decodes c1 db))) = Some t2 ->
     t_tag_number t1 <> t_tag_number t2) /\
  (forall calls db,
     NoDup (map t_tag_number (tags db)) ->
     let db' := issue_tags image_decodes calls db in
     NoDup (map t_tag_number (tags db')) /\
     (forall i j t1 t2,
        nth_error (tags db') i = Some t1 -> nth_error (tags db') j = Some t2 ->
        i <> j -> t_tag_number t1 <> t_tag_number t2) /\
     (forall t, In t (tags db') ->
                get_animal_tag_by_tag_number (t_tag_number t) db' = Some t) /\
     (forall s, ~ In s (map t_tag_number (tags db')) ->
                get_animal_tag_by_tag_number s db' = None) /\
     (forall t, In t (tags db) -> In t (tags db'))).
Proof.
  assert (Hone : forall db c t,
            fst (call_create_animal_tag image_decodes c db) = Some t ->
            t_tag_number t = tc_uuid c /\
            ~ In (t_tag_number t) (map t_tag_number (tags db)) /\
            In t (tags (snd (call_create_animal_tag image_decodes c db)))).
  { intros db c t Ht.
    destruct (create_animal_tag_cases image_decodes c db)
      as [(E & _) | (t' & Ht' & Hnum & Hfresh & Htags)].
    - rewrite E in Ht. discriminate Ht.
    - rewrite Ht' in Ht. injection Ht as ->.
      split; [exact Hnum|]. split; [rewrite Hnum; exact Hfresh|].
      rewrite Htags. apply in_or_app. right. left. reflexivity. }
  split; [exact Hone|]. split; [|split].
  - intros db c Hfresh Hr Hu Hf Ir Iu If Hphoto.
    assert (Eex : existsb (tag_number_is (tc_uuid c)) (tags db) = false).
    { destruct (existsb (tag_number_is (tc_uuid c)) (tags db)) eqn:Eex; [|reflexivity].
      exfalso. apply Hfresh. apply existsb_exists in Eex.
      destruct Eex as (t & Hin & Ht). apply String.eqb_eq in Ht.
      rewrite <- Ht. apply in_map. exact Hin. }
    unfold call_create_animal_tag, create_animal_tag, tag_insert_error.
    rewrite Eex, Hr, Hu, Hf, Ir, Iu, If. simpl.
    destruct (tc_photo_bytes c) as [[|b bs]|] eqn:Ebytes.
    + eexists. split; reflexivity.
    + rewrite (Hphoto b bs eq_refl). eexists. split; reflexivity.
    + eexists. split; reflexivity.
  - intros db c1 c2 t1 t2 H1 H2 E.
    destruct (Hone _ _ _ H1) as (_ & _ & Hin1).
    destruct (Hone _ _ _ H2) as (_ & Hfresh2 & _).
    apply Hfresh2. rewrite <- E. apply in_map. exact Hin1.
  - intros calls db Hnd db'.
    destruct (issue_tags_keeps_unique image_decodes calls db Hnd) as (Hnd' & Hkeep).
    fold db' in Hnd', Hkeep.
    split; [exact Hnd'|]. split; [|split; [|split]].
    + intros i j t1 t2 Hi Hj Hij E. apply Hij.
      assert (Hlt : (i < List.length (map t_tag_number (tags db')))%nat).
      { rewrite length_map. apply nth_error_Some. congruence. }
      apply (proj1 (NoDup_nth_error _) Hnd' i j Hlt).
      rewrite !nth_error_map, Hi, Hj. simpl. congruence.
    + intros t Ht. apply tag_lookup_issued; assumption.
    + intros s Hs. apply tag_lookup_unissued. exact Hs.
    + exact Hkeep.
Qed.

(** Scenario E of the specification, through the theorem: on Glen Lease
    with its two hunt reports, a tagging call with a photo returns a tag
    that refers to the photo; two tags issued in a row have different
    numbers, each number looks up its own record, and a number never
    issued is not found. *)
Lemma animal_tags_unique_and_verifiable_witness :
  let db' := issue_tags any_image [tag_call 1 "Red Deer" "uuid-a"; tag_call 2 "Roe Deer" "uuid-b"]
                        db_glen_reported in
  (exists t,
     fst (call_create_animal_tag any_image (tag_call 1 "Red Deer" "uuid-a") db_glen_reported)
     = Some t /\
     t_photo_path t = Some "animal_photos/uuid-a.jpg") /\
  (forall t1 t2,
     nth_error (tags db') 0 = Some t1 -> nth_error (tags db') 1 = Some t2 ->
     t_tag_number t1 <> t_tag_number t2) /\
  option_map t_species (get_animal_tag_by_tag_number "uuid-b" db') = Some "Roe Deer" /\
  get_animal_tag_by_tag_number "uuid-c" db' = None.
Proof.
  intros db'.
  destruct (animal_tags_unique_and_verifiable any_image) as (_ & Hissue & _ & Hseq).
  destruct (Hseq [tag_call 1 "Red Deer" "uuid-a"; tag_call 2 "Roe Deer" "uuid-b"]
                 db_glen_reported (NoDup_nil _)) as (_ & Hdistinct & Hfound & Hmissing & _).
  fold db' in Hdistinct, Hfound, Hmissing.
  split; [|split; [|split]].
  - apply (Hissue db_glen_reported (tag_call 1 "Red Deer" "uuid-a"));
      try reflexivity.
    intros H. exact H.
  - intros t1 t2 H1 H2. apply (Hdistinct 0%nat 1%nat t1 t2 H1 H2). discriminate.
  - pose proof (Hfound (mkTag 2 "uuid-b" 2 5 2 "Roe Deer" "Good"
                              (Some "animal_photos/uuid-b.jpg") "qr_codes/uuid-b.png"
                              None None None)
                     (or_intror (or_introl eq_refl))) as Hb.
    exact (f_equal (option_map t_species) Hb).
  - apply Hmissing. simpl. intros [E | [E | []]]; discriminate E.
Defined.

(** * Further properties of the helpers *)

(** ** Booking status changes *)

Lemma filter_length_update_first {A : Type} (p q : A -> bool) (g : A -> A) (l : list A)
    (x : A) :
  find p l = Some x ->
  (List.length (filter q (update_first p g l)) + (if q x then 1 else 0)
   = List.length (filter q l) + (if q (g x) then 1 else 0))%nat.
Proof.
  induction l as [|a l IH]; simpl; [discriminate|].
  destruct (p a) eqn:Ea.
  - intros [= ->]. simpl. destruct (q x), (q (g x)); simpl; lia.
  - intros Hf. specialize (IH Hf). simpl. destruct (q a); simpl; lia.
Qed.

Lemma filter_sum_update_first {A : Type} (f : A -> Z) (p q : A -> bool) (g : A -> A)
    (l : list A) (x : A) :
  find p l = Some x ->
  sum_Z (map f (filter q (update_first p g l))) + (if q x then f x else 0)
  = sum_Z (map f (filter q l)) + (if q (g x) then f (g x) else 0).
Proof.
  unfold sum_Z.
  induction l as [|a l IH]; simpl; [discriminate|].
  destruct (p a) eqn:Ea.
  - intros [= ->]. simpl. destruct (q x), (q (g x)); simpl; lia.
  - intros Hf. specialize (IH Hf). simpl. destruct (q a); simpl; lia.
Qed.

Lemma filter_length_le {A : Type} (p q : A -> bool) (l : list A) :
  (forall x, p x = true -> q x = true) ->
  (List.length (filter p l) <= List.length (filter q l))%nat.
Proof.
  intros Hpq. induction l as [|a l IH]; simpl; [lia|].
  destruct (p a) eqn:Ea.
  - rewrite (Hpq a Ea). simpl. lia.
  - destruct (q a); simpl; lia.
Qed.

Lemma filter_length_pos {A : Type} (q : A -> bool) (l : list A) (x : A) :
  In x l -> q x = true -> (1 <= List.length (filter q l))%nat.
Proof.
  intros Hin Hq.
  assert (Hf : In x (filter q l)) by (apply filter_In; auto).
  destruct (filter q l); [destruct Hf | simpl; lia].
Qed.

Lemma find_some_in {A : Type} (p : A -> bool) (l : list A) (x : A) :
  find p l = Some x -> In x l /\ p x = true.
Proof. apply find_some. Qed.

Lemma update_booking_status_found (id : Z) (st : booking_status) (db : DB) (b : Booking) :
  get_booking_by_id id db = Some b ->
  bookings (update_booking_status id st db)
  = update_first (fun x => b_id x =? id) (with_status st) (bookings db).
Proof. intros Hb. unfold update_booking_status. rewrite Hb. reflexivity. Qed.

Lemma hunter_day_filter_with_status (h : Z) (d : string) (st : booking_status) (b : Booking) :
  hunter_day_filter h d (with_status st b)
  = (b_hunter_id b =? h) && (b_date b =? d)%string && is_active st.
Proof. reflexivity. Qed.

Lemma field_day_filter_with_status (fid : Z) (d : string) (st : booking_status) (b : Booking) :
  field_day_filter fid d (with_status st b)
  = (b_field_id b =? fid) && (b_date b =? d)%string && is_active st.
Proof. reflexivity. Qed.

(** X1. update_booking_status with an unknown booking id changes nothing.
    Cancelling or rejecting a pending or confirmed booking lowers the
    hunters counted for its field and date by exactly its num_hunters,
    leaves the count of every other field and date unchanged, and touches
    no field row. *)
Theorem update_booking_status_releases_capacity :
  (forall db booking_id status,
     get_booking_by_id booking_id db = None ->
     update_booking_status booking_id status db = db) /\
  (forall db booking_id status b,
     get_booking_by_id booking_id db = Some b ->
     is_active (b_status b) = true -> is_active status = false ->
     let db' := update_booking_status booking_id status db in
     hunters_booked db' (b_field_id b) (b_date b)
     = hunters_booked db (b_field_id b) (b_date b) - b_num_hunters b /\
     (forall field_id date,
        field_id <> b_field_id b \/ date <> b_date b ->
        hunters_booked db' field_id date = hunters_booked db field_id date) /\
     (forall field_id, get_field db' field_id = get_field db field_id)).
Proof.
  split.
  - intros db id st Hnone. unfold update_booking_status. rewrite Hnone. reflexivity.
  - intros db id st b Hb Hact Hst db'.
    assert (Hsum : forall fid d,
               hunters_booked db' fid d + (if field_day_filter fid d b then b_num_hunters b else 0)
               = hunters_booked db fid d).
    { intros fid d. unfold hunters_booked, db'.
      rewrite (update_booking_status_found id st db b Hb).
      pose proof (filter_sum_update_first b_num_hunters (fun x => b_id x =? id)
                    (field_day_filter fid d) (with_status st) (bookings db) b Hb) as H.
      rewrite field_day_filter_with_status, Hst, andb_false_r in H. lia. }
    split; [|split].
    + specialize (Hsum (b_field_id b) (b_date b)).
      assert (E : field_day_filter (b_field_id b) (b_date b) b = true)
        by (apply field_day_filter_true; auto).
      rewrite E in Hsum. lia.
    + intros fid d Hne. specialize (Hsum fid d).
      destruct (field_day_filter fid d b) eqn:E; [|lia].
      apply field_day_filter_true in E. destruct E as (E1 & E2 & _).
      destruct Hne as [Hne | Hne]; congruence.
    + intros fid. unfold db', update_booking_status. rewrite Hb. reflexivity.
Qed.

Lemma update_booking_status_releases_capacity_witness :
  hunters_booked
    (update_booking_status 1 cancelled
       (run_bookings [booking_call 1 5 "2025-10-20" 2] db_moor)) 1 "2025-10-20" = 0.
Proof.
  destruct update_booking_status_releases_capacity as (_ & H).
  destruct (H (run_bookings [booking_call 1 5 "2025-10-20" 2] db_moor) 1 cancelled
              (mkBooking 1 1 5 "2025-10-20" 2 0 pending "card" "pm_test")
              eq_refl eq_refl eq_refl) as (H1 & _).
  exact H1.
Defined.

(** X2. Cancelling or rejecting a booking keeps "at most one pending or
    confirmed booking per hunter and date"; and when that invariant holds
    and the booking was the hunter's pending or confirmed booking of the
    day, the hunter is free again: check_hunter_has_booking_on_date
    answers (False, None) and a new create_booking for that day is not
    refused as a double booking: it returns a booking whenever the
    database accepts the row. *)
Theorem cancelled_booking_frees_the_day :
  (forall db booking_id status,
     is_active status = false ->
     one_active_per_day db -> one_active_per_day (update_booking_status booking_id status db)) /\
  (forall db booking_id status b,
     one_active_per_day db ->
     get_booking_by_id booking_id db = Some b ->
     is_active (b_status b) = true -> is_active status = false ->
     let db' := update_booking_status booking_id status db in
     check_hunter_has_booking_on_date (b_hunter_id b) (b_date b) db' = (false, None) /\
     forall field_id num_hunters total_price payment_id,
     booking_insert_error db' field_id (b_hunter_id b) num_hunters = None ->
     exists nb,
       fst (create_booking field_id (b_hunter_id b) (b_date b) num_hunters total_price
                           payment_id false db')
       = (Some nb, "Booking created successfully")).
Proof.
  assert (Hlen : forall db id st b h d,
             get_booking_by_id id db = Some b -> is_active st = false ->
             (List.length (filter (hunter_day_filter h d)
                                  (bookings (update_booking_status id st db)))
              + (if hunter_day_filter h d b then 1 else 0)
              = List.length (filter (hunter_day_filter h d) (bookings db)))%nat).
  { intros db id st b h d Hb Hst.
    rewrite (update_booking_status_found id st db b Hb).
    pose proof (filter_length_update_first (fun x => b_id x =? id) (hunter_day_filter h d)
                  (with_status st) (bookings db) b Hb) as H.
    rewrite hunter_day_filter_with_status, Hst, andb_false_r in H. lia. }
  split.
  - intros db id st Hst Hinv h d.
    destruct (get_booking_by_id id db) as [b|] eqn:Hb.
    + specialize (Hlen db id st b h d Hb Hst). specialize (Hinv h d). lia.
    + unfold update_booking_status. rewrite Hb. apply Hinv.
  - intros db id st b Hinv Hb Hact Hst db'.
    assert (Hfree : find (hunter_day_filter (b_hunter_id b) (b_date b)) (bookings db') = None).
    { specialize (Hlen db id st b (b_hunter_id b) (b_date b) Hb Hst).
      assert (E : hunter_day_filter (b_hunter_id b) (b_date b) b = true)
        by (apply hunter_day_filter_true; auto).
      rewrite E in Hlen. specialize (Hinv (b_hunter_id b) (b_date b)).
      fold db' in Hlen.
      destruct (find _ (bookings db')) as [x|] eqn:Hx; [|reflexivity].
      apply find_some in Hx. destruct Hx as (Hin & Hq).
      pose proof (filter_length_pos _ _ _ Hin Hq). lia. }
    split.
    + unfold check_hunter_has_booking_on_date. rewrite Hfree. reflexivity.
    + intros fid n p pid Hacc. unfold create_booking, check_hunter_has_booking_on_date.
      rewrite Hfree, Hacc. simpl. eexists. reflexivity.
Qed.

Lemma one_active_per_day_db_moor : one_active_per_day db_moor.
Proof. intros h d. simpl. lia. Qed.

(** Scenario: hunter 5 books North Moor, cancels, and books again. *)
Lemma cancelled_booking_frees_the_day_witness :
  check_hunter_has_booking_on_date 5 "2025-10-20"
    (update_booking_status 1 cancelled
       (run_bookings [booking_call 1 5 "2025-10-20" 2] db_moor)) = (false, None) /\
  exists nb,
    fst (create_booking 1 5 "2025-10-20" 1 0 "pm_2" false
           (update_booking_status 1 cancelled
              (run_bookings [booking_call 1 5 "2025-10-20" 2] db_moor)))
    = (Some nb, "Booking created successfully").
Proof.
  destruct cancelled_booking_frees_the_day as (_ & H).
  destruct (H (run_bookings [booking_call 1 5 "2025-10-20" 2] db_moor) 1 cancelled
              (mkBooking 1 1 5 "2025-10-20" 2 0 pending "card" "pm_test")) as (H1 & H2).
  - apply run_bookings_keeps_one_active. exact one_active_per_day_db_moor.
  - reflexivity.
  - reflexivity.
  - reflexivity.
  - split; [exact H1|]. apply (H2 1 1 0 "pm_2"). reflexivity.
Defined.

(** X3. update_booking_status makes no double-booking test: setting a
    cancelled or rejected booking back to pending or confirmed, while the
    same hunter holds another pending or confirmed booking on the same
    date, leaves the hunter with two such bookings. *)
Theorem reactivated_booking_double_books (db : DB) (booking_id : Z) (status : booking_status)
    (b other : Booking) :
  get_booking_by_id booking_id db = Some b ->
  is_active (b_status b) = false -> is_active status = true ->
  In other (bookings db) ->
  b_hunter_id other = b_hunter_id b -> b_date other = b_date b ->
  is_active (b_status other) = true ->
  (2 <= List.length (filter (hunter_day_filter (b_hunter_id b) (b_date b))
                            (bookings (update_booking_status booking_id status db))))%nat /\
  ~ one_active_per_day (update_booking_status booking_id status db).
Proof.
  intros Hb Hinact Hst Hin Hh Hd Hact.
  assert (Hlen : (2 <= List.length (filter (hunter_day_filter (b_hunter_id b) (b_date b))
                            (bookings (update_booking_status booking_id status db))))%nat).
  { rewrite (update_booking_status_found booking_id status db b Hb).
    pose proof (filter_length_update_first (fun x => b_id x =? booking_id)
                  (hunter_day_filter (b_hunter_id b) (b_date b))
                  (with_status status) (bookings db) b Hb) as H.
    rewrite hunter_day_filter_with_status, Hst, Z.eqb_refl, String.eqb_refl in H.
    unfold hunter_day_filter at 2 in H. rewrite Hinact, andb_false_r in H. simpl in H.
    assert (Hq : hunter_day_filter (b_hunter_id b) (b_date b) other = true)
      by (apply hunter_day_filter_true; auto).
    pose proof (filter_length_pos _ _ _ Hin Hq). lia. }
  split; [exact Hlen|].
  intros Hinv. specialize (Hinv (b_hunter_id b) (b_date b)). lia.
Qed.

(** Scenario: hunter 5 books North Moor, cancels, books it again for the
    same day, and the cancelled booking is then set back to confirmed. *)
Lemma reactivated_booking_double_books_witness :
  ~ one_active_per_day
      (update_booking_status 1 confirmed
         (run_bookings [booking_call 1 5 "2025-10-20" 1]
            (update_booking_status 1 cancelled
               (run_bookings [booking_call 1 5 "2025-10-20" 2] db_moor)))).
Proof.
  apply (reactivated_booking_double_books _ 1 confirmed
           (mkBooking 1 1 5 "2025-10-20" 2 0 cancelled "card" "pm_test")
           (mkBooking 2 1 5 "2025-10-20" 1 0 pending "card" "pm_test"));
    try reflexivity.
  simpl. right. left. reflexivity.
Defined.

(** ** Booking ids and lookups *)

Lemma find_app_fresh {A : Type} (p : A -> bool) (l : list A) (x : A) :
  (forall y, In y l -> p y = false) -> p x = true -> find p (l ++ [x]) = Some x.
Proof.
  intros Hl Hx. induction l as [|a l IH]; simpl.
  - rewrite Hx. reflexivity.
  - rewrite (Hl a (or_introl eq_refl)). apply IH. intros y Hy. apply Hl. right. exact Hy.
Qed.

Lemma find_app_old {A : Type} (p : A -> bool) (l : list A) (x : A) :
  p x = false -> find p (l ++ [x]) = find p l.
Proof.
  intros Hx. induction l as [|a l IH]; simpl.
  - rewrite Hx. reflexivity.
  - destruct (p a); [reflexivity | exact IH].
Qed.

Lemma booking_ids_ok_add (b : Booking) (db : DB) :
  b_id b = next_booking_id db -> booking_ids_ok db -> booking_ids_ok (add_booking b db).
Proof.
  intros Hid (Hnd & Hlt). unfold booking_ids_ok, add_booking. simpl. split.
  - rewrite map_app. simpl. apply NoDup_app; [exact Hnd | repeat constructor; auto |].
    intros i Hi [<- | []]. apply in_map_iff in Hi. destruct Hi as (y & Hy & Hin).
    rewrite Forall_forall in Hlt. specialize (Hlt y Hin). lia.
  - apply Forall_app. split.
    + eapply Forall_impl; [|exact Hlt]. simpl. intros a Ha. lia.
    + constructor; [lia | constructor].
Qed.

(** X4. When booking ids are distinct and below the next serial value,
    they stay so after create_booking (with or without admin override) and
    after update_booking_status; a booking returned by create_booking
    carries the next serial id, is returned by get_booking_by_id for that
    id, is listed last by get_bookings_by_hunter and get_bookings_by_field,
    and lookups of the other ids are unchanged. *)
Theorem created_booking_is_found :
  (forall db field_id hunter_id date num_hunters total_price payment_id admin_override,
     booking_ids_ok db ->
     booking_ids_ok (snd (create_booking field_id hunter_id date num_hunters total_price
                                         payment_id admin_override db))) /\
  (forall db booking_id status,
     booking_ids_ok db -> booking_ids_ok (update_booking_status booking_id status db)) /\
  (forall db field_id hunter_id date num_hunters total_price payment_id admin_override b msg,
     booking_ids_ok db ->
     fst (create_booking field_id hunter_id date num_hunters total_price payment_id
                         admin_override db) = (Some b, msg) ->
     let db' := snd (create_booking field_id hunter_id date num_hunters total_price
                                    payment_id admin_override db) in
     b_id b = next_booking_id db /\
     get_booking_by_id (b_id b) db' = Some b /\
     get_bookings_by_hunter hunter_id db' = get_bookings_by_hunter hunter_id db ++ [b] /\
     get_bookings_by_field field_id db' = get_bookings_by_field field_id db ++ [b] /\
     (forall other_id, other_id <> b_id b ->
                       get_booking_by_id other_id db' = get_booking_by_id other_id db)).
Proof.
  split; [|split].
  - intros db fid h d n p pid ov Hok.
    destruct (create_booking_state fid h d n p pid ov db) as [-> | [-> | (st & -> & _)]];
      [exact Hok | |].
    + destruct Hok as (Hnd & Hlt). split; [exact Hnd|].
      eapply Forall_impl; [|exact Hlt]. simpl. intros a Ha. lia.
    + apply booking_ids_ok_add; [reflexivity | exact Hok].
  - intros db id st (Hnd & Hlt). unfold update_booking_status.
    destruct (get_booking_by_id id db); [|split; assumption].
    unfold booking_ids_ok, set_bookings. simpl. split.
    + rewrite update_first_map by reflexivity. exact Hnd.
    + apply update_first_forall; [|exact Hlt]. intros x Hx. exact Hx.
  - intros db fid h d n p pid ov b msg (Hnd & Hlt) Hres db'. subst db'.
    destruct (create_booking_cases fid h d n p pid ov db)
      as [(E & _) | [(E & _) | (st & E & _)]];
      [rewrite Hres in E; discriminate E | rewrite Hres in E; discriminate E |].
    rewrite E in Hres |- *. simpl in Hres. injection Hres as <- _. simpl.
    split; [reflexivity|]. split; [|split; [|split]].
    + unfold get_booking_by_id. simpl. apply find_app_fresh; [|apply Z.eqb_refl].
      intros y Hy. rewrite Forall_forall in Hlt. specialize (Hlt y Hy).
      apply Z.eqb_neq. lia.
    + unfold get_bookings_by_hunter. simpl. rewrite filter_app. simpl.
      rewrite Z.eqb_refl. reflexivity.
    + unfold get_bookings_by_field. simpl. rewrite filter_app. simpl.
      rewrite Z.eqb_refl. reflexivity.
    + intros other Hne. unfold get_booking_by_id. simpl. apply find_app_old. simpl.
      apply Z.eqb_neq. congruence.
Qed.

Lemma booking_ids_ok_db_moor : booking_ids_ok db_moor.
Proof. split; constructor. Qed.

Lemma created_booking_is_found_witness :
  get_booking_by_id 1 (snd (create_booking 1 5 "2025-10-20" 2 0 "pm_1" false db_moor))
  = Some (mkBooking 1 1 5 "2025-10-20" 2 0 pending "card" "pm_1").
Proof.
  destruct created_booking_is_found as (_ & _ & H).
  destruct (H db_moor 1 5 "2025-10-20" 2 0 "pm_1" false
              (mkBooking 1 1 5 "2025-10-20" 2 0 pending "card" "pm_1")
              "Booking created successfully" booking_ids_ok_db_moor eq_refl)
    as (_ & H2 & _).
  exact H2.
Defined.

(** X5. Under "at most one pending or confirmed booking per hunter and
    date", get_todays_bookings_for_hunter returns at most one booking, and
    every booking it returns is a confirmed booking of that hunter dated
    today. *)
Theorem todays_bookings_at_most_one (db : DB) (hunter_id : Z) (today : string) :
  one_active_per_day db ->
  (List.length (get_todays_bookings_for_hunter hunter_id today db) <= 1)%nat /\
  (forall b, In b (get_todays_bookings_for_hunter hunter_id today db) ->
             In b (bookings db) /\ b_hunter_id b = hunter_id /\ b_date b = today /\
             b_status b = confirmed).
Proof.
  intros Hinv. split.
  - unfold get_todays_bookings_for_hunter.
    eapply Nat.le_trans; [|apply (Hinv hunter_id today)].
    apply filter_length_le. intros b Hb. unfold hunter_day_filter.
    apply andb_true_iff in Hb. destruct Hb as (Hb & Hs). rewrite Hb.
    destruct (b_status b); simpl in *; congruence.
  - intros b Hb. unfold get_todays_bookings_for_hunter in Hb.
    apply filter_In in Hb. destruct Hb as (Hin & Hb).
    rewrite !andb_true_iff, Z.eqb_eq, String.eqb_eq in Hb. destruct Hb as ((Hh & Hd) & Hs).
    repeat split; auto. destruct (b_status b); simpl in Hs; congruence.
Qed.

Lemma todays_bookings_at_most_one_witness :
  (List.length (get_todays_bookings_for_hunter 5 "2025-10-20"
                  (run_bookings [booking_call 2 5 "2025-10-20" 1; booking_call 1 5 "2025-10-20" 1]
                                db_glen)) <= 1)%nat.
Proof.
  apply todays_bookings_at_most_one.
  apply run_bookings_keeps_one_active. intros h d. simpl. lia.
Defined.

(** X6. Admin override skips the double-booking test: a create_booking
    call with admin override that the database accepts stores the booking
    with the message "Booking created successfully (Admin Override)" also
    when the hunter holds a pending or confirmed booking on that date,
    where the call without override returns no booking; the hunter then
    has two such bookings on the date.  Every booking that create_booking
    returns carries the arguments of the call, the payment method "card"
    and the next serial id, and its status is confirmed exactly when the
    field has auto_approve_bookings set, and pending otherwise. *)
Theorem create_booking_override_and_status :
  (forall db field_id hunter_id date num_hunters total_price payment_id eb,
     booking_insert_error db field_id hunter_id num_hunters = None ->
     In eb (bookings db) -> b_hunter_id eb = hunter_id -> b_date eb = date ->
     is_active (b_status eb) = true ->
     fst (fst (create_booking field_id hunter_id date num_hunters total_price payment_id
                              false db)) = None /\
     exists b,
       create_booking field_id hunter_id date num_hunters total_price payment_id true db
       = ((Some b, "Booking created successfully (Admin Override)"), add_booking b db) /\
       (2 <= List.length (filter (hunter_day_filter hunter_id date)
                                 (bookings (add_booking b db))))%nat /\
       ~ one_active_per_day (add_booking b db)) /\
  (forall db field_id hunter_id date num_hunters total_price payment_id admin_override b msg,
     fst (create_booking field_id hunter_id date num_hunters total_price payment_id
                         admin_override db) = (Some b, msg) ->
     b = mkBooking (next_booking_id db) field_id hunter_id date num_hunters total_price
                   (b_status b) "card" payment_id /\
     (b_status b = confirmed <->
      exists f, get_field db field_id = Some f /\ f_auto_approve_bookings f = true) /\
     (b_status b = pending <->
      ~ exists f, get_field db field_id = Some f /\ f_auto_approve_bookings f = true)).
Proof.
  split.
  - intros db fid h d n p pid eb Hacc Hin Hh Hd Hact.
    assert (Hp : hunter_day_filter h d eb = true) by (apply hunter_day_filter_true; auto).
    split.
    + destruct (find_some_first _ _ _ Hin Hp) as (y & Hfind & _).
      unfold create_booking, check_hunter_has_booking_on_date. rewrite Hfind. reflexivity.
    + unfold create_booking. rewrite Hacc. simpl. eexists. split; [reflexivity|].
      assert (Hlen : (2 <= List.length
                            (filter (hunter_day_filter h d)
                               (bookings db
                                ++ [mkBooking (next_booking_id db) fid h d n p
                                      match get_field db fid with
                                      | Some f =>
                                          if f_auto_approve_bookings f
                                          then confirmed else pending
                                      | None => pending
                                      end "card" pid])))%nat).
      { rewrite filter_app, length_app.
        pose proof (filter_length_pos _ _ _ Hin Hp) as H1.
        assert (E : hunter_day_filter h d
                      (mkBooking (next_booking_id db) fid h d n p
                         match get_field db fid with
                         | Some f => if f_auto_approve_bookings f then confirmed else pending
                         | None => pending
                         end "card" pid) = true).
        { apply hunter_day_filter_true. simpl. repeat split.
          destruct (get_field db fid) as [f|]; [destruct (f_auto_approve_bookings f)|];
            reflexivity. }
        simpl. rewrite E. simpl. lia. }
      split; [exact Hlen|].
      intros Hinv. specialize (Hinv h d). simpl in Hinv. lia.
  - intros db fid h d n p pid ov b msg Hres.
    destruct (create_booking_cases fid h d n p pid ov db)
      as [(E & _) | [(E & _) | (st & E & _)]];
      [rewrite Hres in E; discriminate E | rewrite Hres in E; discriminate E |].
    unfold create_booking in Hres.
    destruct (if ov then None
              else let '(has_booking, existing_booking) :=
                     check_hunter_has_booking_on_date h d db in
                   if has_booking
                   then Some match existing_booking with
                             | Some eb => conflict_field_name db eb
                             | None => "Unknown"
                             end
                   else None) as [name|]; [discriminate Hres|].
    destruct (booking_insert_error db fid h n); [discriminate Hres|].
    simpl in Hres. injection Hres as <- _. simpl.
    split; [reflexivity|].
    destruct (get_field db fid) as [f|].
    + destruct (f_auto_approve_bookings f) eqn:Ea; split; split.
      * intros _. exists f. auto.
      * reflexivity.
      * discriminate.
      * intros Hno. exfalso. apply Hno. exists f. auto.
      * discriminate.
      * intros (f' & [= <-] & Ha). congruence.
      * intros _ (f' & [= <-] & Ha). congruence.
      * reflexivity.
    + split; split.
      * discriminate.
      * intros (f' & Hf & _). discriminate Hf.
      * intros _ (f' & Hf & _). discriminate Hf.
      * reflexivity.
Qed.

(** Scenario B of the specification, last step: hunter 5 holds a pending
    booking on North Moor; a second request for that day is refused, and
    with admin override it is stored. *)
Lemma create_booking_override_and_status_witness :
  fst (fst (create_booking 1 5 "2025-10-20" 1 0 "pm_2" false
              (run_bookings [booking_call 1 5 "2025-10-20" 1] db_moor))) = None /\
  fst (create_booking 1 5 "2025-10-20" 1 0 "pm_2" true
         (run_bookings [booking_call 1 5 "2025-10-20" 1] db_moor))
  = (Some (mkBooking 2 1 5 "2025-10-20" 1 0 pending "card" "pm_2"),
     "Booking created successfully (Admin Override)").
Proof.
  destruct create_booking_override_and_status as (H & _).
  destruct (H (run_bookings [booking_call 1 5 "2025-10-20" 1] db_moor)
              1 5 "2025-10-20" 1 0 "pm_2"
              (mkBooking 1 1 5 "2025-10-20" 1 0 pending "card" "pm_test")
              eq_refl (or_introl eq_refl) eq_refl eq_refl eq_refl)
    as (Hrefused & b & Hb & _).
  split; [exact Hrefused|].
  rewrite Hb. simpl.
  apply (f_equal (fun r => (fst (fst r), snd (fst r)))) in Hb. simpl in Hb.
  injection Hb as <-. reflexivity.
Defined.

(** ** Availability *)

Lemma get_field_set_fields_hit (fid : Z) (g : Field -> Field) (db : DB) :
  (forall f, f_id (g f) = f_id f) ->
  get_field (set_fields (update_first (fun f => f_id f =? fid) g (fields db)) db) fid
  = option_map g (get_field db fid).
Proof.
  intros Hg. unfold get_field. simpl. apply find_update_first_hit.
  intros f Hf. rewrite Hg. exact Hf.
Qed.

Lemma get_field_set_fields_miss (fid other : Z) (g : Field -> Field) (db : DB) :
  (forall f, f_id (g f) = f_id f) -> other <> fid ->
  get_field (set_fields (update_first (fun f => f_id f =? fid) g (fields db)) db) other
  = get_field db other.
Proof.
  intros Hg Hne. unfold get_field. simpl. apply find_update_first_miss.
  intros f Hf. rewrite Hg. apply Z.eqb_eq in Hf. rewrite Hf.
  assert (E : (fid =? other) = false) by (apply Z.eqb_neq; congruence).
  rewrite E. split; reflexivity.
Qed.

(** X7. update_field_blocked_dates replaces the field's blocked dates:
    afterwards check_availability refuses every date of the new list with
    "Date is blocked by outfitter" and judges every other date, also one
    that was blocked before, on capacity alone.  Bookings, among them
    those already made on a newly blocked date, and the other fields are
    untouched; an unknown field id changes nothing. *)
Theorem blocked_dates_take_effect :
  (forall db field_id blocked_dates,
     get_field db field_id = None ->
     update_field_blocked_dates field_id blocked_dates db = db) /\
  (forall db field_id blocked_dates field,
     get_field db field_id = Some field ->
     let db' := update_field_blocked_dates field_id blocked_dates db in
     (forall date num_hunters,
        In date blocked_dates ->
        fst (check_availability field_id date num_hunters db')
        = (false, "Date is blocked by outfitter")) /\
     (forall date num_hunters,
        ~ In date blocked_dates ->
        fst (check_availability field_id date num_hunters db')
        = if f_capacity field <? hunters_booked db field_id date + num_hunters
          then (false, ("Insufficient capacity. Only "
                        ++ str_of_Z (f_capacity field - hunters_booked db field_id date)
                        ++ " spots available")%string)
          else (true, "Available")) /\
     bookings db' = bookings db /\
     (forall other_id, other_id <> field_id ->
                       get_field db' other_id = get_field db other_id)).
Proof.
  split.
  - intros db fid dates Hnone. unfold update_field_blocked_dates. rewrite Hnone. reflexivity.
  - intros db fid dates field Hf db'.
    assert (Hdb' : db' = set_fields (update_first (fun f => f_id f =? fid)
                                       (with_blocked_dates dates) (fields db)) db).
    { unfold db', update_field_blocked_dates. rewrite Hf. reflexivity. }
    assert (Hget : get_field db' fid = Some (with_blocked_dates dates field)).
    { rewrite Hdb', get_field_set_fields_hit by reflexivity. rewrite Hf. reflexivity. }
    assert (Hbook : forall d, hunters_booked db' fid d = hunters_booked db fid d).
    { intros d. rewrite Hdb'. reflexivity. }
    split; [|split; [|split]].
    + intros d n Hin. unfold check_availability. rewrite Hget. simpl.
      apply mem_string_In in Hin. rewrite Hin. reflexivity.
    + intros d n Hnot. unfold check_availability. rewrite Hget. simpl.
      destruct (mem_string d dates) eqn:Em; [apply mem_string_In in Em; tauto|].
      rewrite Hbook. destruct (_ <? _); reflexivity.
    + rewrite Hdb'. reflexivity.
    + intros other Hne. rewrite Hdb'. apply get_field_set_fields_miss; [reflexivity | exact Hne].
Qed.

Lemma blocked_dates_take_effect_witness :
  fst (check_availability 1 "2025-10-20" 1
         (update_field_blocked_dates 1 ["2025-10-20"] db_moor))
  = (false, "Date is blocked by outfitter") /\
  fst (check_availability 1 "2025-12-25" 1
         (update_field_blocked_dates 1 ["2025-10-20"] db_moor))
  = (true, "Available").
Proof.
  destruct blocked_dates_take_effect as (_ & H).
  destruct (H db_moor 1 ["2025-10-20"] field_moor eq_refl) as (Hin & Hout & _).
  split.
  - apply Hin. simpl. left. reflexivity.
  - rewrite Hout; [reflexivity|]. simpl. intros [E | []]. discriminate E.
Defined.

(** X8. check_availability is monotone in the number of hunters: when a
    request for [n] hunters on a field and date is available, so is every
    request for fewer hunters on that field and date; and an available
    request fits the capacity left by the pending and confirmed bookings
    of a field that exists. *)
Theorem availability_is_monotone (db : DB) (field_id : Z) (date : string) (n m : Z) :
  fst (fst (check_availability field_id date n db)) = true ->
  (m <= n -> fst (check_availability field_id date m db) = (true, "Available")) /\
  (exists field,
     get_field db field_id = Some field /\
     hunters_booked db field_id date + n <= f_capacity field).
Proof.
  unfold check_availability.
  destruct (get_field db field_id) as [f|]; [|discriminate].
  destruct (mem_string date _); [discriminate|].
  destruct (f_capacity f <? hunters_booked db field_id date + n) eqn:En; [discriminate|].
  intros _. apply Z.ltb_ge in En. split.
  - intros Hm.
    assert (Em : (f_capacity f <? hunters_booked db field_id date + m) = false)
      by (apply Z.ltb_ge; lia).
    rewrite Em. reflexivity.
  - exists f. split; [reflexivity | exact En].
Qed.

Lemma availability_is_monotone_witness :
  fst (check_availability 1 "2025-10-20" 1 db_moor) = (true, "Available").
Proof.
  destruct (availability_is_monotone db_moor 1 "2025-10-20" 2 1 eq_refl) as (H & _).
  apply H. lia.
Defined.

(** ** Hunt sessions of a booking *)

Lemma find_none_forall {A : Type} (p : A -> bool) (l : list A) :
  find p l = None -> forall y, In y l -> p y = false.
Proof. intros H y Hy. exact (find_none p l H y Hy). Qed.

Lemma session_update_keeps_bookings (sid : Z) (g : HuntSession -> HuntSession)
    (l : list HuntSession) :
  (forall s, s_booking_id (g s) = s_booking_id s) ->
  map s_booking_id (update_first (fun s => s_id s =? sid) g l) = map s_booking_id l.
Proof. intros Hg. apply update_first_map. exact Hg. Qed.

(** The three ways a create_hunt_session call ends. *)
Lemma create_hunt_session_cases (bid hid fid : Z) (db : DB) :
  (fst (create_hunt_session bid hid fid db) = None /\
   snd (create_hunt_session bid hid fid db) = db) \/
  (fst (create_hunt_session bid hid fid db) = None /\
   snd (create_hunt_session bid hid fid db) = skip_session_id db) \/
  (session_insert_error db bid hid fid = None /\
   create_hunt_session bid hid fid db
   = (Some (mkSession (next_session_id db) bid hid fid None None not_started),
      add_session (mkSession (next_session_id db) bid hid fid None None not_started) db)).
Proof.
  unfold create_hunt_session.
  destruct (session_insert_error db bid hid fid) as [[| |]|]; simpl; auto.
Qed.

(** X9. Opening the hunt session of a booking on the hunts page creates
    it at most once: "at most one session per booking" is kept by
    open_hunt_session, start_hunt_session and end_hunt_session; the
    session returned belongs to the booking, and opening the booking again
    returns the same session and leaves the database as it is.  A session
    that had to be created is not_started, has no start or end time and
    gets the next serial id. *)
Theorem hunt_session_opened_once :
  (forall db booking user_id,
     one_session_per_booking db ->
     one_session_per_booking (snd (open_hunt_session booking user_id db))) /\
  (forall db session_id now,
     one_session_per_booking db ->
     one_session_per_booking (snd (start_hunt_session session_id now db)) /\
     one_session_per_booking (snd (end_hunt_session session_id now db))) /\
  (forall db booking user_id s,
     fst (open_hunt_session booking user_id db) = Some s ->
     let db' := snd (open_hunt_session booking user_id db) in
     s_booking_id s = b_id booking /\
     get_hunt_session_by_booking (b_id booking) db' = Some s /\
     (forall other_user, open_hunt_session booking other_user db' = (Some s, db')) /\
     (get_hunt_session_by_booking (b_id booking) db = None ->
      s = mkSession (next_session_id db) (b_id booking) user_id (b_field_id booking)
                    None None not_started)).
Proof.
  split; [|split].
  - intros db booking user Hinv. unfold open_hunt_session.
    destruct (get_hunt_session_by_booking (b_id booking) db) eqn:Hs; [exact Hinv|].
    destruct (get_field db (b_field_id booking)) as [f|]; [|exact Hinv].
    destruct (create_hunt_session_cases (b_id booking) user (f_id f) db)
      as [(_ & ->) | [(_ & ->) | (_ & ->)]]; [exact Hinv | exact Hinv |].
    unfold one_session_per_booking, add_session in *. simpl.
    rewrite map_app. simpl. apply NoDup_app; [exact Hinv | repeat constructor; auto |].
    intros i Hi [<- | []]. apply in_map_iff in Hi. destruct Hi as (y & Hy & Hin).
    pose proof (find_none_forall _ _ Hs y Hin) as Hn. simpl in Hn.
    apply Z.eqb_neq in Hn. congruence.
  - intros db sid now Hinv. unfold one_session_per_booking, start_hunt_session,
      end_hunt_session in *.
    destruct (get_session db sid); simpl; [|split; exact Hinv].
    rewrite !session_update_keeps_bookings by reflexivity. split; exact Hinv.
  - intros db booking user s Hres db'. subst db'. unfold open_hunt_session in *.
    destruct (get_hunt_session_by_booking (b_id booking) db) as [s0|] eqn:Hs.
    + simpl in Hres. injection Hres as ->. simpl.
      pose proof (find_some _ _ Hs) as (_ & Hb). apply Z.eqb_eq in Hb.
      split; [exact Hb|]. split; [exact Hs|]. split.
      * intros other. rewrite Hs. reflexivity.
      * discriminate.
    + destruct (get_field db (b_field_id booking)) as [f|] eqn:Hf; [|discriminate Hres].
      destruct (create_hunt_session_cases (b_id booking) user (f_id f) db)
        as [(E & _) | [(E & _) | (_ & E)]];
        [rewrite Hres in E; discriminate E | rewrite Hres in E; discriminate E |].
      rewrite E in Hres |- *. simpl in Hres. injection Hres as <-.
      assert (Hfid : f_id f = b_field_id booking).
      { apply find_some in Hf. destruct Hf as (_ & Hf). apply Z.eqb_eq in Hf. exact Hf. }
      assert (Hfound : get_hunt_session_by_booking (b_id booking)
                         (add_session (mkSession (next_session_id db) (b_id booking) user
                                                 (f_id f) None None not_started) db)
                       = Some (mkSession (next_session_id db) (b_id booking) user (f_id f)
                                         None None not_started)).
      { unfold get_hunt_session_by_booking, add_session. simpl.
        apply find_app_fresh; [|apply Z.eqb_refl].
        intros y Hy. exact (find_none_forall _ _ Hs y Hy). }
      cbn [snd].
      split; [reflexivity|]. split; [exact Hfound|]. split.
      * intros other. rewrite Hfound. reflexivity.
      * intros _. rewrite Hfid. reflexivity.
Qed.

(** Scenario: hunter 5 holds the confirmed booking 1 on Glen Lease; the
    first visit of the hunts page creates session 1, the second finds it. *)
Lemma hunt_session_opened_once_witness :
  let booking := mkBooking 1 2 5 "2025-10-20" 1 0 confirmed "card" "pm_test" in
  let db := run_bookings [booking_call 2 5 "2025-10-20" 1] db_glen in
  In booking (bookings db) /\
  fst (open_hunt_session booking 5 db) = Some (mkSession 1 1 5 2 None None not_started) /\
  open_hunt_session booking 5 (snd (open_hunt_session booking 5 db))
  = (Some (mkSession 1 1 5 2 None None not_started), snd (open_hunt_session booking 5 db)).
Proof.
  intros booking db.
  split; [left; reflexivity|]. split; [reflexivity|].
  destruct hunt_session_opened_once as (_ & _ & H).
  destruct (H db booking 5 (mkSession 1 1 5 2 None None not_started) eq_refl)
    as (_ & _ & Hagain & _).
  apply Hagain.
Defined.

(** X10. start_hunt_session and end_hunt_session write one row: the
    session of every other id reads as before, the session keeps its id,
    booking, hunter and field, start_hunt_session keeps end_time and
    end_hunt_session keeps start_time, and fields, bookings, reports and
    tags are untouched. *)
Theorem session_calls_touch_one_row (db : DB) (session_id : Z) (c : session_call) :
  let db' := apply_session_call session_id c db in
  (forall other_id, other_id <> session_id ->
                    get_session db' other_id = get_session db other_id) /\
  (forall s s', get_session db session_id = Some s -> get_session db' session_id = Some s' ->
                s_id s' = s_id s /\ s_booking_id s' = s_booking_id s /\
                s_hunter_id s' = s_hunter_id s /\ s_field_id s' = s_field_id s /\
                match c with
                | call_start _ => s_end_time s' = s_end_time s
                | call_end _ => s_start_time s' = s_start_time s
                end) /\
  fields db' = fields db /\ bookings db' = bookings db /\
  reports db' = reports db /\ tags db' = tags db /\
  List.length (sessions db') = List.length (sessions db).
Proof.
  intros db'. subst db'.
  assert (Hmiss : forall g other, other <> session_id ->
            (forall s, s_id (g s) = s_id s) ->
            find (fun s => s_id s =? other)
                 (update_first (fun s => s_id s =? session_id) g (sessions db))
            = find (fun s => s_id s =? other) (sessions db)).
  { intros g other Hne Hg. apply find_update_first_miss.
    intros s Hs. rewrite Hg. apply Z.eqb_eq in Hs. rewrite Hs.
    assert (E : (session_id =? other) = false) by (apply Z.eqb_neq; congruence).
    rewrite E. split; reflexivity. }
  destruct c as [t|t]; simpl.
  - split; [|split].
    + intros other Hne. unfold start_hunt_session, get_session.
      destruct (find _ (sessions db)); simpl; [apply Hmiss; auto | reflexivity].
    + intros s s' Hs Hs'.
      destruct (start_hunt_session_found session_id t db s Hs) as (_ & H2).
      rewrite H2 in Hs'. injection Hs' as <-. simpl. auto.
    + unfold start_hunt_session. destruct (get_session db session_id); simpl;
        repeat split; try reflexivity. apply update_first_length.
  - split; [|split].
    + intros other Hne. unfold end_hunt_session, get_session.
      destruct (find _ (sessions db)); simpl; [apply Hmiss; auto | reflexivity].
    + intros s s' Hs Hs'.
      destruct (end_hunt_session_found session_id t db s Hs) as (_ & H2).
      rewrite H2 in Hs'. injection Hs' as <-. simpl. auto.
    + unfold end_hunt_session. destruct (get_session db session_id); simpl;
        repeat split; try reflexivity. apply update_first_length.
Qed.

(** Scenario: Glen Lease with the sessions 1 and 2.  Starting session 1
    leaves session 2 as it was, and ending session 1 afterwards keeps its
    booking, hunter, field and start time. *)
Lemma session_calls_touch_one_row_witness :
  get_session (apply_session_call 1 (call_start 100) db_glen_hunt) 2
  = Some (mkSession 2 2 6 2 None None not_started) /\
  exists s',
    get_session (apply_session_call 1 (call_end 200)
                   (apply_session_call 1 (call_start 100) db_glen_hunt)) 1 = Some s' /\
    s_booking_id s' = 1 /\ s_hunter_id s' = 5 /\ s_field_id s' = 2 /\
    s_start_time s' = Some 100.
Proof.
  split.
  - destruct (session_calls_touch_one_row db_glen_hunt 1 (call_start 100)) as (H & _).
    rewrite H by discriminate. reflexivity.
  - destruct (session_calls_touch_one_row
                (apply_session_call 1 (call_start 100) db_glen_hunt) 1 (call_end 200))
      as (_ & H & _).
    exists (mkSession 1 1 5 2 (Some 100) (Some 200) completed).
    split; [reflexivity|].
    destruct (H (mkSession 1 1 5 2 (Some 100) None active)
                (mkSession 1 1 5 2 (Some 100) (Some 200) completed) eq_refl eq_refl)
      as (_ & Hb & Hh & Hf & Ht).
    rewrite Hb, Hh, Hf, Ht. repeat split.
Defined.

(** ** Hunt reports *)

(** X11. update_hunt_report edits the review only: for a known report id
    it returns the stored report with review_rating and review_text
    replaced by the arguments that are given (an argument left out keeps
    the old value) and with id, session, field, hunter, animals_harvested,
    species_harvested, ground remarks and success flag unchanged; the
    report is found again under its id, the number of reports, the fields
    (and so every quota), bookings, sessions and tags are unchanged.  For
    an unknown id it returns None and changes nothing, and so it does for
    a new rating that does not fit the Integer column. *)
Theorem update_hunt_report_review_only :
  (forall db report_id review_rating review_text,
     find (fun r => r_id r =? report_id) (reports db) = None ->
     update_hunt_report report_id review_rating review_text db = (None, db)) /\
  (forall db report_id review_rating review_text r,
     find (fun r => r_id r =? report_id) (reports db) = Some r ->
     integer_update_fits (r_review_rating r) (Some review_rating) = false ->
     update_hunt_report report_id (Some review_rating) review_text db = (None, db)) /\
  (forall db report_id review_rating review_text r,
     find (fun r => r_id r =? report_id) (reports db) = Some r ->
     (forall x, review_rating = Some x -> int4 x = true) ->
     exists r',
       fst (update_hunt_report report_id review_rating review_text db) = Some r' /\
       let db' := snd (update_hunt_report report_id review_rating review_text db) in
       find (fun x => r_id x =? report_id) (reports db') = Some r' /\
       r_id r' = r_id r /\ r_session_id r' = r_session_id r /\
       r_field_id r' = r_field_id r /\ r_hunter_id r' = r_hunter_id r /\
       r_animals_harvested r' = r_animals_harvested r /\
       r_species_harvested r' = r_species_harvested r /\
       r_ground_remarks r' = r_ground_remarks r /\ r_success r' = r_success r /\
       r_review_rating r'
       = match review_rating with Some x => Some x | None => r_review_rating r end /\
       r_review_text r'
       = match review_text with Some t => t | None => r_review_text r end /\
       List.length (reports db') = List.length (reports db) /\
       fields db' = fields db /\ bookings db' = bookings db /\
       sessions db' = sessions db /\ tags db' = tags db).
Proof.
  split; [|split].
  - intros db id rating text Hnone. unfold update_hunt_report. rewrite Hnone. reflexivity.
  - intros db id rating text r Hr Hfit. unfold update_hunt_report. rewrite Hr, Hfit.
    reflexivity.
  - intros db id rating text r Hr Hfit. unfold update_hunt_report. rewrite Hr.
    assert (E : integer_update_fits (r_review_rating r) rating = true).
    { unfold integer_update_fits. destruct rating as [x|]; [|reflexivity].
      rewrite (Hfit x eq_refl). apply orb_true_r. }
    rewrite E. simpl.
    exists (reviewed rating text r). split; [reflexivity|].
    split.
    + rewrite find_update_first_hit by (intros x Hx; exact Hx). rewrite Hr. reflexivity.
    + repeat split; try reflexivity. apply update_first_length.
Qed.

(** Scenario: the report of hunter 5 on Glen Lease gets the rating 4; a
    rating beyond the column's range is refused. *)
Lemma update_hunt_report_review_only_witness :
  option_map r_review_rating (fst (update_hunt_report 1 (Some 4) None db_glen_reported))
  = Some (Some 4) /\
  update_hunt_report 1 (Some 4294967296) None db_glen_reported = (None, db_glen_reported).
Proof.
  destruct update_hunt_report_review_only as (_ & Hrefused & H).
  split.
  - destruct (H db_glen_reported 1 (Some 4) None
                (mkReport 1 1 2 5 3 [harvest "Red Deer" 3] "" None "" true) eq_refl)
      as (r' & Hres & _ & _ & _ & _ & _ & _ & _ & _ & _ & Hrating & _).
    + intros x [= <-]. reflexivity.
    + rewrite Hres. simpl. rewrite Hrating. reflexivity.
  - apply (Hrefused db_glen_reported 1 4294967296 None
             (mkReport 1 1 2 5 3 [harvest "Red Deer" 3] "" None "" true));
      reflexivity.
Defined.

Lemma has_row_false_find {A : Type} (key : A -> Z) (rows : list A) (k : Z) :
  has_row key rows k = false <-> find (fun x => key x =? k) rows = None.
Proof.
  destruct (has_row key rows k) eqn:E.
  - apply has_row_find in E. destruct E as (x & Hx). rewrite Hx.
    split; discriminate.
  - destruct (find (fun x => key x =? k) rows) as [x|] eqn:Hx; [|tauto].
    assert (H : has_row key rows k = true) by (apply has_row_find; eauto).
    congruence.
Qed.

(** X12. create_hunt_report is all or nothing.  When the session, the
    field or the hunter it names does not exist, it returns None, stores
    no report and changes no field row, so no quota.  When it returns a
    report, that report is the last row of the table, carries the next
    serial id and the values of report_data with the defaults 0, the
    empty list, the empty string and False for missing keys, the reported
    field exists and its row has received the quota and last-visit update,
    and get_hunt_report_by_session returns the report if the session had
    none.  Bookings, sessions, users and tags are never touched. *)
Theorem create_hunt_report_all_or_nothing (db : DB) (session_id field_id hunter_id : Z)
    (report_data : ReportData) (today : string) :
  let result := create_hunt_report session_id field_id hunter_id report_data today db in
  (get_session db session_id = None \/ get_field db field_id = None \/
   get_user db hunter_id = None ->
   fst result = None) /\
  (fst result = None -> reports (snd result) = reports db /\ fields (snd result) = fields db) /\
  (forall report,
     fst result = Some report ->
     report
     = mkReport (next_report_id db) session_id field_id hunter_id
         (match rd_animals_harvested report_data with Some n => n | None => 0 end)
         (match rd_species_harvested report_data with Some l => l | None => [] end)
         (match rd_ground_remarks report_data with Some s => s | None => "" end)
         (rd_review_rating report_data)
         (match rd_review_text report_data with Some s => s | None => "" end)
         (match rd_success report_data with Some b => b | None => false end) /\
     reports (snd result) = reports db ++ [report] /\
     (exists field,
        get_field db field_id = Some field /\
        get_field (snd result) field_id
        = Some (report_on_field today (report_animals report_data)
                                (report_species report_data) field)) /\
     (get_hunt_report_by_session session_id db = None ->
      get_hunt_report_by_session session_id (snd result) = Some report)) /\
  bookings (snd result) = bookings db /\ sessions (snd result) = sessions db /\
  users (snd result) = users db /\ tags (snd result) = tags db.
Proof.
  intros result. subst result.
  split; [|split; [|split]].
  - intros Hmissing.
    assert (Hfk : has_row s_id (sessions db) session_id
                  && has_row f_id (fields db) field_id
                  && has_row u_id (users db) hunter_id = false).
    { unfold get_session, get_field, get_user in Hmissing.
      destruct Hmissing as [H | [H | H]]; apply has_row_false_find in H; rewrite H.
      - reflexivity.
      - apply andb_false_intro1. apply andb_false_r.
      - apply andb_false_r. }
    unfold create_hunt_report, report_insert_error. rewrite Hfk.
    match goal with |- context [if ?c then _ else _] => destruct c end; reflexivity.
  - intros Hnone.
    destruct (create_hunt_report_cases session_id field_id hunter_id report_data today db)
      as [(_ & ->) | [(_ & ->) | (_ & E)]]; [split; reflexivity | split; reflexivity |].
    rewrite E in Hnone. discriminate Hnone.
  - intros report Hsome.
    destruct (create_hunt_report_cases session_id field_id hunter_id report_data today db)
      as [(E & _) | [(E & _) | (Hacc & E)]];
      [rewrite Hsome in E; discriminate E | rewrite Hsome in E; discriminate E |].
    assert (Hfield : exists field, get_field db field_id = Some field).
    { unfold report_insert_error in Hacc.
      destruct (negb _) in Hacc; [discriminate Hacc|].
      destruct (has_row f_id (fields db) field_id) eqn:Hf.
      - apply has_row_find in Hf. exact Hf.
      - rewrite andb_false_r in Hacc. discriminate Hacc. }
    destruct Hfield as (field & Hfield).
    pose proof (get_field_after_report session_id field_id hunter_id report_data today db
                  Hacc) as Hafter.
    rewrite E in Hsome |- *. simpl in Hsome. injection Hsome as <-.
    rewrite E in Hafter.
    split; [reflexivity|]. split; [reflexivity|]. split.
    + exists field. split; [exact Hfield|]. rewrite Hafter, Hfield. reflexivity.
    + intros Hnone. unfold get_hunt_report_by_session in *. simpl.
      apply find_app_fresh; [|apply Z.eqb_refl].
      intros y Hy. exact (find_none_forall _ _ Hnone y Hy).
  - destruct (create_hunt_report_other_tables session_id field_id hunter_id report_data today
                db) as (H1 & H2 & H3 & H4).
    auto.
Qed.

(** Scenario: on Glen Lease with the sessions 1 and 2, a report for
    session 1 is stored and depletes Red Deer from 10 to 7; the same report
    for the unknown session 9 is refused, and the quota stays at 10. *)
Lemma create_hunt_report_all_or_nothing_witness :
  get_hunt_report_by_session 1
    (snd (create_hunt_report 1 2 5 (report_of 3 [harvest "Red Deer" 3]) "2025-10-20"
            db_glen_hunt))
  = Some (mkReport 1 1 2 5 3 [harvest "Red Deer" 3] "" None "" true) /\
  fst (create_hunt_report 9 2 5 (report_of 3 [harvest "Red Deer" 3]) "2025-10-20"
         db_glen_hunt) = None /\
  fields (snd (create_hunt_report 9 2 5 (report_of 3 [harvest "Red Deer" 3]) "2025-10-20"
                 db_glen_hunt)) = [field_glen].
Proof.
  split; [|split].
  - destruct (create_hunt_report_all_or_nothing db_glen_hunt 1 2 5
                (report_of 3 [harvest "Red Deer" 3]) "2025-10-20") as (_ & _ & H & _).
    destruct (H (mkReport 1 1 2 5 3 [harvest "Red Deer" 3] "" None "" true) eq_refl)
      as (_ & _ & _ & Hfound).
    apply Hfound. reflexivity.
  - destruct (create_hunt_report_all_or_nothing db_glen_hunt 9 2 5
                (report_of 3 [harvest "Red Deer" 3]) "2025-10-20") as (H & _).
    apply H. left. reflexivity.
  - destruct (create_hunt_report_all_or_nothing db_glen_hunt 9 2 5
                (report_of 3 [harvest "Red Deer" 3]) "2025-10-20") as (H & Hnothing & _).
    destruct (Hnothing (H (or_introl eq_refl))) as (_ & Hfields).
    exact Hfields.
Defined.

(** ** Quota summaries *)

Lemma report_on_field_type (today : string) (n : Z) (hs : list HarvestEntry) (f : Field) :
  f_field_type (report_on_field today n hs f) = f_field_type f.
Proof.
  unfold report_on_field.
  destruct (f_field_type f) eqn:E; try (simpl; exact E).
  destruct (f_quarry_species f) as [[|q qs]|]; try (simpl; exact E);
    destruct (f_quarry_remaining f); simpl; exact E.
Qed.

Lemma report_on_field_species (today : string) (n : Z) (hs : list HarvestEntry) (f : Field)
    (q : QuarryEntry) (qs : list QuarryEntry) :
  f_field_type f = diy_leased -> f_quarry_species f = Some (q :: qs) ->
  f_quarry_species (report_on_field today n hs f) = Some (deplete_all hs (q :: qs)) /\
  f_quarry_remaining (report_on_field today n hs f) = f_quarry_remaining f.
Proof.
  intros Ht Hs. unfold report_on_field. rewrite Ht, Hs. split; reflexivity.
Qed.

Lemma report_on_field_scalar (today : string) (n : Z) (hs : list HarvestEntry) (f : Field) :
  f_field_type f = diy_leased ->
  f_quarry_species f = None \/ f_quarry_species f = Some [] ->
  f_quarry_species (report_on_field today n hs f) = f_quarry_species f /\
  f_quarry_remaining (report_on_field today n hs f)
  = option_map (fun r => Z.max 0 (r - n)) (f_quarry_remaining f).
Proof.
  intros Ht Hs. unfold report_on_field. rewrite Ht.
  destruct Hs as [Hs | Hs]; rewrite Hs; destruct (f_quarry_remaining f); split; reflexivity.
Qed.

Lemma report_on_field_not_diy (today : string) (n : Z) (hs : list HarvestEntry) (f : Field) :
  f_field_type f <> diy_leased ->
  f_quarry_species (report_on_field today n hs f) = f_quarry_species f /\
  f_quarry_remaining (report_on_field today n hs f) = f_quarry_remaining f.
Proof.
  intros Ht. unfold report_on_field.
  destruct (f_field_type f); [congruence | split; reflexivity | split; reflexivity].
Qed.

Lemma deplete_all_cons (hs : list HarvestEntry) (q : QuarryEntry) (qs : list QuarryEntry) :
  exists q' qs', deplete_all hs (q :: qs) = q' :: qs'.
Proof.
  pose proof (deplete_all_length hs (q :: qs)) as H.
  destruct (deplete_all hs (q :: qs)) as [|q' qs']; [discriminate H | eauto].
Qed.

Lemma deplete_all_totals (hs : list HarvestEntry) (qs : list QuarryEntry) :
  map quarry_total (deplete_all hs qs) = map quarry_total qs.
Proof.
  unfold deplete_all. revert qs.
  induction hs as [|h hs IH]; simpl; intros qs; [reflexivity|].
  rewrite IH. apply update_first_map. reflexivity.
Qed.

Lemma sum_update_first_le {A : Type} (f : A -> Z) (p : A -> bool) (g : A -> A) (l : list A) :
  (forall x, In x l -> f (g x) <= f x) ->
  sum_Z (map f (update_first p g l)) <= sum_Z (map f l).
Proof.
  unfold sum_Z. induction l as [|a l IH]; simpl; intros Hg; [lia|].
  destruct (p a); simpl.
  - specialize (Hg a (or_introl eq_refl)). lia.
  - assert (H : forall x, In x l -> f (g x) <= f x) by (intros x Hx; apply Hg; right; exact Hx).
    specialize (IH H). lia.
Qed.

Lemma deplete_all_remaining_le (hs : list HarvestEntry) (qs : list QuarryEntry) :
  Forall (fun h => 0 <= harvest_quantity h) hs ->
  Forall quarry_entry_ok qs ->
  sum_Z (map quarry_remaining (deplete_all hs qs)) <= sum_Z (map quarry_remaining qs).
Proof.
  unfold deplete_all. intros Hhs. revert qs.
  induction Hhs as [|h hs Hh Hhs IH]; simpl; intros qs Hqs; [lia|].
  eapply Z.le_trans.
  - apply IH. apply update_first_forall; [|exact Hqs].
    intros q Hq. unfold quarry_entry_ok, deplete_entry, quarry_remaining, quarry_total in *.
    simpl. lia.
  - apply sum_update_first_le. intros q Hq.
    rewrite Forall_forall in Hqs. specialize (Hqs q Hq).
    unfold quarry_entry_ok, deplete_entry, quarry_remaining in *. simpl. lia.
Qed.

Lemma sum_nonneg {A : Type} (f : A -> Z) (l : list A) :
  Forall (fun x => 0 <= f x) l -> 0 <= sum_Z (map f l).
Proof.
  unfold sum_Z. induction 1 as [|x l Hx Hl IH]; simpl; lia.
Qed.

Lemma sum_zero_iff_all_nonpos {A : Type} (f : A -> Z) (l : list A) :
  Forall (fun x => 0 <= f x) l ->
  (forallb (fun x => f x <=? 0) l = true <-> sum_Z (map f l) = 0).
Proof.
  intros Hl. induction Hl as [|x l Hx Hl IH]; simpl; [tauto|].
  pose proof (sum_nonneg f l Hl) as Hs. unfold sum_Z in *.
  rewrite andb_true_iff, Z.leb_le, IH. lia.
Qed.

Lemma quota_ok_remaining_nonneg (qs : list QuarryEntry) :
  Forall quarry_entry_ok qs -> Forall (fun q => 0 <= quarry_remaining q) qs.
Proof. apply Forall_impl. unfold quarry_entry_ok. intros q Hq. lia. Qed.

Lemma quota_ok_remaining_le_total (qs : list QuarryEntry) :
  Forall quarry_entry_ok qs ->
  sum_Z (map quarry_remaining qs) <= sum_Z (map quarry_total qs).
Proof.
  unfold sum_Z. induction 1 as [|x l Hx Hl IH]; simpl; [lia|].
  unfold quarry_entry_ok in Hx. lia.
Qed.

(** X13. No hunt report changes what get_total_quota returns, for the
    reported field or for any other field. *)
Theorem total_quota_is_constant (db : DB) (session_id field_id hunter_id : Z)
    (report_data : ReportData) (today : string) (any_id : Z) :
  option_map get_total_quota
    (get_field (snd (create_hunt_report session_id field_id hunter_id report_data today db))
               any_id)
  = option_map get_total_quota (get_field db any_id).
Proof.
  destruct (Z.eq_dec any_id field_id) as [-> | Hne];
    [|rewrite get_field_after_report_other by exact Hne; reflexivity].
  destruct (report_insert_error db session_id field_id hunter_id report_data today)
    as [err|] eqn:Hacc;
    [rewrite get_field_after_refused_report by congruence; reflexivity|].
  rewrite get_field_after_report by exact Hacc.
  destruct (get_field db field_id) as [f|]; [|reflexivity]. simpl. f_equal.
  unfold get_total_quota.
  rewrite report_on_field_type, report_on_field_total.
  destruct (f_field_type f) eqn:Ht; try reflexivity.
  destruct (f_quarry_species f) as [[|q qs]|] eqn:Hs.
  - destruct (report_on_field_scalar today (report_animals report_data)
                (report_species report_data) f Ht (or_intror Hs)) as (-> & _).
    rewrite Hs. reflexivity.
  - destruct (report_on_field_species today (report_animals report_data)
                (report_species report_data) f q qs Ht Hs) as (-> & _).
    destruct (deplete_all_cons (report_species report_data) q qs) as (q' & qs' & E).
    rewrite E, <- E, deplete_all_totals. reflexivity.
  - destruct (report_on_field_scalar today (report_animals report_data)
                (report_species report_data) f Ht (or_introl Hs)) as (-> & _).
    rewrite Hs. reflexivity.
Qed.

(** X14. On a field whose quota entries satisfy [0 <= remaining <= total],
    get_total_quota_remaining never exceeds get_total_quota, and a hunt
    report with non-negative quantities never raises it: when it was
    [Some a] it becomes [Some b] with [0 <= b <= a], and when it was None
    it stays None. *)
Theorem remaining_quota_only_decreases (today : string) (report_data : ReportData)
    (field : Field) :
  field_quota_ok field ->
  report_nonnegative report_data ->
  let field' :=
    report_on_field today (report_animals report_data) (report_species report_data) field in
  match get_total_quota_remaining field, get_total_quota_remaining field' with
  | Some a, Some b => 0 <= b <= a
  | None, None => True
  | _, _ => False
  end /\
  (forall a t, get_total_quota_remaining field = Some a -> get_total_quota field = Some t ->
               a <= t).
Proof.
  intros (Hsp & Hsc) (Hn & Hhs) field'. subst field'. split.
  - unfold get_total_quota_remaining. rewrite report_on_field_type.
    destruct (f_field_type field) eqn:Ht; try exact I.
    unfold species_quota in Hsp.
    destruct (f_quarry_species field) as [[|q qs]|] eqn:Hs.
    + destruct (report_on_field_scalar today (report_animals report_data)
                  (report_species report_data) field Ht (or_intror Hs)) as (-> & ->).
      rewrite Hs. destruct (f_quarry_remaining field) as [r|] eqn:Hr; simpl; [|exact I].
      destruct (Hsc r Hr) as (H0 & _). lia.
    + destruct (report_on_field_species today (report_animals report_data)
                  (report_species report_data) field q qs Ht Hs) as (-> & _).
      destruct (deplete_all_cons (report_species report_data) q qs) as (q' & qs' & E).
      rewrite E, <- E. split.
      * apply sum_nonneg. apply quota_ok_remaining_nonneg.
        apply deplete_all_keeps_bounds; assumption.
      * apply deplete_all_remaining_le; assumption.
    + destruct (report_on_field_scalar today (report_animals report_data)
                  (report_species report_data) field Ht (or_introl Hs)) as (-> & ->).
      rewrite Hs. destruct (f_quarry_remaining field) as [r|] eqn:Hr; simpl; [|exact I].
      destruct (Hsc r Hr) as (H0 & _). lia.
  - intros a t. unfold get_total_quota_remaining, get_total_quota.
    destruct (f_field_type field); try discriminate.
    unfold species_quota in Hsp.
    destruct (f_quarry_species field) as [[|q qs]|].
    + intros Hr Htot. destruct (Hsc a Hr) as (_ & H). apply H. exact Htot.
    + intros [= <-] [= <-]. exact (quota_ok_remaining_le_total (q :: qs) Hsp).
    + intros Hr Htot. destruct (Hsc a Hr) as (_ & H). apply H. exact Htot.
Qed.

Lemma field_quota_ok_field_glen : field_quota_ok field_glen.
Proof.
  split.
  - unfold species_quota. simpl.
    repeat constructor; unfold quarry_remaining, quarry_total; simpl; lia.
  - intros r Hr. discriminate Hr.
Qed.

Lemma report_nonnegative_red_deer : report_nonnegative (report_of 3 [harvest "Red Deer" 3]).
Proof.
  unfold report_nonnegative, report_animals, report_species. simpl.
  split; [lia|]. repeat constructor. unfold harvest_quantity. simpl. lia.
Qed.

Lemma remaining_quota_only_decreases_witness :
  get_total_quota_remaining field_glen = Some 16 /\
  get_total_quota_remaining
    (report_on_field "2025-10-20" 3 [harvest "Red Deer" 3] field_glen) = Some 13 /\
  0 <= 13 <= 16.
Proof.
  split; [reflexivity|]. split; [reflexivity|].
  exact (proj1 (remaining_quota_only_decreases "2025-10-20"
                  (report_of 3 [harvest "Red Deer" 3])
                  field_glen field_quota_ok_field_glen report_nonnegative_red_deer)).
Defined.

(** X15. On a field whose quota entries satisfy [0 <= remaining <= total],
    is_quota_exhausted answers True exactly when get_total_quota_remaining
    is [Some 0]; in particular a field that is not diy-leased, or that has
    neither a species list nor a scalar quota, is never exhausted. *)
Theorem exhausted_iff_nothing_remains (field : Field) :
  field_quota_ok field ->
  (is_quota_exhausted field = true <-> get_total_quota_remaining field = Some 0) /\
  (f_field_type field <> diy_leased -> is_quota_exhausted field = false) /\
  (get_total_quota_remaining field = None -> is_quota_exhausted field = false).
Proof.
  intros (Hsp & Hsc). unfold is_quota_exhausted, get_total_quota_remaining.
  unfold species_quota in Hsp.
  destruct (f_field_type field); try (repeat split; congruence).
  destruct (f_quarry_species field) as [[|q qs]|].
  - destruct (f_quarry_remaining field) as [r|] eqn:Hr.
    + destruct (Hsc r Hr) as (H0 & _). rewrite Z.leb_le.
      repeat split; try congruence; try (intros [= ->]; lia). intros H. f_equal. lia.
    + repeat split; congruence.
  - pose proof (sum_zero_iff_all_nonpos quarry_remaining (q :: qs)
                  (quota_ok_remaining_nonneg _ Hsp)) as Hiff.
    split; [|split; [congruence | discriminate]].
    split; [intros H; apply Hiff in H; f_equal; exact H | intros [= H]; apply Hiff; exact H].
  - destruct (f_quarry_remaining field) as [r|] eqn:Hr.
    + destruct (Hsc r Hr) as (H0 & _). rewrite Z.leb_le.
      repeat split; try congruence; try (intros [= ->]; lia). intros H. f_equal. lia.
    + repeat split; congruence.
Qed.

Lemma exhausted_iff_nothing_remains_witness :
  is_quota_exhausted field_glen = true <-> get_total_quota_remaining field_glen = Some 0.
Proof.
  destruct (exhausted_iff_nothing_remains field_glen field_quota_ok_field_glen) as (H & _).
  exact H.
Defined.

Lemma deplete_all_keeps_nonpos (hs : list HarvestEntry) (qs : list QuarryEntry) :
  Forall (fun h => 0 <= harvest_quantity h) hs ->
  Forall (fun q => quarry_remaining q <= 0) qs ->
  Forall (fun q => quarry_remaining q <= 0) (deplete_all hs qs).
Proof.
  unfold deplete_all. intros Hhs. revert qs.
  induction Hhs as [|h hs Hh Hhs IH]; simpl; intros qs Hqs; [exact Hqs|].
  apply IH. apply update_first_forall; [|exact Hqs].
  intros q Hq. unfold deplete_entry, quarry_remaining in *. simpl. lia.
Qed.

Lemma forallb_nonpos (qs : list QuarryEntry) :
  forallb (fun e => quarry_remaining e <=? 0) qs = true
  <-> Forall (fun q => quarry_remaining q <= 0) qs.
Proof.
  rewrite forallb_forall, Forall_forall.
  split; intros H q Hq; specialize (H q Hq); apply Z.leb_le; exact H.
Qed.

(** X16. Exhaustion is permanent under reporting: once is_quota_exhausted
    answers True for a field, it still answers True after any hunt report
    whose animals_harvested and harvested quantities are non-negative. *)
Theorem exhausted_quota_stays_exhausted (db : DB) (session_id field_id hunter_id : Z)
    (report_data : ReportData) (today : string) (field : Field) :
  get_field db field_id = Some field ->
  is_quota_exhausted field = true ->
  report_nonnegative report_data ->
  exists field',
    get_field (snd (create_hunt_report session_id field_id hunter_id report_data today db))
              field_id = Some field' /\
    is_quota_exhausted field' = true.
Proof.
  intros Hget Hex (Hn & Hhs).
  destruct (report_insert_error db session_id field_id hunter_id report_data today)
    as [err|] eqn:Hacc.
  { exists field.
    split; [rewrite get_field_after_refused_report by congruence; exact Hget | exact Hex]. }
  exists (report_on_field today (report_animals report_data) (report_species report_data) field).
  split; [rewrite get_field_after_report by exact Hacc; rewrite Hget; reflexivity|].
  unfold is_quota_exhausted in *. rewrite report_on_field_type.
  destruct (f_field_type field) eqn:Ht; try discriminate.
  destruct (f_quarry_species field) as [[|q qs]|] eqn:Hs.
  - destruct (report_on_field_scalar today (report_animals report_data)
                (report_species report_data) field Ht (or_intror Hs)) as (-> & ->).
    rewrite Hs. destruct (f_quarry_remaining field) as [r|]; [|discriminate]. simpl.
    apply Z.leb_le in Hex. apply Z.leb_le. lia.
  - destruct (report_on_field_species today (report_animals report_data)
                (report_species report_data) field q qs Ht Hs) as (-> & _).
    destruct (deplete_all_cons (report_species report_data) q qs) as (q' & qs' & E).
    rewrite E, <- E. apply forallb_nonpos. apply deplete_all_keeps_nonpos; [exact Hhs|].
    apply forallb_nonpos. exact Hex.
  - destruct (report_on_field_scalar today (report_animals report_data)
                (report_species report_data) field Ht (or_introl Hs)) as (-> & ->).
    rewrite Hs. destruct (f_quarry_remaining field) as [r|]; [|discriminate]. simpl.
    apply Z.leb_le in Hex. apply Z.leb_le. lia.
Qed.

Lemma exhausted_quota_stays_exhausted_witness :
  exists field',
    get_field (snd (create_hunt_report 1 3 5 (report_of 2 []) "2025-10-20" (db_old_lease 0))) 3
    = Some field' /\ is_quota_exhausted field' = true.
Proof.
  apply (exhausted_quota_stays_exhausted (db_old_lease 0) 1 3 5 (report_of 2 []) "2025-10-20"
           (field_old_lease 0)); try reflexivity.
  unfold report_nonnegative, report_animals, report_species. simpl.
  split; [lia | constructor].
Defined.

(** ** Deleting a field *)

Lemma delete_session_rows_spec (doomed : list HuntSession) (rs : list HuntReport)
    (ss : list HuntSession) :
  (forall r, In r (fst (fold_left delete_session_rows doomed (rs, ss))) <->
             In r rs /\ forall s, In s doomed -> r_session_id r <> s_id s) /\
  (forall x, In x (snd (fold_left delete_session_rows doomed (rs, ss))) <->
             In x ss /\ forall s, In s doomed -> s_id x <> s_id s).
Proof.
  revert rs ss. induction doomed as [|d doomed IH]; intros rs ss; simpl.
  - split; intros y; (split; [intros H; split; [exact H | intros s []] | tauto]).
  - unfold delete_session_rows at 2 4. simpl.
    destruct (IH (filter (fun r => negb (r_session_id r =? s_id d)) rs)
                 (filter (fun s => negb (s_id s =? s_id d)) ss)) as (IHr & IHs).
    split.
    + intros r. rewrite IHr, filter_In, negb_true_iff, Z.eqb_neq. split.
      * intros ((Hin & Hd) & Hrest). split; [exact Hin|].
        intros s [<- | Hs]; [exact Hd | apply Hrest; exact Hs].
      * intros (Hin & Hall). split; [split; [exact Hin | apply Hall; left; reflexivity]|].
        intros s Hs. apply Hall. right. exact Hs.
    + intros x. rewrite IHs, filter_In, negb_true_iff, Z.eqb_neq. split.
      * intros ((Hin & Hd) & Hrest). split; [exact Hin|].
        intros s [<- | Hs]; [exact Hd | apply Hrest; exact Hs].
      * intros (Hin & Hall). split; [split; [exact Hin | apply Hall; left; reflexivity]|].
        intros s Hs. apply Hall. right. exact Hs.
Qed.

Lemma delete_session_step_none (tags : list AnimalTag) (doomed : list HuntSession) :
  fold_left (delete_session_step tags) doomed None = None.
Proof. induction doomed as [|d doomed IH]; simpl; [reflexivity | exact IH]. Qed.

(** The loop of delete_field, when no DELETE was refused: the rows are
    those of the loop without failure, and no tag referred to a report of
    one of the sessions. *)
Lemma delete_session_step_some (tags : list AnimalTag) (doomed : list HuntSession)
    (acc rows : list HuntReport * list HuntSession) :
  fold_left (delete_session_step tags) doomed (Some acc) = Some rows ->
  rows = fold_left delete_session_rows doomed acc /\
  (forall t r s, In t tags -> In r (fst acc) -> r_id r = t_hunt_report_id t ->
                 In s doomed -> r_session_id r <> s_id s).
Proof.
  revert acc. induction doomed as [|d doomed IH]; intros acc; simpl.
  - intros [= <-]. split; [reflexivity | intros t r s _ _ _ []].
  - destruct (session_reports_tagged tags acc d) eqn:Etag;
      [rewrite delete_session_step_none; discriminate|].
    intros Hfold. destruct (IH _ Hfold) as (Hrows & Hrest).
    split; [exact Hrows|].
    intros t r s Ht Hr Hid Hs.
    assert (Hd : r_session_id r <> s_id d).
    { intros E. unfold session_reports_tagged in Etag.
      assert (Hex : existsb (fun t0 =>
                       has_row r_id (filter (fun r0 => r_session_id r0 =? s_id d) (fst acc))
                               (t_hunt_report_id t0)) tags = true).
      { apply existsb_exists. exists t. split; [exact Ht|].
        unfold has_row. apply existsb_exists. exists r. split.
        - apply filter_In. split; [exact Hr | apply Z.eqb_eq; exact E].
        - apply Z.eqb_eq. exact Hid. }
      congruence. }
    destruct Hs as [<- | Hs]; [exact Hd|].
    apply (Hrest t r s Ht); [|exact Hid | exact Hs].
    unfold delete_session_rows. simpl. apply filter_In.
    split; [exact Hr | apply negb_true_iff; apply Z.eqb_neq; exact Hd].
Qed.

Lemma existsb_false_forall {A : Type} (p : A -> bool) (l : list A) :
  existsb p l = false -> forall x, In x l -> p x = false.
Proof.
  intros H x Hx. destruct (p x) eqn:E; [|reflexivity].
  assert (existsb p l = true) by (apply existsb_exists; eauto). congruence.
Qed.

(** The two ways a delete_field call ends: refused or without field, with
    the state as it was; or with the rows of the field deleted, which
    happens only when no row that stays refers to a row that goes. *)
Lemma delete_field_cases (fid : Z) (db : DB) :
  let rows :=
    fold_left delete_session_rows (filter (fun s => s_field_id s =? fid) (sessions db))
              (reports db, sessions db) in
  delete_field fid db = (false, db) \/
  (exists field,
     get_field db fid = Some field /\
     (forall s, In s (sessions db) ->
                has_row b_id (filter (fun b => b_field_id b =? fid) (bookings db))
                        (s_booking_id s) = false) /\
     (forall t r s, In t (tags db) -> In r (reports db) -> r_id r = t_hunt_report_id t ->
                    In s (sessions db) -> s_field_id s = fid -> r_session_id r <> s_id s) /\
     (forall r, In r (fst rows) -> r_field_id r <> fid) /\
     (forall t, In t (tags db) -> t_field_id t <> fid) /\
     delete_field fid db
     = (true,
        mkDB (users db) (filter (fun f => negb (f_id f =? fid)) (fields db))
             (filter (fun b => negb (b_field_id b =? fid)) (bookings db))
             (snd rows) (fst rows) (tags db)
             (next_booking_id db) (next_session_id db) (next_report_id db)
             (next_tag_id db) (files db))).
Proof.
  intros rows. unfold delete_field.
  destruct (get_field db fid) as [field|] eqn:Hget; [|left; reflexivity].
  assert (Hid : f_id field = fid).
  { apply find_some in Hget. destruct Hget as (_ & H). apply Z.eqb_eq in H. exact H. }
  rewrite Hid.
  destruct (existsb _ (sessions db)) eqn:Ebook; [left; reflexivity|].
  destruct (fold_left (delete_session_step (tags db)) _ _) as [rows'|] eqn:Efold;
    [|left; reflexivity].
  destruct (delete_session_step_some _ _ _ _ Efold) as (-> & Htags).
  fold rows.
  destruct (existsb (fun r => r_field_id r =? fid) (fst rows)) eqn:Erep; [left; reflexivity|].
  destruct (existsb (fun t => t_field_id t =? fid) (tags db)) eqn:Etag; [left; reflexivity|].
  right. exists field. split; [reflexivity|].
  split; [exact (existsb_false_forall _ _ Ebook)|].
  split.
  { intros t r s Ht Hr Hrid Hs Hsf. apply (Htags t r s Ht Hr Hrid).
    apply filter_In. split; [exact Hs | apply Z.eqb_eq; exact Hsf]. }
  split.
  { intros r Hr. apply Z.eqb_neq. exact (existsb_false_forall _ _ Erep r Hr). }
  split.
  { intros t Ht. apply Z.eqb_neq. exact (existsb_false_forall _ _ Etag t Ht). }
  reflexivity.
Qed.

Lemma find_filter_other_key {A : Type} (key : A -> Z) (rows : list A) (k other : Z) :
  other <> k ->
  find (fun x => key x =? other) (filter (fun x => negb (key x =? k)) rows)
  = find (fun x => key x =? other) rows.
Proof.
  intros Hne. induction rows as [|a l IH]; simpl; [reflexivity|].
  destruct (Z.eqb_spec (key a) k) as [Ea | Ea]; simpl.
  - assert (E : (key a =? other) = false) by (apply Z.eqb_neq; congruence).
    rewrite E. exact IH.
  - destruct (key a =? other); [reflexivity | exact IH].
Qed.

Lemma has_row_filter {A : Type} (key : A -> Z) (q : A -> bool) (rows : list A) (k : Z) :
  has_row key rows k = true ->
  (forall x, In x rows -> key x = k -> q x = true) ->
  has_row key (filter q rows) k = true.
Proof.
  unfold has_row. rewrite !existsb_exists.
  intros (x & Hx & Hk) Hq. exists x. split; [|exact Hk].
  apply filter_In. split; [exact Hx|]. apply Hq; [exact Hx | apply Z.eqb_eq; exact Hk].
Qed.

Lemma has_row_subset {A : Type} (key : A -> Z) (rows rows' : list A) (k : Z) :
  has_row key rows k = true ->
  (forall x, In x rows -> key x = k -> In x rows') ->
  has_row key rows' k = true.
Proof.
  unfold has_row. rewrite !existsb_exists.
  intros (x & Hx & Hk) Hsub. exists x. split; [|exact Hk].
  apply Hsub; [exact Hx | apply Z.eqb_eq; exact Hk].
Qed.

(** What holds after a delete_field call that returned True. *)
Lemma delete_field_success (db : DB) (field_id : Z) :
  fst (delete_field field_id db) = true ->
  let db' := snd (delete_field field_id db) in
  get_field db' field_id = None /\
  (forall b, In b (bookings db') <-> In b (bookings db) /\ b_field_id b <> field_id) /\
  (forall s, In s (sessions db') -> In s (sessions db) /\ s_field_id s <> field_id) /\
  (forall r, In r (reports db') ->
             In r (reports db) /\ r_field_id r <> field_id /\
             forall s, In s (sessions db) -> s_field_id s = field_id ->
                       r_session_id r <> s_id s) /\
  (forall t, In t (tags db') -> t_field_id t <> field_id) /\
  (forall other_id, other_id <> field_id ->
                    get_field db' other_id = get_field db other_id) /\
  tags db' = tags db /\
  (references_ok db -> references_ok db').
Proof.
  rename field_id into fid.
  intros Htrue db'. subst db'.
  destruct (delete_field_cases fid db)
    as [E | (field & Hget & Hbook & Htagrep & Hrepf & Htagf & E)];
    [rewrite E in Htrue; discriminate Htrue|].
  rewrite E. cbn [snd users fields bookings sessions reports tags].
  destruct (delete_session_rows_spec
              (filter (fun s => s_field_id s =? fid) (sessions db))
              (reports db) (sessions db)) as (Hr & Hs).
  assert (Hsess : forall s,
            In s (snd (fold_left delete_session_rows
                                 (filter (fun s0 => s_field_id s0 =? fid) (sessions db))
                                 (reports db, sessions db))) ->
            In s (sessions db) /\ s_field_id s <> fid).
  { intros s Hin. apply Hs in Hin. destruct Hin as (Hin & Hall). split; [exact Hin|].
    intros Hf. apply (Hall s); [|reflexivity].
    apply filter_In. split; [exact Hin | apply Z.eqb_eq; exact Hf]. }
  assert (Hreps : forall r,
            In r (fst (fold_left delete_session_rows
                                 (filter (fun s0 => s_field_id s0 =? fid) (sessions db))
                                 (reports db, sessions db))) ->
            In r (reports db) /\ r_field_id r <> fid /\
            forall s, In s (sessions db) -> s_field_id s = fid -> r_session_id r <> s_id s).
  { intros r Hin. split; [apply Hr in Hin; tauto|]. split; [apply Hrepf; exact Hin|].
    apply Hr in Hin. destruct Hin as (_ & Hall).
    intros s Hsin Hf. apply Hall. apply filter_In.
    split; [exact Hsin | apply Z.eqb_eq; exact Hf]. }
  assert (Hfields : forall k, k <> fid ->
            has_row f_id (fields db) k = true ->
            has_row f_id (filter (fun f => negb (f_id f =? fid)) (fields db)) k = true).
  { intros k Hk Hrow. apply has_row_filter; [exact Hrow|].
    intros f _ Hf. apply negb_true_iff. apply Z.eqb_neq. congruence. }
  split; [|split; [|split; [|split; [|split; [|split; [|split]]]]]].
  + unfold get_field. simpl.
    destruct (find _ (filter _ (fields db))) as [f|] eqn:Hf; [|reflexivity].
    apply find_some in Hf. destruct Hf as (Hin & Hf).
    apply filter_In in Hin. destruct Hin as (_ & Hin).
    rewrite Hf in Hin. discriminate Hin.
  + intros b. rewrite filter_In, negb_true_iff, Z.eqb_neq. tauto.
  + exact Hsess.
  + exact Hreps.
  + exact Htagf.
  + intros other Hne. unfold get_field. simpl.
    apply find_filter_other_key. exact Hne.
  + reflexivity.
  + intros (Hbs & Hss & Hrs & Hts). unfold references_ok.
    cbn [users fields bookings sessions reports tags].
    rewrite Forall_forall in Hbs, Hss, Hrs, Hts.
    split; [|split; [|split]]; apply Forall_forall.
    * intros b Hb. apply filter_In in Hb. destruct Hb as (Hb & Hbf).
      apply negb_true_iff in Hbf. apply Z.eqb_neq in Hbf.
      destruct (Hbs b Hb) as (H1 & H2). split; [|exact H2].
      apply Hfields; assumption.
    * intros s Hin. destruct (Hsess s Hin) as (Hs0 & Hsf).
      destruct (Hss s Hs0) as (H1 & H2 & H3).
      split; [|split; [exact H2 | apply Hfields; assumption]].
      apply has_row_filter; [exact H1|].
      intros b Hb Hk. apply negb_true_iff. apply Z.eqb_neq. intros Hbf.
      specialize (Hbook s Hs0).
      assert (Hrow : has_row b_id (filter (fun b0 => b_field_id b0 =? fid) (bookings db))
                             (s_booking_id s) = true).
      { unfold has_row. apply existsb_exists. exists b. split.
        - apply filter_In. split; [exact Hb | apply Z.eqb_eq; exact Hbf].
        - apply Z.eqb_eq. exact Hk. }
      congruence.
    * intros r Hin. destruct (Hreps r Hin) as (Hr0 & Hrf & Hrs0).
      destruct (Hrs r Hr0) as (H1 & H2 & H3).
      split; [|split; [apply Hfields; assumption | exact H3]].
      apply (has_row_subset s_id (sessions db)); [exact H1|].
      intros s Hs0 Hk. apply Hs. split; [exact Hs0|].
      intros s' Hs' Eid. apply filter_In in Hs'. destruct Hs' as (Hs'in & Hs'f).
      apply Z.eqb_eq in Hs'f.
      apply (Hrs0 s' Hs'in Hs'f). congruence.
    * intros t Ht. destruct (Hts t Ht) as (H1 & H2 & H3).
      split; [|split; [exact H2 | apply Hfields; [apply Htagf; exact Ht | exact H3]]].
      apply (has_row_subset r_id (reports db)); [exact H1|].
      intros r Hr0 Hk. apply Hr. split; [exact Hr0|].
      intros s Hs0. apply filter_In in Hs0. destruct Hs0 as (Hs0 & Hsf).
      apply Z.eqb_eq in Hsf.
      exact (Htagrep t r s Ht Hr0 Hk Hs0 Hsf).
Qed.

(** X17. delete_field returns False and changes nothing when the field
    does not exist, and also when a hunt session refers to one of the
    field's bookings or an animal tag refers to the field: the bookings
    are deleted before the sessions and the tags are not deleted at all,
    so the foreign keys refuse the transaction.  A field with bookings but
    without hunt sessions, reports and tags is deleted.  Whenever
    delete_field returns True, the field is not found afterwards, the
    bookings that remain are exactly those of the other fields, no
    session, report or tag that remains refers to the field, no report
    remains for any of its sessions, the other fields and all animal tags
    are as before, and rows that satisfied the foreign keys before still
    do. *)
Theorem delete_field_removes_dependents :
  (forall db field_id,
     get_field db field_id = None -> delete_field field_id db = (false, db)) /\
  (forall db field_id b s,
     In b (bookings db) -> b_field_id b = field_id ->
     In s (sessions db) -> s_booking_id s = b_id b ->
     delete_field field_id db = (false, db)) /\
  (forall db field_id t,
     In t (tags db) -> t_field_id t = field_id -> delete_field field_id db = (false, db)) /\
  (forall db field_id,
     fst (delete_field field_id db) = false -> snd (delete_field field_id db) = db) /\
  (forall db field_id field,
     get_field db field_id = Some field ->
     (forall s, In s (sessions db) ->
                s_field_id s <> field_id /\
                forall b, In b (bookings db) -> b_field_id b = field_id ->
                          s_booking_id s <> b_id b) ->
     (forall r, In r (reports db) -> r_field_id r <> field_id) ->
     (forall t, In t (tags db) -> t_field_id t <> field_id) ->
     fst (delete_field field_id db) = true) /\
  (forall db field_id,
     fst (delete_field field_id db) = true ->
     let db' := snd (delete_field field_id db) in
     get_field db' field_id = None /\
     (forall b, In b (bookings db') <-> In b (bookings db) /\ b_field_id b <> field_id) /\
     (forall s, In s (sessions db') -> In s (sessions db) /\ s_field_id s <> field_id) /\
     (forall r, In r (reports db') ->
                In r (reports db) /\ r_field_id r <> field_id /\
                forall s, In s (sessions db) -> s_field_id s = field_id ->
                          r_session_id r <> s_id s) /\
     (forall t, In t (tags db') -> t_field_id t <> field_id) /\
     (forall other_id, other_id <> field_id ->
                       get_field db' other_id = get_field db other_id) /\
     tags db' = tags db /\
     (references_ok db -> references_ok db')).
Proof.
  split; [|split; [|split; [|split; [|split]]]].
  - intros db fid Hnone. unfold delete_field. rewrite Hnone. reflexivity.
  - intros db fid b s Hb Hbf Hs Hsb.
    destruct (delete_field_cases fid db) as [E | (field & _ & Hbook & _)]; [exact E|].
    exfalso. specialize (Hbook s Hs).
    assert (Hrow : has_row b_id (filter (fun b0 => b_field_id b0 =? fid) (bookings db))
                           (s_booking_id s) = true).
    { unfold has_row. apply existsb_exists. exists b. split.
      - apply filter_In. split; [exact Hb | apply Z.eqb_eq; exact Hbf].
      - apply Z.eqb_eq. symmetry. exact Hsb. }
    congruence.
  - intros db fid t Ht Htf.
    destruct (delete_field_cases fid db) as [E | (field & _ & _ & _ & _ & Htag & _)];
      [exact E|].
    exfalso. exact (Htag t Ht Htf).
  - intros db fid Hfalse.
    destruct (delete_field_cases fid db) as [E | (field & _ & _ & _ & _ & _ & E)];
      rewrite E in Hfalse |- *; [reflexivity | discriminate Hfalse].
  - intros db fid field Hget Hsess Hrep Htag.
    assert (Hid : f_id field = fid).
    { apply find_some in Hget. destruct Hget as (_ & H). apply Z.eqb_eq in H. exact H. }
    unfold delete_field. rewrite Hget, Hid.
    assert (E1 : existsb (fun s => has_row b_id (filter (fun b => b_field_id b =? fid)
                                                         (bookings db))
                                              (s_booking_id s)) (sessions db) = false).
    { destruct (existsb _ (sessions db)) eqn:E; [|reflexivity]. exfalso.
      apply existsb_exists in E. destruct E as (s & Hs & Hrow).
      unfold has_row in Hrow. apply existsb_exists in Hrow.
      destruct Hrow as (b & Hb & Hk). apply filter_In in Hb. destruct Hb as (Hb & Hbf).
      apply Z.eqb_eq in Hbf, Hk.
      destruct (Hsess s Hs) as (_ & Hno). apply (Hno b Hb Hbf). symmetry. exact Hk. }
    rewrite E1.
    assert (E2 : filter (fun s => s_field_id s =? fid) (sessions db) = []).
    { apply filter_all_false. intros s Hs. apply Z.eqb_neq.
      exact (proj1 (Hsess s Hs)). }
    rewrite E2. simpl.
    assert (E3 : existsb (fun r => r_field_id r =? fid) (reports db) = false).
    { destruct (existsb _ (reports db)) eqn:E; [|reflexivity]. exfalso.
      apply existsb_exists in E. destruct E as (r & Hr & Hk). apply Z.eqb_eq in Hk.
      exact (Hrep r Hr Hk). }
    assert (E4 : existsb (fun t => t_field_id t =? fid) (tags db) = false).
    { destruct (existsb _ (tags db)) eqn:E; [|reflexivity]. exfalso.
      apply existsb_exists in E. destruct E as (t & Ht & Hk). apply Z.eqb_eq in Hk.
      exact (Htag t Ht Hk). }
    rewrite E3, E4. reflexivity.
  - exact delete_field_success.
Qed.

(** Scenario: North Moor cannot be deleted while its booking has a hunt
    session; before the session was opened, the field was deleted together
    with the booking. *)
Lemma delete_field_removes_dependents_witness :
  delete_field 9 db_session = (false, db_session) /\
  delete_field 1 db_session = (false, db_session) /\
  fst (delete_field 1 (run_bookings [booking_call 1 5 "2025-10-20" 1] db_moor)) = true /\
  bookings (snd (delete_field 1 (run_bookings [booking_call 1 5 "2025-10-20" 1] db_moor)))
  = [] /\
  get_field (snd (delete_field 1 (run_bookings [booking_call 1 5 "2025-10-20" 1] db_moor))) 1
  = None.
Proof.
  destruct delete_field_removes_dependents as (Hnone & Hsession & _ & _ & Hlive & Hdone).
  split; [apply Hnone; reflexivity|].
  split.
  { apply (Hsession db_session 1 (mkBooking 1 1 5 "2025-10-20" 1 0 pending "card" "pm_test")
             (mkSession 1 1 5 1 None None not_started));
      try reflexivity; left; reflexivity. }
  assert (Htrue : fst (delete_field 1 (run_bookings [booking_call 1 5 "2025-10-20" 1] db_moor))
                  = true).
  { apply (Hlive _ 1 field_moor); [reflexivity | intros s [] | intros r [] | intros t []]. }
  split; [exact Htrue|].
  destruct (Hdone _ 1 Htrue) as (Hgone & _).
  split; [reflexivity | exact Hgone].
Defined.

(** ** The booking tabs of the field pages *)

Lemma date_not_booked_no_active (fid : Z) (d : string) (db : DB) :
  mem_string d (booked_dates fid db) = false ->
  filter (field_day_filter fid d) (bookings db) = [].
Proof.
  intros Hmem. apply filter_all_false. intros b Hb.
  destruct (field_day_filter fid d b) eqn:E; [|reflexivity].
  apply field_day_filter_true in E. destruct E as (Hf & Hd & Hact).
  assert (Hin : In d (booked_dates fid db)).
  { unfold booked_dates, get_bookings_by_field. rewrite <- Hd. apply in_map.
    apply filter_In. split; [|exact Hact].
    apply filter_In. split; [exact Hb | apply Z.eqb_eq; exact Hf]. }
  apply mem_string_In in Hin. congruence.
Qed.

Lemma create_booking_keeps_one_per_field_day (fid h : Z) (d : string) (n p : Z)
    (pid : string) (ov : bool) (db : DB) :
  filter (field_day_filter fid d) (bookings db) = [] ->
  one_booking_per_field_day db ->
  one_booking_per_field_day (snd (create_booking fid h d n p pid ov db)).
Proof.
  intros Hfree Hinv.
  destruct (create_booking_state fid h d n p pid ov db) as [-> | [-> | (st & -> & _)]];
    [exact Hinv | exact Hinv |].
  intros fid' d'. unfold add_booking. simpl. rewrite filter_app, length_app. simpl.
  destruct (field_day_filter fid' d' _) eqn:E; simpl.
  - apply field_day_filter_true in E. simpl in E. destruct E as (<- & <- & _).
    rewrite Hfree. simpl. lia.
  - specialize (Hinv fid' d'). lia.
Qed.

Lemma create_booking_free_hunter (fid h : Z) (d : string) (n p : Z) (pid : string) (db : DB) :
  fst (check_hunter_has_booking_on_date h d db) = false ->
  booking_insert_error db fid h n = None ->
  exists b,
    create_booking fid h d n p pid false db
    = ((Some b, "Booking created successfully"), add_booking b db) /\
    b = mkBooking (next_booking_id db) fid h d n p (b_status b) "card" pid.
Proof.
  intros Hfree Hacc. unfold create_booking, check_hunter_has_booking_on_date in *.
  destruct (find (hunter_day_filter h d) (bookings db)); [discriminate Hfree|].
  rewrite Hacc. simpl. eexists. split; reflexivity.
Qed.

(** X18. The booking tabs of the diy and of the subsidised field page keep
    "at most one pending or confirmed booking per field and date" and "at
    most one pending or confirmed booking per hunter and date".  When such
    a page reaches create_booking, the call is not refused as a double
    booking: the date is not among the blocked dates of the field the page
    shows, no pending or confirmed booking existed for that field and
    date, the hunter had none that day, the booking is for one hunter
    (free of charge on the diy page, where in addition the field's quota
    is not exhausted), and, the database accepting the row (the field and
    the member exist), the result is a stored booking with the message
    "Booking created successfully". *)
Theorem field_pages_book_one_party_per_day :
  (forall field user_id date payment_id db,
     (one_booking_per_field_day db ->
      one_booking_per_field_day (snd (confirm_diy_booking field user_id date payment_id db))) /\
     (one_active_per_day db ->
      one_active_per_day (snd (confirm_diy_booking field user_id date payment_id db)))) /\
  (forall field user_id date price payment_id db,
     (one_booking_per_field_day db ->
      one_booking_per_field_day
        (snd (confirm_subsidised_booking field user_id date price payment_id db))) /\
     (one_active_per_day db ->
      one_active_per_day
        (snd (confirm_subsidised_booking field user_id date price payment_id db)))) /\
  (forall field user_id date payment_id db result,
     fst (confirm_diy_booking field user_id date payment_id db) = booking_attempted result ->
     ~ In date (match f_blocked_dates field with Some l => l | None => [] end) /\
     filter (field_day_filter (f_id field) date) (bookings db) = [] /\
     fst (check_hunter_has_booking_on_date user_id date db) = false /\
     is_quota_exhausted field = false /\
     (booking_insert_error db (f_id field) user_id 1 = None ->
      exists b,
       result = (Some b, "Booking created successfully") /\
       b = mkBooking (next_booking_id db) (f_id field) user_id date 1 0 (b_status b)
                     "card" payment_id /\
       snd (confirm_diy_booking field user_id date payment_id db) = add_booking b db)) /\
  (forall field user_id date price payment_id db result,
     fst (confirm_subsidised_booking field user_id date price payment_id db)
     = booking_attempted result ->
     ~ In date (match f_blocked_dates field with Some l => l | None => [] end) /\
     filter (field_day_filter (f_id field) date) (bookings db) = [] /\
     fst (check_hunter_has_booking_on_date user_id date db) = false /\
     (booking_insert_error db (f_id field) user_id 1 = None ->
      exists b,
       result = (Some b, "Booking created successfully") /\
       b = mkBooking (next_booking_id db) (f_id field) user_id date 1 price (b_status b)
                     "card" payment_id /\
       snd (confirm_subsidised_booking field user_id date price payment_id db)
       = add_booking b db)).
Proof.
  split; [|split; [|split]].
  - intros field user d pid db. unfold confirm_diy_booking.
    destruct (mem_string d match f_blocked_dates field with Some l => l | None => [] end);
      destruct (mem_string d (booked_dates (f_id field) db)) eqn:Ek;
      destruct (fst (check_hunter_has_booking_on_date user d db));
      destruct (is_quota_exhausted field); cbn [negb andb snd]; try tauto.
    destruct (create_booking (f_id field) user d 1 0 pid false db) as [result db'] eqn:Ec.
    cbn [snd]. replace db' with (snd (create_booking (f_id field) user d 1 0 pid false db))
      by (rewrite Ec; reflexivity).
    split.
    + apply create_booking_keeps_one_per_field_day. apply date_not_booked_no_active. exact Ek.
    + apply (create_booking_keeps_one_active (mkBookingCall (f_id field) user d 1 0 pid)).
  - intros field user d price pid db. unfold confirm_subsidised_booking.
    destruct (mem_string d match f_blocked_dates field with Some l => l | None => [] end);
      destruct (mem_string d (booked_dates (f_id field) db)) eqn:Ek;
      destruct (fst (check_hunter_has_booking_on_date user d db));
      cbn [negb andb snd]; try tauto.
    destruct (create_booking (f_id field) user d 1 price pid false db) as [result db'] eqn:Ec.
    cbn [snd]. replace db' with (snd (create_booking (f_id field) user d 1 price pid false db))
      by (rewrite Ec; reflexivity).
    split.
    + apply create_booking_keeps_one_per_field_day. apply date_not_booked_no_active. exact Ek.
    + apply (create_booking_keeps_one_active (mkBookingCall (f_id field) user d 1 price pid)).
  - intros field user d pid db result. unfold confirm_diy_booking.
    destruct (mem_string d match f_blocked_dates field with Some l => l | None => [] end)
      eqn:Eb;
      destruct (mem_string d (booked_dates (f_id field) db)) eqn:Ek;
      destruct (fst (check_hunter_has_booking_on_date user d db)) eqn:Eh;
      destruct (is_quota_exhausted field) eqn:Eq; cbn [negb andb fst]; try discriminate.
    destruct (create_booking (f_id field) user d 1 0 pid false db) as [res db'] eqn:Ec.
    cbn [fst snd]. intros [= <-].
    split; [intros Hin; apply mem_string_In in Hin; congruence|].
    split; [apply date_not_booked_no_active; exact Ek|].
    split; [reflexivity|]. split; [reflexivity|].
    intros Hacc.
    destruct (create_booking_free_hunter (f_id field) user d 1 0 pid db Eh Hacc)
      as (b & Hc & Hb).
    rewrite Hc in Ec. injection Ec as <- <-.
    exists b. split; [reflexivity|]. split; [exact Hb | reflexivity].
  - intros field user d price pid db result. unfold confirm_subsidised_booking.
    destruct (mem_string d match f_blocked_dates field with Some l => l | None => [] end)
      eqn:Eb;
      destruct (mem_string d (booked_dates (f_id field) db)) eqn:Ek;
      destruct (fst (check_hunter_has_booking_on_date user d db)) eqn:Eh;
      cbn [negb andb fst]; try discriminate.
    destruct (create_booking (f_id field) user d 1 price pid false db) as [res db'] eqn:Ec.
    cbn [fst snd]. intros [= <-].
    split; [intros Hin; apply mem_string_In in Hin; congruence|].
    split; [apply date_not_booked_no_active; exact Ek|].
    split; [reflexivity|].
    intros Hacc.
    destruct (create_booking_free_hunter (f_id field) user d 1 price pid db Eh Hacc)
      as (b & Hc & Hb).
    rewrite Hc in Ec. injection Ec as <- <-.
    exists b. split; [reflexivity|]. split; [exact Hb | reflexivity].
Qed.

Lemma one_booking_per_field_day_db_glen : one_booking_per_field_day db_glen.
Proof. intros fid d. simpl. lia. Qed.

(** Two members ask for the same day on the Glen Lease: the first gets a
    (confirmed) booking, the second is told the date is not available. *)
Lemma field_pages_book_one_party_per_day_witness :
  bookings (snd (confirm_diy_booking field_glen 5 "2025-10-20" "FREE_1" db_glen))
  = [mkBooking 1 2 5 "2025-10-20" 1 0 confirmed "card" "FREE_1"] /\
  one_booking_per_field_day
    (snd (confirm_diy_booking field_glen 6 "2025-10-20" "FREE_2"
            (snd (confirm_diy_booking field_glen 5 "2025-10-20" "FREE_1" db_glen)))) /\
  fst (confirm_diy_booking field_glen 6 "2025-10-20" "FREE_2"
         (snd (confirm_diy_booking field_glen 5 "2025-10-20" "FREE_1" db_glen)))
  = date_not_available.
Proof.
  destruct field_pages_book_one_party_per_day as (Hdiy & _ & Hreached & _).
  split; [|split; [|reflexivity]].
  - destruct (Hreached field_glen 5 "2025-10-20" "FREE_1" db_glen
                (Some (mkBooking 1 2 5 "2025-10-20" 1 0 confirmed "card" "FREE_1"),
                 "Booking created successfully") eq_refl)
      as (_ & _ & _ & _ & Hstored).
    destruct (Hstored eq_refl) as (b & Hb & _ & Hsnd).
    injection Hb as <-. rewrite Hsnd. reflexivity.
  - apply Hdiy. apply Hdiy. exact one_booking_per_field_day_db_glen.
Defined.

(** ** Artefacts of animal tags *)

Lemma list_ascii_of_string_app (a b : string) :
  list_ascii_of_string (a ++ b)%string = list_ascii_of_string a ++ list_ascii_of_string b.
Proof. induction a as [|c a IH]; simpl; [reflexivity | rewrite IH; reflexivity]. Qed.

Lemma append_inj_right (a b s : string) : (a ++ s)%string = (b ++ s)%string -> a = b.
Proof.
  intros H. apply (f_equal list_ascii_of_string) in H.
  rewrite !list_ascii_of_string_app in H. apply app_inv_tail in H.
  apply (f_equal string_of_list_ascii) in H.
  rewrite !string_of_list_ascii_of_string in H. exact H.
Qed.

Lemma generate_qr_code_inj (a b : string) :
  generate_qr_code a = generate_qr_code b -> a = b.
Proof.
  unfold generate_qr_code. simpl. intros H. injection H as H.
  apply append_inj_right in H. exact H.
Qed.

Lemma save_animal_photo_inj (a b : string) :
  save_animal_photo a = save_animal_photo b -> a = b.
Proof.
  unfold save_animal_photo. simpl. intros H. injection H as H.
  apply append_inj_right in H. exact H.
Qed.

Lemma NoDup_map_inj {A B : Type} (f : A -> B) (l : list A) :
  (forall x y, f x = f y -> x = y) -> NoDup l -> NoDup (map f l).
Proof.
  intros Hinj. induction 1 as [|x l Hx Hl IH]; simpl; constructor; [|exact IH].
  intros Hin. apply in_map_iff in Hin. destruct Hin as (y & Hy & Hin).
  apply Hinj in Hy. subst. exact (Hx Hin).
Qed.

Lemma qr_paths_of_numbers (l : list AnimalTag) :
  Forall tag_paths_ok l ->
  map t_qr_code_path l = map generate_qr_code (map t_tag_number l).
Proof.
  induction 1 as [|t l (Hq & _) Hl IH]; simpl; [reflexivity|].
  rewrite Hq, IH. reflexivity.
Qed.

Section TagArtefacts.

Variable image_decodes : list Byte.byte -> bool.

Lemma created_tag_paths (c : TagCall) (db : DB) (t : AnimalTag) :
  fst (call_create_animal_tag image_decodes c db) = Some t ->
  t_qr_code_path t = generate_qr_code (t_tag_number t) /\
  t_photo_path t = match tc_photo_bytes c with
                   | Some (_ :: _) => Some (save_animal_photo (t_tag_number t))
                   | _ => None
                   end.
Proof.
  unfold call_create_animal_tag, create_animal_tag.
  destruct (tag_insert_error db (tc_uuid c) (tc_hunt_report_id c) (tc_hunter_id c)
                             (tc_field_id c)) as [[| |]|];
    destruct (tc_photo_bytes c) as [[|b bs]|];
    try destruct (image_decodes (b :: bs));
    simpl; try discriminate; intros [= <-]; split; reflexivity.
Qed.

Lemma issue_tags_keeps_paths (calls : list TagCall) (db : DB) :
  Forall tag_paths_ok (tags db) ->
  Forall tag_paths_ok (tags (issue_tags image_decodes calls db)).
Proof.
  unfold issue_tags. revert db.
  induction calls as [|c calls IH]; simpl; intros db Hok; [exact Hok|].
  apply IH.
  destruct (create_animal_tag_cases image_decodes c db)
    as [(_ & ->) | (t & Ht & _ & _ & ->)]; [exact Hok|].
  apply Forall_app. split; [exact Hok|]. constructor; [|constructor].
  destruct (created_tag_paths c db t Ht) as (Hq & Hp). split; [exact Hq|].
  rewrite Hp. destruct (tc_photo_bytes c) as [[|b bs]|]; auto.
Qed.

End TagArtefacts.

(** X19. A tag returned by create_animal_tag points at the QR image
    "qr_codes/<tag number>.png", and at the photo
    "animal_photos/<tag number>.jpg" exactly when non-empty photo bytes
    were given (otherwise it has no photo path).  In a tag table whose tag
    numbers are distinct and whose tags point at the artefacts of their
    own number, this stays so after any sequence of create_animal_tag
    calls, and then no two tags share a QR image path or a photo path. *)
Theorem tag_artefacts_never_collide (image_decodes : list Byte.byte -> bool) :
  (forall db c t,
     fst (call_create_animal_tag image_decodes c db) = Some t ->
     t_qr_code_path t = ("qr_codes/" ++ t_tag_number t ++ ".png")%string /\
     t_photo_path t = match tc_photo_bytes c with
                      | Some (_ :: _) =>
                          Some ("animal_photos/" ++ t_tag_number t ++ ".jpg")%string
                      | _ => None
                      end) /\
  (forall calls db,
     NoDup (map t_tag_number (tags db)) ->
     Forall tag_paths_ok (tags db) ->
     let db' := issue_tags image_decodes calls db in
     Forall tag_paths_ok (tags db') /\
     NoDup (map t_qr_code_path (tags db')) /\
     (forall i j t1 t2 path,
        nth_error (tags db') i = Some t1 -> nth_error (tags db') j = Some t2 -> i <> j ->
        t_photo_path t1 = Some path -> t_photo_path t2 <> Some path)).
Proof.
  split.
  - intros db c t Ht. exact (created_tag_paths image_decodes c db t Ht).
  - intros calls db Hnd Hok db'.
    destruct (issue_tags_keeps_unique image_decodes calls db Hnd) as (Hnd' & _).
    pose proof (issue_tags_keeps_paths image_decodes calls db Hok) as Hok'.
    fold db' in Hnd', Hok'.
    split; [exact Hok'|]. split.
    + rewrite (qr_paths_of_numbers _ Hok').
      apply NoDup_map_inj; [exact generate_qr_code_inj | exact Hnd'].
    + intros i j t1 t2 path Hi Hj Hij H1 H2.
      rewrite Forall_forall in Hok'.
      destruct (Hok' t1 (nth_error_In _ _ Hi)) as (_ & [E1 | E1]); [congruence|].
      destruct (Hok' t2 (nth_error_In _ _ Hj)) as (_ & [E2 | E2]); [congruence|].
      assert (Hnum : t_tag_number t1 = t_tag_number t2).
      { apply save_animal_photo_inj. congruence. }
      apply Hij.
      assert (Hlt : (i < List.length (map t_tag_number (tags db')))%nat).
      { rewrite length_map. apply nth_error_Some. congruence. }
      apply (proj1 (NoDup_nth_error _) Hnd' i j Hlt).
      rewrite !nth_error_map, Hi, Hj. simpl. congruence.
Qed.

(** Scenario: three tagging calls on Glen Lease with its two reports, the
    third with a uuid drawn before: two tags are stored, with different QR
    images and photos. *)
Lemma tag_artefacts_never_collide_witness :
  let db' := issue_tags any_image
               [tag_call 1 "Red Deer" "uuid-a"; tag_call 1 "Roe Deer" "uuid-b";
                tag_call 2 "Fox" "uuid-a"] db_glen_reported in
  NoDup (map t_qr_code_path (tags db')) /\
  map t_photo_path (tags db')
  = [Some "animal_photos/uuid-a.jpg"; Some "animal_photos/uuid-b.jpg"].
Proof.
  intros db'.
  destruct (tag_artefacts_never_collide any_image) as (_ & H).
  destruct (H [tag_call 1 "Red Deer" "uuid-a"; tag_call 1 "Roe Deer" "uuid-b";
               tag_call 2 "Fox" "uuid-a"] db_glen_reported (NoDup_nil _) (Forall_nil _))
    as (_ & Hqr & _).
  split; [exact Hqr | reflexivity].
Defined.

(** ** Status buttons of the booking pages *)

Lemma booking_found_by_id (db : DB) (b : Booking) :
  booking_ids_ok db -> In b (bookings db) -> get_booking_by_id (b_id b) db = Some b.
Proof.
  intros (Hnd & _). unfold get_booking_by_id.
  induction (bookings db) as [|a l IH]; simpl; [tauto|].
  inversion Hnd as [|x xs Hnotin Hnd']; subst.
  intros [-> | Hin].
  - rewrite Z.eqb_refl. reflexivity.
  - destruct (Z.eqb_spec (b_id a) (b_id b)) as [E | _].
    + exfalso. apply Hnotin. rewrite E. apply in_map. exact Hin.
    + apply IH; assumption.
Qed.

Lemma status_change_counts (db : DB) (id : Z) (st : booking_status) (b : Booking) :
  get_booking_by_id id db = Some b ->
  (forall h d,
     (List.length (filter (hunter_day_filter h d) (bookings (update_booking_status id st db)))
      + (if hunter_day_filter h d b then 1 else 0)
      = List.length (filter (hunter_day_filter h d) (bookings db))
        + (if hunter_day_filter h d (with_status st b) then 1 else 0))%nat) /\
  (forall fid d,
     hunters_booked (update_booking_status id st db) fid d
     + (if field_day_filter fid d b then b_num_hunters b else 0)
     = hunters_booked db fid d
       + (if field_day_filter fid d (with_status st b) then b_num_hunters b else 0)).
Proof.
  intros Hb. split.
  - intros h d. rewrite (update_booking_status_found id st db b Hb).
    apply (filter_length_update_first (fun x => b_id x =? id)); exact Hb.
  - intros fid d. unfold hunters_booked.
    rewrite (update_booking_status_found id st db b Hb).
    apply (filter_sum_update_first b_num_hunters (fun x => b_id x =? id)
             (field_day_filter fid d) (with_status st) (bookings db) b Hb).
Qed.

Lemma get_booking_after_status (db : DB) (id : Z) (st : booking_status) (b : Booking) :
  get_booking_by_id id db = Some b ->
  get_booking_by_id id (update_booking_status id st db) = Some (with_status st b).
Proof.
  intros Hb. unfold get_booking_by_id in *.
  rewrite (update_booking_status_found id st db b Hb).
  rewrite find_update_first_hit by (intros x Hx; exact Hx).
  rewrite Hb. reflexivity.
Qed.

(** X20. Through the status buttons of the pages a booking moves only
    pending -> confirmed, pending -> rejected or confirmed -> cancelled;
    a cancelled or rejected booking is never changed.  Each such step
    keeps "at most one pending or confirmed booking per hunter and date";
    an approval leaves the hunters counted for every field and date
    unchanged, and for a booking with non-negative num_hunters no step
    raises any of these counts, so the capacity bound is kept. *)
Theorem page_status_steps_keep_invariants (db : DB) (a : booking_action) (booking : Booking) :
  booking_ids_ok db ->
  In booking (bookings db) ->
  let db' := page_booking_action a booking db in
  (exists status',
     get_booking_by_id (b_id booking) db' = Some (with_status status' booking) /\
     (status' = b_status booking \/
      (b_status booking = pending /\ (status' = confirmed \/ status' = rejected)) \/
      (b_status booking = confirmed /\ status' = cancelled))) /\
  (b_status booking = cancelled \/ b_status booking = rejected -> db' = db) /\
  (one_active_per_day db -> one_active_per_day db') /\
  (a = outfitter_approves ->
   forall field_id date, hunters_booked db' field_id date = hunters_booked db field_id date) /\
  (0 <= b_num_hunters booking ->
   (forall field_id date, hunters_booked db' field_id date <= hunters_booked db field_id date) /\
   (capacity_respected db -> capacity_respected db')).
Proof.
  intros Hids Hin db'.
  pose proof (booking_found_by_id db booking Hids Hin) as Hget.
  assert (Hsame : get_booking_by_id (b_id booking) db
                  = Some (with_status (b_status booking) booking)).
  { rewrite Hget. destruct booking; reflexivity. }
  assert (Hfields : forall st fid,
            get_field (update_booking_status (b_id booking) st db) fid = get_field db fid).
  { intros st fid. unfold update_booking_status. rewrite Hget. reflexivity. }
  assert (Hcap : forall st,
            (forall fid d, hunters_booked (update_booking_status (b_id booking) st db) fid d
                           <= hunters_booked db fid d) ->
            capacity_respected db ->
            capacity_respected (update_booking_status (b_id booking) st db)).
  { intros st Hle Hinv fid d f Hf. rewrite Hfields in Hf.
    specialize (Hinv fid d f Hf). specialize (Hle fid d). lia. }
  destruct (status_change_counts db (b_id booking) cancelled booking Hget) as (Lc & Sc).
  destruct (status_change_counts db (b_id booking) confirmed booking Hget) as (La & Sa).
  destruct (status_change_counts db (b_id booking) rejected booking Hget) as (Lr & Sr).
  subst db'. unfold page_booking_action.
  destruct a; destruct (b_status booking) eqn:Est;
    try (split; [exists (b_status booking); rewrite Est in *; split;
                 [exact Hsame | left; reflexivity]
                | repeat split; try tauto; try discriminate; intros; lia]).
  - (* hunter cancels a confirmed booking *)
    split; [exists cancelled; split;
            [apply get_booking_after_status; exact Hget | right; right; auto]|].
    split; [intros [E | E]; discriminate E|].
    assert (Hle : forall fid d,
              hunters_booked (update_booking_status (b_id booking) cancelled db) fid d
              + (if field_day_filter fid d booking then b_num_hunters booking else 0)
              = hunters_booked db fid d).
    { intros fid d. specialize (Sc fid d).
      rewrite field_day_filter_with_status in Sc. simpl in Sc.
      rewrite andb_false_r in Sc. lia. }
    split; [|split; [discriminate|]].
    + intros Hinv h d. specialize (Lc h d). specialize (Hinv h d).
      rewrite hunter_day_filter_with_status in Lc. simpl in Lc.
      rewrite andb_false_r in Lc. destruct (hunter_day_filter h d booking); lia.
    + intros Hn.
      assert (Hall : forall fid d,
                hunters_booked (update_booking_status (b_id booking) cancelled db) fid d
                <= hunters_booked db fid d).
      { intros fid d. specialize (Hle fid d).
        destruct (field_day_filter fid d booking); lia. }
      split; [exact Hall | apply Hcap; exact Hall].
  - (* outfitter approves a pending booking *)
    assert (Hq : forall h d, hunter_day_filter h d (with_status confirmed booking)
                             = hunter_day_filter h d booking).
    { intros h d. rewrite hunter_day_filter_with_status. unfold hunter_day_filter.
      rewrite Est. reflexivity. }
    assert (Hf : forall fid d, field_day_filter fid d (with_status confirmed booking)
                               = field_day_filter fid d booking).
    { intros fid d. rewrite field_day_filter_with_status. unfold field_day_filter.
      rewrite Est. reflexivity. }
    assert (Heq : forall fid d,
              hunters_booked (update_booking_status (b_id booking) confirmed db) fid d
              = hunters_booked db fid d).
    { intros fid d. specialize (Sa fid d). rewrite Hf in Sa. lia. }
    split; [exists confirmed; split;
            [apply get_booking_after_status; exact Hget | right; left; auto]|].
    split; [intros [E | E]; discriminate E|].
    split; [|split].
    + intros Hinv h d. specialize (La h d). specialize (Hinv h d). rewrite Hq in La. lia.
    + intros _. exact Heq.
    + intros _. split; [intros fid d; rewrite Heq; lia|].
      apply Hcap. intros fid d. rewrite Heq. lia.
  - (* outfitter rejects a pending booking *)
    split; [exists rejected; split;
            [apply get_booking_after_status; exact Hget | right; left; auto]|].
    split; [intros [E | E]; discriminate E|].
    assert (Hle : forall fid d,
              hunters_booked (update_booking_status (b_id booking) rejected db) fid d
              + (if field_day_filter fid d booking then b_num_hunters booking else 0)
              = hunters_booked db fid d).
    { intros fid d. specialize (Sr fid d).
      rewrite field_day_filter_with_status in Sr. simpl in Sr.
      rewrite andb_false_r in Sr. lia. }
    split; [|split; [discriminate|]].
    + intros Hinv h d. specialize (Lr h d). specialize (Hinv h d).
      rewrite hunter_day_filter_with_status in Lr. simpl in Lr.
      rewrite andb_false_r in Lr. destruct (hunter_day_filter h d booking); lia.
    + intros Hn.
      assert (Hall : forall fid d,
                hunters_booked (update_booking_status (b_id booking) rejected db) fid d
                <= hunters_booked db fid d).
      { intros fid d. specialize (Hle fid d).
        destruct (field_day_filter fid d booking); lia. }
      split; [exact Hall | apply Hcap; exact Hall].
Qed.

(** A hunter cancels a confirmed booking on the Glen Lease. *)
Lemma page_status_steps_keep_invariants_witness :
  get_booking_by_id 1
    (page_booking_action hunter_cancels
       (mkBooking 1 2 5 "2025-10-20" 1 0 confirmed "card" "pm_test")
       (run_bookings [booking_call 2 5 "2025-10-20" 1] db_glen))
  = Some (mkBooking 1 2 5 "2025-10-20" 1 0 cancelled "card" "pm_test").
Proof.
  destruct (page_status_steps_keep_invariants
              (run_bookings [booking_call 2 5 "2025-10-20" 1] db_glen) hunter_cancels
              (mkBooking 1 2 5 "2025-10-20" 1 0 confirmed "card" "pm_test"))
    as ((st & Hget & _) & _).
  - split; [repeat constructor; simpl; tauto | repeat constructor; simpl; lia].
  - simpl. left. reflexivity.
  - reflexivity.
Defined.

(** ** Deleting a field keeps the booking invariants *)

Lemma filter_filter_length_le {A : Type} (p q : A -> bool) (l : list A) :
  (List.length (filter p (filter q l)) <= List.length (filter p l))%nat.
Proof.
  induction l as [|a l IH]; simpl; [lia|].
  destruct (q a); simpl; destruct (p a); simpl; lia.
Qed.

Lemma filter_filter_absorb {A : Type} (p q : A -> bool) (l : list A) :
  (forall x, p x = true -> q x = true) -> filter p (filter q l) = filter p l.
Proof.
  intros Hpq. induction l as [|a l IH]; simpl; [reflexivity|].
  destruct (q a) eqn:Eq; simpl.
  - rewrite IH. reflexivity.
  - destruct (p a) eqn:Ep; [rewrite (Hpq a Ep) in Eq; discriminate | exact IH].
Qed.

Lemma NoDup_map_filter {A B : Type} (f : A -> B) (q : A -> bool) (l : list A) :
  NoDup (map f l) -> NoDup (map f (filter q l)).
Proof.
  induction l as [|a l IH]; simpl; intros Hnd; [constructor|].
  inversion Hnd as [|x xs Hnotin Hnd']; subst.
  destruct (q a); simpl; [|apply IH; exact Hnd'].
  constructor; [|apply IH; exact Hnd'].
  intros Hin. apply Hnotin. apply in_map_iff in Hin. destruct Hin as (y & Hy & Hin).
  apply filter_In in Hin. rewrite <- Hy. apply in_map. tauto.
Qed.

Lemma get_field_after_delete (db : DB) (fid other : Z) (f : Field) :
  get_field (snd (delete_field fid db)) other = Some f ->
  get_field db other = Some f /\ (fst (delete_field fid db) = true -> other <> fid).
Proof.
  destruct (delete_field_cases fid db) as [E | (field & _ & _ & _ & _ & _ & E)];
    rewrite E; cbn [fst snd].
  - intros H. split; [exact H | discriminate].
  - unfold get_field. cbn [fields].
    destruct (Z.eq_dec other fid) as [-> | Hne].
    + intros H. exfalso. apply find_some in H. destruct H as (Hin & Hk).
      apply filter_In in Hin. destruct Hin as (_ & Hin). rewrite Hk in Hin. discriminate Hin.
    + rewrite find_filter_other_key by exact Hne. intros H. split; [exact H | auto].
Qed.

(** X21. delete_field keeps the booking invariants and the foreign keys,
    whether it deletes the field or refuses: "at most one pending or
    confirmed booking per hunter and date", "at most one per field and
    date", distinct booking ids below the next serial value, the capacity
    bound of every field that remains, and "every row refers to rows that
    exist". *)
Theorem delete_field_keeps_invariants (db : DB) (field_id : Z) :
  let db' := snd (delete_field field_id db) in
  (one_active_per_day db -> one_active_per_day db') /\
  (one_booking_per_field_day db -> one_booking_per_field_day db') /\
  (booking_ids_ok db -> booking_ids_ok db') /\
  (capacity_respected db -> capacity_respected db') /\
  (references_ok db -> references_ok db').
Proof.
  intros db'.
  destruct (fst (delete_field field_id db)) eqn:Hres.
  - assert (Hb : bookings db'
                 = filter (fun b => negb (b_field_id b =? field_id)) (bookings db)).
    { unfold db'.
      destruct (delete_field_cases field_id db) as [E | (field & _ & _ & _ & _ & _ & E)];
        rewrite E in Hres |- *; [discriminate Hres | reflexivity]. }
    assert (Hn : next_booking_id db' = next_booking_id db).
    { unfold db'.
      destruct (delete_field_cases field_id db) as [E | (field & _ & _ & _ & _ & _ & E)];
        rewrite E in Hres |- *; [discriminate Hres | reflexivity]. }
    split; [|split; [|split; [|split]]].
    + intros Hinv h d. rewrite Hb.
      eapply Nat.le_trans; [apply filter_filter_length_le | apply Hinv].
    + intros Hinv fid d. rewrite Hb.
      eapply Nat.le_trans; [apply filter_filter_length_le | apply Hinv].
    + intros (Hnd & Hlt). unfold booking_ids_ok. rewrite Hb, Hn. split.
      * apply NoDup_map_filter. exact Hnd.
      * rewrite Forall_forall in *. intros b Hin. apply filter_In in Hin. apply Hlt. tauto.
    + intros Hinv fid d f Hf.
      destruct (get_field_after_delete db field_id fid f Hf) as (Hf0 & Hne).
      assert (Hne' : fid <> field_id) by (apply Hne; exact Hres).
      unfold hunters_booked. rewrite Hb.
      rewrite filter_filter_absorb.
      * exact (Hinv fid d f Hf0).
      * intros b Hq. apply field_day_filter_true in Hq. destruct Hq as (Hq & _).
        apply negb_true_iff. apply Z.eqb_neq. congruence.
    + destruct (delete_field_success db field_id Hres) as (_ & _ & _ & _ & _ & _ & _ & Hrefs).
      exact Hrefs.
  - assert (E : db' = db).
    { unfold db'.
      destruct (delete_field_cases field_id db) as [E | (field & _ & _ & _ & _ & _ & E)];
        rewrite E in Hres |- *; [reflexivity | discriminate Hres]. }
    rewrite E. tauto.
Qed.

Lemma capacity_respected_db_two_fields : capacity_respected db_two_fields.
Proof.
  intros fid d f Hget. apply find_some in Hget. destruct Hget as (Hin & _).
  unfold hunters_booked. simpl. destruct Hin as [<- | [<- | []]]; simpl; lia.
Qed.

Lemma references_ok_db_two_fields : references_ok db_two_fields.
Proof. repeat split; constructor. Qed.

(** Scenario: two fields, a party of two booked on North Moor and a party
    of one on Glen Lease.  Deleting North Moor removes its booking and
    leaves the Glen Lease booking, within capacity and referring to rows
    that exist. *)
Lemma delete_field_keeps_invariants_witness :
  let db :=
    run_checked_bookings [booking_call 1 5 "2025-10-20" 2; booking_call 2 6 "2025-10-20" 1]
                         db_two_fields in
  fst (delete_field 1 db) = true /\
  bookings db = [mkBooking 1 1 5 "2025-10-20" 2 0 pending "card" "pm_test";
                 mkBooking 2 2 6 "2025-10-20" 1 0 confirmed "card" "pm_test"] /\
  bookings (snd (delete_field 1 db))
  = [mkBooking 2 2 6 "2025-10-20" 1 0 confirmed "card" "pm_test"] /\
  capacity_respected (snd (delete_field 1 db)) /\
  references_ok (snd (delete_field 1 db)).
Proof.
  intros db.
  destruct (delete_field_keeps_invariants db 1) as (_ & _ & _ & Hcap & Hrefs).
  split; [reflexivity|]. split; [reflexivity|]. split; [reflexivity|]. split.
  - apply Hcap. apply run_checked_bookings_keep_capacity.
    exact capacity_respected_db_two_fields.
  - apply Hrefs. apply run_checked_bookings_keep_references.
    exact references_ok_db_two_fields.
Defined.

(** ** The report the form builds *)

Lemma count_one_keys (s : string) (counts : list (string * Z)) :
  map fst (count_one s counts)
  = if existsb (String.eqb s) (map fst counts) then map fst counts
    else map fst counts ++ [s].
Proof.
  induction counts as [|[k c] rest IH]; simpl; [reflexivity|].
  rewrite (String.eqb_sym s k).
  destruct (String.eqb k s); simpl; [reflexivity|].
  rewrite IH. destruct (existsb _ _); reflexivity.
Qed.

Lemma count_one_nodup (s : string) (counts : list (string * Z)) :
  NoDup (map fst counts) -> NoDup (map fst (count_one s counts)).
Proof.
  intros Hnd. rewrite count_one_keys.
  destruct (existsb (String.eqb s) (map fst counts)) eqn:Ex; [exact Hnd|].
  apply NoDup_app; [exact Hnd | repeat constructor; auto |].
  intros k Hk [<- | []].
  assert (E : existsb (String.eqb s) (map fst counts) = true).
  { apply existsb_exists. exists s. split; [exact Hk | apply String.eqb_refl]. }
  congruence.
Qed.

Lemma count_one_positive (s : string) (counts : list (string * Z)) :
  Forall (fun sc => 1 <= snd sc) counts -> Forall (fun sc => 1 <= snd sc) (count_one s counts).
Proof.
  induction 1 as [|[k c] rest Hk Hrest IH]; simpl.
  - repeat constructor. simpl. lia.
  - destruct (String.eqb k s); constructor; simpl in *; auto. lia.
Qed.

Lemma count_one_sum (s : string) (counts : list (string * Z)) :
  sum_Z (map snd (count_one s counts)) = sum_Z (map snd counts) + 1.
Proof.
  unfold sum_Z. induction counts as [|[k c] rest IH]; simpl; [lia|].
  destruct (String.eqb k s); simpl; lia.
Qed.

Lemma count_one_count_of (s k : string) (counts : list (string * Z)) :
  count_of k (count_one s counts) = count_of k counts + (if string_dec s k then 1 else 0).
Proof.
  unfold count_of. induction counts as [|[k0 c] rest IH]; simpl.
  - destruct (string_dec s k) as [E | E].
    + apply String.eqb_eq in E. rewrite E. reflexivity.
    + apply String.eqb_neq in E. rewrite E. reflexivity.
  - destruct (String.eqb_spec k0 s) as [E0 | E0]; simpl.
    + subst k0. destruct (string_dec s k) as [E | E].
      * apply String.eqb_eq in E. rewrite E. reflexivity.
      * apply String.eqb_neq in E. rewrite E.
        destruct (find _ rest); lia.
    + destruct (String.eqb_spec k0 k) as [E1 | E1]; [|exact IH].
      subst k0. destruct (string_dec s k) as [E | E]; [congruence | simpl; lia].
Qed.

Lemma species_count_from (animals : list string) (acc : list (string * Z)) :
  NoDup (map fst acc) -> Forall (fun sc => 1 <= snd sc) acc ->
  let counts := fold_left (fun counts species => count_one species counts) animals acc in
  NoDup (map fst counts) /\ Forall (fun sc => 1 <= snd sc) counts /\
  sum_Z (map snd counts) = sum_Z (map snd acc) + Z.of_nat (List.length animals) /\
  (forall k, count_of k counts = count_of k acc + animals_of k animals).
Proof.
  revert acc. induction animals as [|a animals IH]; intros acc Hnd Hpos; simpl.
  - repeat split; auto; try lia. intros k. unfold animals_of. simpl. lia.
  - destruct (IH (count_one a acc) (count_one_nodup a acc Hnd) (count_one_positive a acc Hpos))
      as (H1 & H2 & H3 & H4).
    repeat split; auto.
    + rewrite H3, count_one_sum. lia.
    + intros k. rewrite H4, count_one_count_of. unfold animals_of. simpl.
      destruct (string_dec a k); lia.
Qed.

Lemma quantities_of_form (k : string) (counts : list (string * Z)) :
  NoDup (map fst counts) ->
  quantities_of k (map (fun sc => mkHarvest (Some (fst sc)) None (Some (snd sc))) counts)
  = match find (fun sc => String.eqb (fst sc) k) counts with
    | Some sc => [snd sc]
    | None => []
    end.
Proof.
  unfold quantities_of.
  induction counts as [|[s c] rest IH]; simpl; intros Hnd; [reflexivity|].
  inversion Hnd as [|x xs Hnotin Hnd']; subst.
  unfold harvest_species_name at 1. simpl.
  destruct (String.eqb_spec s k) as [E | E]; simpl.
  - subst s. f_equal.
    assert (Hnone : find (fun sc => String.eqb (fst sc) k) rest = None).
    { destruct (find _ rest) as [sc|] eqn:Hf; [|reflexivity].
      apply find_some in Hf. destruct Hf as (Hin & Hk). apply String.eqb_eq in Hk.
      exfalso. apply Hnotin. rewrite <- Hk. apply in_map. exact Hin. }
    rewrite (IH Hnd'), Hnone. reflexivity.
  - apply IH. exact Hnd'.
Qed.

(** X22. The hunt report form turns the list of harvested animals into
    one harvested entry per species, in the order of first appearance:
    the species of the entries are distinct, every quantity is at least 1,
    the quantities add up to animals_harvested (the number of animals),
    and the entry of a species carries the number of animals of that
    species.  A report built by the form therefore has non-negative
    quantities, keeps [0 <= remaining <= total] for every quota entry, and
    on a diy-leased field with a species list takes from the first entry
    of each species exactly the number of animals of that species,
    stopping at 0. *)
Theorem form_report_counts_animals (animals : list string) (ground_remarks : string)
    (review : option (Z * string)) (animals_shot : bool) :
  let report_data := form_report_data animals ground_remarks review animals_shot in
  let hs := form_species_harvested animals in
  NoDup (map harvest_species_name hs) /\
  Forall (fun h => 1 <= harvest_quantity h) hs /\
  sum_Z (map harvest_quantity hs) = report_animals report_data /\
  report_animals report_data = Z.of_nat (List.length animals) /\
  (forall species,
     quantities_of species hs
     = if 0 <? animals_of species animals then [animals_of species animals] else []) /\
  report_nonnegative report_data /\
  (forall db session_id field_id hunter_id today,
     quotas_ok db ->
     quotas_ok (snd (create_hunt_report session_id field_id hunter_id report_data today db))) /\
  (forall today q qs i species,
     first_of_species (q :: qs) i species ->
     exists e e',
       nth_error (q :: qs) i = Some e /\
       nth_error (deplete_all (report_species report_data) (q :: qs)) i = Some e' /\
       quarry_remaining e'
       = (if 0 <? animals_of species animals
          then Z.max 0 (quarry_remaining e - animals_of species animals)
          else quarry_remaining e) /\
       forall field,
         f_field_type field = diy_leased -> f_quarry_species field = Some (q :: qs) ->
         f_quarry_species (report_on_field today (report_animals report_data)
                                           (report_species report_data) field)
         = Some (deplete_all (report_species report_data) (q :: qs))).
Proof.
  intros report_data hs.
  destruct (species_count_from animals [] (NoDup_nil _) (Forall_nil _))
    as (Hnd & Hpos & Hsum & Hcount).
  fold (species_count animals) in Hnd, Hpos, Hsum, Hcount.
  assert (Hnames : map harvest_species_name hs = map fst (species_count animals)).
  { unfold hs, form_species_harvested. rewrite map_map. reflexivity. }
  assert (Hquant : map harvest_quantity hs = map snd (species_count animals)).
  { unfold hs, form_species_harvested. rewrite map_map. reflexivity. }
  assert (Hpos' : Forall (fun h => 1 <= harvest_quantity h) hs).
  { unfold hs, form_species_harvested. apply Forall_map.
    eapply Forall_impl; [|exact Hpos]. intros sc Hsc. exact Hsc. }
  assert (Hq : forall species,
             quantities_of species hs
             = if 0 <? animals_of species animals then [animals_of species animals] else []).
  { intros k. unfold hs, form_species_harvested.
    rewrite (quantities_of_form k _ Hnd).
    specialize (Hcount k). unfold count_of in Hcount. simpl in Hcount.
    destruct (find (fun sc => String.eqb (fst sc) k) (species_count animals)) as [sc|] eqn:Hf.
    - apply find_some in Hf. destruct Hf as (Hin & _).
      rewrite Forall_forall in Hpos. specialize (Hpos sc Hin).
      assert (E : (0 <? animals_of k animals) = true) by (apply Z.ltb_lt; lia).
      rewrite E, <- Hcount. reflexivity.
    - assert (E : (0 <? animals_of k animals) = false) by (apply Z.ltb_ge; lia).
      rewrite E. reflexivity. }
  assert (Hnonneg : report_nonnegative report_data).
  { unfold report_nonnegative, report_data, report_animals, report_species, form_report_data.
    cbn [rd_animals_harvested rd_species_harvested]. split; [lia|].
    eapply Forall_impl; [|exact Hpos']. intros h Hh. simpl in Hh. lia. }
  split; [rewrite Hnames; exact Hnd|].
  split; [exact Hpos'|].
  split; [rewrite Hquant, Hsum; unfold sum_Z; simpl; reflexivity|].
  split; [reflexivity|].
  split; [exact Hq|].
  split; [exact Hnonneg|].
  split.
  - intros db sid fid hid today Hok. apply report_keeps_quotas; assumption.
  - intros today q qs i species Hfirst.
    destruct (deplete_all_first (report_species report_data) (q :: qs) i species Hfirst)
      as (e & e' & He & He' & _ & _ & Hr).
    exists e, e'. split; [exact He|]. split; [exact He'|]. split.
    + rewrite Hr. change (report_species report_data) with hs. rewrite Hq.
      destruct (0 <? animals_of species animals); reflexivity.
    + intros field Ht Hs.
      destruct (report_on_field_species today (report_animals report_data)
                  (report_species report_data) field q qs Ht Hs) as (H & _).
      exact H.
Qed.

(** Two red deer and a fox on the Glen Lease: Red Deer goes from 10 to 8,
    the fox matches no quota entry. *)
Lemma form_report_counts_animals_witness :
  quotas_ok
    (snd (create_hunt_report 1 2 5
            (form_report_data ["Red Deer"; "Fox"; "Red Deer"] "" None true)
            "2025-10-20" db_glen_hunt)) /\
  option_map species_quota
    (get_field (snd (create_hunt_report 1 2 5
                       (form_report_data ["Red Deer"; "Fox"; "Red Deer"] "" None true)
                       "2025-10-20" db_glen_hunt)) 2)
  = Some [mkQuarry (Some "Red Deer") (Some 10) (Some 8);
          mkQuarry (Some "Roe Deer") (Some 6) (Some 6)] /\
  form_species_harvested ["Red Deer"; "Fox"; "Red Deer"]
  = [harvest "Red Deer" 2; harvest "Fox" 1].
Proof.
  destruct (form_report_counts_animals ["Red Deer"; "Fox"; "Red Deer"] "" None true)
    as (_ & _ & _ & _ & _ & _ & Hok & _).
  split; [apply Hok; exact quotas_ok_db_glen_hunt | split; reflexivity].
Defined.

(** ** Tags of a hunt report *)

(** X23. In a tag table with distinct tag numbers, every tag that
    get_animal_tags_by_hunt_report lists for a report belongs to that
    report and is returned by get_animal_tag_by_tag_number for its tag
    number; a tag returned by create_animal_tag is listed last under its
    report, and the lists of the other reports are unchanged. *)
Theorem report_tags_verify (image_decodes : list Byte.byte -> bool) :
  (forall db hunt_report_id t,
     NoDup (map t_tag_number (tags db)) ->
     In t (get_animal_tags_by_hunt_report hunt_report_id db) ->
     t_hunt_report_id t = hunt_report_id /\
     get_animal_tag_by_tag_number (t_tag_number t) db = Some t) /\
  (forall db c t,
     fst (call_create_animal_tag image_decodes c db) = Some t ->
     let db' := snd (call_create_animal_tag image_decodes c db) in
     t_hunt_report_id t = tc_hunt_report_id c /\
     get_animal_tags_by_hunt_report (tc_hunt_report_id c) db'
     = get_animal_tags_by_hunt_report (tc_hunt_report_id c) db ++ [t] /\
     (forall other_report, other_report <> tc_hunt_report_id c ->
        get_animal_tags_by_hunt_report other_report db'
        = get_animal_tags_by_hunt_report other_report db)).
Proof.
  split.
  - intros db r t Hnd Hin. unfold get_animal_tags_by_hunt_report in Hin.
    apply filter_In in Hin. destruct Hin as (Hin & Hr). apply Z.eqb_eq in Hr.
    split; [exact Hr|]. apply tag_lookup_issued; assumption.
  - intros db c t Ht db'. subst db'.
    assert (Hrep : t_hunt_report_id t = tc_hunt_report_id c).
    { revert Ht. unfold call_create_animal_tag, create_animal_tag.
      destruct (match tc_photo_bytes c with
                | Some (b :: bs) =>
                    if image_decodes (b :: bs)
                    then Some (Some (save_animal_photo (tc_uuid c))) else None
                | _ => Some None
                end) as [photo_path|]; [|discriminate].
      destruct (tag_insert_error db (tc_uuid c) (tc_hunt_report_id c) (tc_hunter_id c)
                                 (tc_field_id c)); simpl; [discriminate|].
      intros [= <-]. reflexivity. }
    destruct (create_animal_tag_cases image_decodes c db)
      as [(E & _) | (t' & Ht' & _ & _ & Htags)].
    + rewrite E in Ht. discriminate Ht.
    + rewrite Ht' in Ht. injection Ht as ->.
      split; [exact Hrep|]. unfold get_animal_tags_by_hunt_report. rewrite Htags.
      split.
      * rewrite filter_app. simpl. rewrite Hrep, Z.eqb_refl. reflexivity.
      * intros other Hne. rewrite filter_app. simpl. rewrite Hrep.
        assert (E : (tc_hunt_report_id c =? other) = false) by (apply Z.eqb_neq; congruence).
        rewrite E. apply app_nil_r.
Qed.

(** Scenario: the first tag of report 1 on Glen Lease. *)
Lemma report_tags_verify_witness :
  get_animal_tags_by_hunt_report 1
    (snd (call_create_animal_tag any_image (tag_call 1 "Red Deer" "uuid-a") db_glen_reported))
  = [mkTag 1 "uuid-a" 1 5 2 "Red Deer" "Good" (Some "animal_photos/uuid-a.jpg")
           "qr_codes/uuid-a.png" None None None].
Proof.
  destruct (report_tags_verify any_image) as (_ & H).
  destruct (H db_glen_reported (tag_call 1 "Red Deer" "uuid-a")
              (mkTag 1 "uuid-a" 1 5 2 "Red Deer" "Good" (Some "animal_photos/uuid-a.jpg")
                     "qr_codes/uuid-a.png" None None None) eq_refl) as (_ & Hlist & _).
  exact Hlist.
Defined.

(** ** Referential integrity *)

Lemma has_row_update_first {A : Type} (key : A -> Z) (p : A -> bool) (g : A -> A)
    (rows : list A) (k : Z) :
  (forall x, key (g x) = key x) ->
  has_row key (update_first p g rows) k = has_row key rows k.
Proof.
  intros Hk. unfold has_row. induction rows as [|x rows IH]; simpl; [reflexivity|].
  destruct (p x); simpl; [rewrite Hk; reflexivity | rewrite IH; reflexivity].
Qed.

(** The foreign keys hold in a state that has every key of an earlier
    state in which they held, when each of its rows refers to rows that
    exist in one of the two states. *)
Lemma references_ok_transfer (db db' : DB) :
  (forall k, has_row u_id (users db) k = true -> has_row u_id (users db') k = true) ->
  (forall k, has_row f_id (fields db) k = true -> has_row f_id (fields db') k = true) ->
  (forall k, has_row b_id (bookings db) k = true -> has_row b_id (bookings db') k = true) ->
  (forall k, has_row s_id (sessions db) k = true -> has_row s_id (sessions db') k = true) ->
  (forall k, has_row r_id (reports db) k = true -> has_row r_id (reports db') k = true) ->
  Forall (fun b => booking_refs_ok db b \/ booking_refs_ok db' b) (bookings db') ->
  Forall (fun s => session_refs_ok db s \/ session_refs_ok db' s) (sessions db') ->
  Forall (fun r => report_refs_ok db r \/ report_refs_ok db' r) (reports db') ->
  Forall (fun t => tag_refs_ok db t \/ tag_refs_ok db' t) (tags db') ->
  references_ok db'.
Proof.
  intros Hu Hf Hb Hs Hr HB HS HR HT.
  unfold references_ok. split; [|split; [|split]].
  - eapply Forall_impl; [|exact HB]. intros b [(H1 & H2) | H]; [|exact H]. split; auto.
  - eapply Forall_impl; [|exact HS].
    intros s [(H1 & H2 & H3) | H]; [|exact H]. repeat split; auto.
  - eapply Forall_impl; [|exact HR].
    intros r [(H1 & H2 & H3) | H]; [|exact H]. repeat split; auto.
  - eapply Forall_impl; [|exact HT].
    intros t [(H1 & H2 & H3) | H]; [|exact H]. repeat split; auto.
Qed.

Ltac old_rows H := eapply Forall_impl; [|exact H]; intros ? ?; left; assumption.

Lemma create_booking_any_keeps_references (fid h : Z) (d : string) (n p : Z) (pid : string)
    (ov : bool) (db : DB) :
  references_ok db -> references_ok (snd (create_booking fid h d n p pid ov db)).
Proof.
  intros Hrefs.
  destruct (create_booking_cases fid h d n p pid ov db)
    as [(_ & ->) | [(_ & ->) | (st & -> & _ & Hacc)]]; [exact Hrefs | exact Hrefs |].
  apply booking_insert_error_none in Hacc. destruct Hacc as (_ & Hf & Hu).
  apply references_ok_add_booking; [split; assumption | exact Hrefs].
Qed.

Lemma update_booking_status_keeps_references (id : Z) (st : booking_status) (db : DB) :
  references_ok db -> references_ok (update_booking_status id st db).
Proof.
  intros (HB & HS & HR & HT). unfold update_booking_status.
  destruct (get_booking_by_id id db); [|repeat split; assumption].
  apply (references_ok_transfer db); simpl; auto.
  - intros k. rewrite has_row_update_first; [auto | reflexivity].
  - apply update_first_forall; [|old_rows HB].
    intros x [H | H]; [left | right]; exact H.
  - old_rows HS.
  - old_rows HR.
  - old_rows HT.
Qed.

Lemma update_field_blocked_dates_keeps_references (fid : Z) (dates : list string) (db : DB) :
  references_ok db -> references_ok (update_field_blocked_dates fid dates db).
Proof.
  intros (HB & HS & HR & HT). unfold update_field_blocked_dates.
  destruct (get_field db fid); [|repeat split; assumption].
  apply (references_ok_transfer db); simpl; auto.
  - intros k. rewrite has_row_update_first; [auto | reflexivity].
  - old_rows HB.
  - old_rows HS.
  - old_rows HR.
  - old_rows HT.
Qed.

Lemma create_hunt_session_keeps_references (bid hid fid : Z) (db : DB) :
  references_ok db -> references_ok (snd (create_hunt_session bid hid fid db)).
Proof.
  intros Hrefs.
  destruct (create_hunt_session_cases bid hid fid db)
    as [(_ & ->) | [(_ & ->) | (Hacc & ->)]]; [exact Hrefs | exact Hrefs |].
  destruct Hrefs as (HB & HS & HR & HT).
  assert (Hnew : session_refs_ok db
                   (mkSession (next_session_id db) bid hid fid None None not_started)).
  { unfold session_insert_error in Hacc. unfold session_refs_ok. simpl.
    destruct (negb (int4 bid && int4 hid && int4 fid)); [discriminate|].
    destruct (has_row b_id (bookings db) bid), (has_row u_id (users db) hid),
      (has_row f_id (fields db) fid); simpl in Hacc; try discriminate.
    repeat split. }
  apply (references_ok_transfer db); simpl; auto.
  - intros k. apply has_row_app.
  - old_rows HB.
  - apply Forall_app. split; [old_rows HS|].
    constructor; [left; exact Hnew | constructor].
  - old_rows HR.
  - old_rows HT.
Qed.

Lemma session_call_keeps_references (sid : Z) (c : session_call) (db : DB) :
  references_ok db -> references_ok (apply_session_call sid c db).
Proof.
  intros (HB & HS & HR & HT).
  destruct c as [now|now]; unfold apply_session_call, start_hunt_session, end_hunt_session;
    (destruct (get_session db sid); [|repeat split; assumption]);
    (apply (references_ok_transfer db); simpl; auto;
     [ intros k; rewrite has_row_update_first; [auto | reflexivity]
     | old_rows HB
     | apply update_first_forall; [|old_rows HS];
       intros x [H | H]; [left | right]; exact H
     | old_rows HR
     | old_rows HT ]).
Qed.

Lemma create_hunt_report_keeps_references (sid fid hid : Z) (rd : ReportData)
    (today : string) (db : DB) :
  references_ok db -> references_ok (snd (create_hunt_report sid fid hid rd today db)).
Proof.
  intros Hrefs.
  destruct (create_hunt_report_cases sid fid hid rd today db)
    as [(_ & ->) | [(_ & ->) | (Hacc & ->)]]; [exact Hrefs | exact Hrefs |].
  destruct Hrefs as (HB & HS & HR & HT).
  set (report := mkReport (next_report_id db) sid fid hid (report_animals rd)
                          (report_species rd) _ _ _ _).
  assert (Hnew : report_refs_ok db report).
  { unfold report_insert_error in Hacc. unfold report_refs_ok, report. simpl.
    destruct (negb _); [discriminate|].
    destruct (has_row s_id (sessions db) sid), (has_row f_id (fields db) fid),
      (has_row u_id (users db) hid); simpl in Hacc; try discriminate.
    repeat split. }
  apply (references_ok_transfer db); simpl; auto.
  - intros k. rewrite has_row_update_first; [auto | apply report_on_field_id].
  - intros k. apply has_row_app.
  - old_rows HB.
  - old_rows HS.
  - apply Forall_app. split; [old_rows HR|].
    constructor; [left; exact Hnew | constructor].
  - old_rows HT.
Qed.

Lemma update_hunt_report_keeps_references (id : Z) (rating : option Z) (text : option string)
    (db : DB) :
  references_ok db -> references_ok (snd (update_hunt_report id rating text db)).
Proof.
  intros (HB & HS & HR & HT). unfold update_hunt_report.
  destruct (find _ (reports db)) as [r|]; [|repeat split; assumption].
  destruct (integer_update_fits _ _); [|repeat split; assumption].
  apply (references_ok_transfer db); simpl; auto.
  - intros k. rewrite has_row_update_first; [auto | reflexivity].
  - old_rows HB.
  - old_rows HS.
  - apply update_first_forall; [|old_rows HR].
    intros x [H | H]; [left | right]; exact H.
  - old_rows HT.
Qed.

Lemma create_animal_tag_keeps_references (image_decodes : list Byte.byte -> bool)
    (c : TagCall) (db : DB) :
  references_ok db -> references_ok (snd (call_create_animal_tag image_decodes c db)).
Proof.
  intros Hrefs. unfold call_create_animal_tag, create_animal_tag.
  destruct (match tc_photo_bytes c with
            | Some (b :: bs) =>
                if image_decodes (b :: bs)
                then Some (Some (save_animal_photo (tc_uuid c))) else None
            | _ => Some None
            end) as [photo_path|]; [|exact Hrefs].
  destruct (tag_insert_error db (tc_uuid c) (tc_hunt_report_id c) (tc_hunter_id c)
                             (tc_field_id c)) as [e|] eqn:Hacc.
  - destruct e, photo_path; exact Hrefs.
  - destruct Hrefs as (HB & HS & HR & HT).
    assert (Hnew : has_row r_id (reports db) (tc_hunt_report_id c) = true /\
                   has_row u_id (users db) (tc_hunter_id c) = true /\
                   has_row f_id (fields db) (tc_field_id c) = true).
    { unfold tag_insert_error in Hacc.
      destruct (negb _); [discriminate|].
      destruct (existsb _ (tags db)); [discriminate|].
      destruct (has_row r_id (reports db) (tc_hunt_report_id c)),
        (has_row u_id (users db) (tc_hunter_id c)),
        (has_row f_id (fields db) (tc_field_id c)); simpl in Hacc; try discriminate.
      repeat split. }
    destruct photo_path; simpl;
      (split; [exact HB | split; [exact HS | split; [exact HR|]]];
       apply Forall_app; split; [exact HT | constructor; [exact Hnew | constructor]]).
Qed.

Lemma delete_field_keeps_references (fid : Z) (db : DB) :
  references_ok db -> references_ok (snd (delete_field fid db)).
Proof.
  intros Hrefs.
  destruct (fst (delete_field fid db)) eqn:Hres.
  - destruct (delete_field_success db fid Hres) as (_ & _ & _ & _ & _ & _ & _ & H).
    apply H. exact Hrefs.
  - destruct (delete_field_cases fid db) as [E | (field & _ & _ & _ & _ & _ & E)];
      rewrite E in Hres |- *; [exact Hrefs | discriminate Hres].
Qed.

(** X24. The helpers that write keep the foreign keys of database.py
    satisfied: in a database where every booking, hunt session, hunt
    report and animal tag refers to rows that exist, this still holds
    after create_booking (with or without admin override),
    update_booking_status, update_field_blocked_dates,
    create_hunt_session, start_hunt_session, end_hunt_session,
    create_hunt_report, update_hunt_report, create_animal_tag and
    delete_field, whether the call succeeds or is refused. *)
Theorem helpers_keep_references (image_decodes : list Byte.byte -> bool) (db : DB) :
  references_ok db ->
  (forall field_id hunter_id date num_hunters total_price payment_id admin_override,
     references_ok (snd (create_booking field_id hunter_id date num_hunters total_price
                                        payment_id admin_override db))) /\
  (forall booking_id status, references_ok (update_booking_status booking_id status db)) /\
  (forall field_id blocked_dates,
     references_ok (update_field_blocked_dates field_id blocked_dates db)) /\
  (forall booking_id hunter_id field_id,
     references_ok (snd (create_hunt_session booking_id hunter_id field_id db))) /\
  (forall session_id now, references_ok (snd (start_hunt_session session_id now db))) /\
  (forall session_id now, references_ok (snd (end_hunt_session session_id now db))) /\
  (forall session_id field_id hunter_id report_data today,
     references_ok (snd (create_hunt_report session_id field_id hunter_id report_data today
                                            db))) /\
  (forall report_id review_rating review_text,
     references_ok (snd (update_hunt_report report_id review_rating review_text db))) /\
  (forall c, references_ok (snd (call_create_animal_tag image_decodes c db))) /\
  (forall field_id, references_ok (snd (delete_field field_id db))).
Proof.
  intros Hrefs. repeat match goal with |- _ /\ _ => split end.
  - intros. apply create_booking_any_keeps_references. exact Hrefs.
  - intros. apply update_booking_status_keeps_references. exact Hrefs.
  - intros. apply update_field_blocked_dates_keeps_references. exact Hrefs.
  - intros. apply create_hunt_session_keeps_references. exact Hrefs.
  - intros sid now. apply (session_call_keeps_references sid (call_start now)). exact Hrefs.
  - intros sid now. apply (session_call_keeps_references sid (call_end now)). exact Hrefs.
  - intros. apply create_hunt_report_keeps_references. exact Hrefs.
  - intros. apply update_hunt_report_keeps_references. exact Hrefs.
  - intros. apply create_animal_tag_keeps_references. exact Hrefs.
  - intros. apply delete_field_keeps_references. exact Hrefs.
Qed.

Lemma references_ok_db_glen_hunt : references_ok db_glen_hunt.
Proof.
  unfold references_ok, db_glen_hunt. simpl.
  repeat match goal with |- _ /\ _ => split end;
    repeat constructor.
Qed.

(** Scenario: on Glen Lease with its two bookings and sessions, the
    report of hunter 5 and a further booking of hunter 6 leave every row
    referring to rows that exist. *)
Lemma helpers_keep_references_witness :
  references_ok
    (snd (create_hunt_report 1 2 5 (report_of 3 [harvest "Red Deer" 3]) "2025-10-20"
            db_glen_hunt)) /\
  references_ok (snd (create_booking 2 6 "2025-10-22" 1 0 "pm_2" false db_glen_hunt)).
Proof.
  destruct (helpers_keep_references any_image db_glen_hunt references_ok_db_glen_hunt)
    as (Hbook & _ & _ & _ & _ & _ & Hreport & _).
  split; [apply Hreport | apply Hbook].
Defined.

(** ** Image files of the tags *)

Lemma write_file_written (path : string) (db : DB) : In path (files (write_file path db)).
Proof.
  unfold write_file. simpl.
  destruct (mem_string path (files db)) eqn:E.
  - apply mem_string_In. exact E.
  - apply in_or_app. right. left. reflexivity.
Qed.

Lemma write_file_keeps (path p : string) (db : DB) :
  In p (files db) -> In p (files (write_file path db)).
Proof.
  intros Hin. unfold write_file. simpl.
  destruct (mem_string path (files db)); [exact Hin | apply in_or_app; left; exact Hin].
Qed.

(** X25. create_animal_tag writes the QR image of the drawn tag number
    before anything else, so the file qr_codes/<tag number>.png exists
    after every call, also after one that returns no tag because the photo
    could not be stored or the database refused the row.  A tag that is
    returned names files that exist: its QR image and, when it has one,
    its photo.  No call removes a file. *)
Theorem tag_files_written (image_decodes : list Byte.byte -> bool) (c : TagCall) (db : DB) :
  let db' := snd (call_create_animal_tag image_decodes c db) in
  In (generate_qr_code (tc_uuid c)) (files db') /\
  (forall p, In p (files db) -> In p (files db')) /\
  (forall t,
     fst (call_create_animal_tag image_decodes c db) = Some t ->
     In (t_qr_code_path t) (files db') /\
     (forall p, t_photo_path t = Some p -> In p (files db'))).
Proof.
  unfold call_create_animal_tag, create_animal_tag.
  pose proof (write_file_written (generate_qr_code (tc_uuid c)) db) as Hqr.
  destruct (match tc_photo_bytes c with
            | Some (b :: bs) =>
                if image_decodes (b :: bs)
                then Some (Some (save_animal_photo (tc_uuid c))) else None
            | _ => Some None
            end) as [[photo|]|].
  - pose proof (write_file_written photo (write_file (generate_qr_code (tc_uuid c)) db))
      as Hphoto.
    pose proof (write_file_keeps photo _ _ Hqr) as Hqr'.
    assert (Hkeep : forall p, In p (files db) ->
                              In p (files (write_file photo
                                             (write_file (generate_qr_code (tc_uuid c)) db)))).
    { intros p Hp. apply write_file_keeps. apply write_file_keeps. exact Hp. }
    destruct (tag_insert_error db (tc_uuid c) (tc_hunt_report_id c) (tc_hunter_id c)
                               (tc_field_id c)) as [[| |]|]; simpl;
      (split; [exact Hqr' | split; [exact Hkeep|]]); try discriminate.
    intros t [= <-]. simpl. split; [exact Hqr'|]. intros p [= <-]. exact Hphoto.
  - assert (Hkeep : forall p, In p (files db) ->
                              In p (files (write_file (generate_qr_code (tc_uuid c)) db))).
    { intros p Hp. apply write_file_keeps. exact Hp. }
    destruct (tag_insert_error db (tc_uuid c) (tc_hunt_report_id c) (tc_hunter_id c)
                               (tc_field_id c)) as [[| |]|]; simpl;
      (split; [exact Hqr | split; [exact Hkeep|]]); try discriminate.
    intros t [= <-]. simpl. split; [exact Hqr|]. discriminate.
  - simpl. split; [exact Hqr|]. split; [|discriminate].
    intros p Hp. apply write_file_keeps. exact Hp.
Qed.

(** Scenario: the first tag of report 1 on Glen Lease leaves its QR image
    and its photo on disk; a second call that draws the same tag number is
    refused and the files stay. *)
Lemma tag_files_written_witness :
  files (snd (call_create_animal_tag any_image (tag_call 1 "Red Deer" "uuid-a")
                db_glen_reported))
  = ["qr_codes/uuid-a.png"; "animal_photos/uuid-a.jpg"] /\
  In "animal_photos/uuid-a.jpg"
     (files (snd (call_create_animal_tag any_image (tag_call 1 "Red Deer" "uuid-a")
                    db_glen_reported))) /\
  fst (call_create_animal_tag any_image (tag_call 2 "Roe Deer" "uuid-a")
         (snd (call_create_animal_tag any_image (tag_call 1 "Red Deer" "uuid-a")
                 db_glen_reported))) = None /\
  In "qr_codes/uuid-a.png"
     (files (snd (call_create_animal_tag any_image (tag_call 2 "Roe Deer" "uuid-a")
                    (snd (call_create_animal_tag any_image (tag_call 1 "Red Deer" "uuid-a")
                            db_glen_reported))))).
Proof.
  split; [reflexivity|]. split; [|split; [reflexivity|]].
  - destruct (tag_files_written any_image (tag_call 1 "Red Deer" "uuid-a") db_glen_reported)
      as (_ & _ & Htag).
    destruct (Htag (mkTag 1 "uuid-a" 1 5 2 "Red Deer" "Good" (Some "animal_photos/uuid-a.jpg")
                          "qr_codes/uuid-a.png" None None None) eq_refl) as (_ & Hphoto).
    apply Hphoto. reflexivity.
  - destruct (tag_files_written any_image (tag_call 2 "Roe Deer" "uuid-a")
                (snd (call_create_animal_tag any_image (tag_call 1 "Red Deer" "uuid-a")
                        db_glen_reported))) as (Hqr & _).
    exact Hqr.
Defined.
